(** * latex_service.py: a shallow embedding of the compilation service

    The service receives an archive, unpacks it into a temporary
    workspace, locates a LaTeX entry document, drives latexmk and
    pythontex through up to three passes and answers with the PDF or
    with an error.  Everything the Python code obtains from outside the
    interpreter (python-magic, the archive libraries, the child
    processes, tempfile, werkzeug, flask) is a field of the record
    [Env]; the file system is a tree the operations read and rewrite;
    Python exceptions are the [Raise] outcome of a state-and-exception
    monad.  Calls to [logger] are left out: they neither change the
    file system nor any returned value. *)

From Stdlib Require Import String Ascii List Bool Arith ZArith Lia.
Import ListNotations.
Open Scope string_scope.
Open Scope list_scope.

(* ===================================================================== *)
(** ** Python strings *)
(* ===================================================================== *)

Module PyStr.

(** The line-feed character (Python's '\n'). *)
Definition nl : ascii := "010"%char.

(** [c.lower()] on the ASCII range; other characters are kept. *)
Definition lower_ascii (c : ascii) : ascii :=
  let n := nat_of_ascii c in
  if ((65 <=? n) && (n <=? 90))%nat then ascii_of_nat (n + 32) else c.

(** [s.lower()] *)
Fixpoint lower (s : string) : string :=
  match s with
  | EmptyString => EmptyString
  | String c s' => String (lower_ascii c) (lower s')
  end.

(** [s.startswith(pre)] *)
Fixpoint startswith (s pre : string) {struct pre} : bool :=
  match pre with
  | EmptyString => true
  | String a pre' =>
      match s with
      | EmptyString => false
      | String b s' => Ascii.eqb a b && startswith s' pre'
      end
  end.

(** [s.endswith(suf)]: [s] is [suf], or its tail ends with [suf]. *)
Fixpoint endswith (s suf : string) : bool :=
  String.eqb s suf ||
  match s with
  | EmptyString => false
  | String _ s' => endswith s' suf
  end.

(** [s.endswith((a, b, ...))] with a tuple of suffixes. *)
Definition endswith_any (s : string) (sufs : list string) : bool :=
  existsb (endswith s) sufs.

(** [sub in s] *)
Fixpoint contains (s sub : string) : bool :=
  startswith s sub ||
  match s with
  | EmptyString => false
  | String _ s' => contains s' sub
  end.

(** [x in [a, b, ...]] on strings. *)
Definition mem (x : string) (l : list string) : bool :=
  existsb (String.eqb x) l.

(** [s.split(sep)] for a one-character separator. *)
Fixpoint split (sep : ascii) (s : string) : list string :=
  match s with
  | EmptyString => [EmptyString]
  | String c s' =>
      if Ascii.eqb c sep then EmptyString :: split sep s'
      else match split sep s' with
           | l :: ls => String c l :: ls
           | [] => [String c EmptyString]
           end
  end.

(** [s[n:]] *)
Fixpoint drop (n : nat) (s : string) : string :=
  match n, s with
  | O, _ => s
  | S n', String _ s' => drop n' s'
  | S _, EmptyString => EmptyString
  end.

(** [s[:n]] *)
Fixpoint take (n : nat) (s : string) : string :=
  match n, s with
  | S n', String c s' => String c (take n' s')
  | _, _ => EmptyString
  end.

(** [s.rfind(c)]: the index of the last occurrence of [c]. *)
Fixpoint rfind (c : ascii) (s : string) : option nat :=
  match s with
  | EmptyString => None
  | String a s' =>
      match rfind c s' with
      | Some i => Some (S i)
      | None => if Ascii.eqb a c then Some 0 else None
      end
  end.

(** [s.find(c)]: the index of the first occurrence of [c]. *)
Fixpoint find (c : ascii) (s : string) : option nat :=
  match s with
  | EmptyString => None
  | String a s' =>
      if Ascii.eqb a c then Some 0
      else match find c s' with Some i => Some (S i) | None => None end
  end.

(** [s.split(c, 1)[1]]: what follows the first [c]; Python raises
    IndexError when [c] does not occur, hence the option. *)
Definition after_first (c : ascii) (s : string) : option string :=
  match find c s with
  | Some i => Some (drop (S i) s)
  | None => None
  end.

(** *** Text read from a file

    [open(p, 'r', encoding='utf-8', errors='ignore').read()] decodes
    the bytes of the file and then translates the line ends.  A text is
    held here as the UTF-8 encoding of its code points: the patterns
    this program looks for are ASCII, and an ASCII byte never lies
    inside the encoding of another code point, so [in], [split],
    [startswith] and the slice [line[2:]] after ["! "] act on the
    encoding as they do on the code points. *)

(** The carriage return (Python's '\r'). *)
Definition cr : ascii := "013"%char.

(** A continuation byte, 0x80 to 0xBF. *)
Definition is_continuation (c : ascii) : bool :=
  let n := nat_of_ascii c in ((128 <=? n) && (n <=? 191))%nat.

(** What the UTF-8 decoder finds at the head of its input: a code point
    of [n] bytes, [n] bytes that are no code point (an invalid start
    byte, or a start byte and the continuation bytes read before one
    that does not fit), or an encoding the end of the data cuts off. *)
Inductive utf8_head := Scalar (n : nat) | Invalid (n : nat) | Truncated.

(** CPython's decoder: the first byte tells the length; 0xC0, 0xC1 and
    0xF5 to 0xFF start nothing; after 0xE0 the second byte is at least
    0xA0 (no overlong form), after 0xED at most 0x9F (no surrogate),
    after 0xF0 at least 0x90, after 0xF4 at most 0x8F. *)
Definition utf8_decode_head (s : string) : utf8_head :=
  match s with
  | EmptyString => Scalar 0
  | String c0 rest =>
      let ch := nat_of_ascii c0 in
      if (ch <? 128)%nat then Scalar 1
      else if (ch <? 194)%nat then Invalid 1
      else if (ch <? 224)%nat then
        match rest with
        | EmptyString => Truncated
        | String c1 _ => if is_continuation c1 then Scalar 2 else Invalid 1
        end
      else if (ch <? 240)%nat then
        match rest with
        | EmptyString => Truncated
        | String c1 rest1 =>
            let ch2 := nat_of_ascii c1 in
            if negb (is_continuation c1)
               || (if (ch2 <? 160)%nat then (ch =? 224)%nat else (ch =? 237)%nat)
            then Invalid 1
            else match rest1 with
                 | EmptyString => Truncated
                 | String c2 _ => if is_continuation c2 then Scalar 3 else Invalid 2
                 end
        end
      else if (ch <? 245)%nat then
        match rest with
        | EmptyString => Truncated
        | String c1 rest1 =>
            let ch2 := nat_of_ascii c1 in
            if negb (is_continuation c1)
               || (if (ch2 <? 144)%nat then (ch =? 240)%nat else (ch =? 244)%nat)
            then Invalid 1
            else match rest1 with
                 | EmptyString => Truncated
                 | String c2 rest2 =>
                     if negb (is_continuation c2) then Invalid 2
                     else match rest2 with
                          | EmptyString => Truncated
                          | String c3 _ =>
                              if is_continuation c3 then Scalar 4 else Invalid 3
                          end
                 end
        end
      else Invalid 1
  end.

(** [data.decode('utf-8', errors='ignore')]: the bytes that are no code
    point are left out, and so is an encoding cut off by the end of the
    data.  Every step consumes a byte, so [fuel] bytes of fuel are
    enough for [fuel] bytes of data. *)
Fixpoint utf8_ignore_from (fuel : nat) (s : string) : string :=
  match fuel with
  | O => EmptyString
  | S fuel' =>
      match s with
      | EmptyString => EmptyString
      | String _ _ =>
          match utf8_decode_head s with
          | Scalar n => (take n s ++ utf8_ignore_from fuel' (drop n s))%string
          | Invalid n => utf8_ignore_from fuel' (drop n s)
          | Truncated => EmptyString
          end
      end
  end.

Definition utf8_ignore (data : string) : string :=
  utf8_ignore_from (String.length data) data.

(** Universal newlines (the default [newline=None] of [open]): "\r\n"
    and a lone "\r" are read as "\n". *)
Fixpoint universal_newlines (s : string) : string :=
  match s with
  | EmptyString => EmptyString
  | String c rest =>
      if Ascii.eqb c cr then
        match rest with
        | String c' rest' =>
            if Ascii.eqb c' nl then String nl (universal_newlines rest')
            else String nl (universal_newlines rest)
        | EmptyString => String nl EmptyString
        end
      else String c (universal_newlines rest)
  end.

(** The text [read()] returns for a file that holds [data]. *)
Definition decode_text (data : string) : string :=
  universal_newlines (utf8_ignore data).

(** [sub in s], as a proposition: [s] is some text, [sub], some text. *)
Definition occurs (sub s : string) : Prop :=
  exists before after, s = (before ++ sub ++ after)%string.

End PyStr.

(* ===================================================================== *)
(** ** pathlib.Path *)
(* ===================================================================== *)

(** A path is the list of its components below the root. *)
Definition Path := list string.

Module PyPath.
Import PyStr.

(** [p / name] *)
Definition child (p : Path) (name : string) : Path := p ++ [name].

(** [p.name]: the final component, the empty string for the root. *)
Definition name (p : Path) : string := last p "".

(** [p.parent] *)
Definition parent (p : Path) : Path := removelast p.

(** pathlib's suffix of a file name: with [i = name.rfind('.')], it is
    [name[i:]] when [0 < i < len(name) - 1] and the empty string
    otherwise.  Only the last extension is ever returned. *)
Definition suffix_of_name (nm : string) : string :=
  match rfind "."%char nm with
  | Some i => if ((0 <? i) && (i <? String.length nm - 1))%nat then drop i nm else ""
  | None => ""
  end.

(** pathlib's stem of a file name: the name without its suffix. *)
Definition stem_of_name (nm : string) : string :=
  match rfind "."%char nm with
  | Some i => if ((0 <? i) && (i <? String.length nm - 1))%nat then take i nm else nm
  | None => nm
  end.

(** [p.suffix] *)
Definition suffix (p : Path) : string := suffix_of_name (name p).

(** [p.stem] *)
Definition stem (p : Path) : string := stem_of_name (name p).

(** [str(p)] for an absolute path. *)
Definition str (p : Path) : string := "/" ++ String.concat "/" p.

End PyPath.

(* ===================================================================== *)
(** ** Exceptions and the state-and-exception monad *)
(* ===================================================================== *)

(** The exception classes the service raises or handles.  A class stands
    for itself and its subclasses as far as the [except] clauses of this
    program tell them apart; [OtherException] is any further subclass of
    [Exception]. *)
Inductive exn_class :=
| ValueError | RuntimeError
| OSError | FileNotFoundError | FileExistsError | PermissionError
| IsADirectoryError | NotADirectoryError
| BadZipFile | TarError
| TimeoutExpired | CalledProcessError
| OtherException.

(** An exception object: its class and [str(e)]. *)
Record exn := Exn { exn_kind : exn_class; exn_str : string }.

Definition exn_class_eqb (a b : exn_class) : bool :=
  match a, b with
  | ValueError, ValueError | RuntimeError, RuntimeError | OSError, OSError
  | FileNotFoundError, FileNotFoundError | FileExistsError, FileExistsError
  | PermissionError, PermissionError | IsADirectoryError, IsADirectoryError
  | NotADirectoryError, NotADirectoryError | BadZipFile, BadZipFile
  | TarError, TarError | TimeoutExpired, TimeoutExpired
  | CalledProcessError, CalledProcessError
  | OtherException, OtherException => true
  | _, _ => false
  end.

(** What a Python expression evaluates to: a value, or a raised exception. *)
Inductive result (A : Type) : Type :=
| Ok (a : A)
| Raise (e : exn).
Arguments Ok {A} a.
Arguments Raise {A} e.

Definition is_ok {A} (r : result A) : bool :=
  match r with Ok _ => true | Raise _ => false end.

(** A computation over a state [S]: it ends with a value or an exception,
    and the state it reached is kept in both cases. *)
Definition SE (S A : Type) : Type := S -> result A * S.

Definition ret {S A} (a : A) : SE S A := fun s => (Ok a, s).

Definition bind {S A B} (m : SE S A) (k : A -> SE S B) : SE S B :=
  fun s => match m s with
           | (Ok a, s') => k a s'
           | (Raise e, s') => (Raise e, s')
           end.

Definition raise {S A} (e : exn) : SE S A := fun s => (Raise e, s).

(** [read f]: evaluate an expression that only inspects the state. *)
Definition read {S A} (f : S -> A) : SE S A := fun s => (Ok (f s), s).

(** [attempt f]: evaluate an expression that inspects the state and may
    raise. *)
Definition attempt {S A} (f : S -> result A) : SE S A := fun s => (f s, s).

(** [try: m  except Exception as e: h e] *)
Definition try_except {S A} (m : SE S A) (h : exn -> SE S A) : SE S A :=
  fun s => match m s with
           | (Ok a, s') => (Ok a, s')
           | (Raise e, s') => h e s'
           end.

(** [try: m  except cls as e: h e]: other classes propagate. *)
Definition try_except_class {S A} (cls : exn_class) (m : SE S A)
    (h : exn -> SE S A) : SE S A :=
  try_except m (fun e => if exn_class_eqb (exn_kind e) cls then h e else raise e).

(** [try: m  finally: c]: [c] runs whatever [m] did; an exception of
    [c] replaces the outcome of [m]. *)
Definition try_finally {S A} (m : SE S A) (c : SE S unit) : SE S A :=
  fun s => let (r, s1) := m s in
           match c s1 with
           | (Ok _, s2) => (r, s2)
           | (Raise e, s2) => (Raise e, s2)
           end.

(** [reify m]: run [m] and hand its outcome over as a value. *)
Definition reify {S A} (m : SE S A) : SE S (result A) :=
  fun s => let (r, s') := m s in (Ok r, s').

(** [reflect r]: continue with an outcome obtained earlier. *)
Definition reflect {S A} (r : result A) : SE S A := fun s => (r, s).

Declare Scope se_scope.
Delimit Scope se_scope with se.
Notation "x <- m ;; k" := (bind m (fun x => k))
  (at level 100, m at next level, right associativity) : se_scope.
Notation "m ;;; k" := (bind m (fun _ => k))
  (at level 100, right associativity) : se_scope.
Open Scope se_scope.

(* ===================================================================== *)
(** ** The file system *)
(* ===================================================================== *)

(** A directory lists its entries in the order the operating system
    reports them (os.scandir); a regular file holds its bytes. *)
#[local] Set Warnings "-register-all".
Inductive node :=
| File (data : string)
| Dir (entries : list (string * node)).

Module FS.
Import PyStr PyPath.

(** The first entry called [nm]. *)
Fixpoint assoc (nm : string) (es : list (string * node)) : option node :=
  match es with
  | [] => None
  | (k, x) :: rest => if String.eqb k nm then Some x else assoc nm rest
  end.

(** What the path [p] names below [n], if anything. *)
Fixpoint lookup (n : node) (p : Path) : option node :=
  match p with
  | [] => Some n
  | c :: p' =>
      match n with
      | Dir es => match assoc c es with
                  | Some sub => lookup sub p'
                  | None => None
                  end
      | File _ => None
      end
  end.

(** [p.exists()] *)
Definition exists_ (fs : node) (p : Path) : bool :=
  match lookup fs p with Some _ => true | None => false end.

Definition is_dir (fs : node) (p : Path) : bool :=
  match lookup fs p with Some (Dir _) => true | _ => false end.

Definition is_file (fs : node) (p : Path) : bool :=
  match lookup fs p with Some (File _) => true | _ => false end.

(** No string occurs twice in [l]. *)
Fixpoint distinct (l : list string) : bool :=
  match l with
  | [] => true
  | x :: rest => negb (mem x rest) && distinct rest
  end.

(** No directory lists a name twice. *)
Fixpoint well_formed (n : node) : bool :=
  match n with
  | File _ => true
  | Dir es =>
      distinct (map fst es) &&
      (fix all (es : list (string * node)) : bool :=
         match es with
         | [] => true
         | (_, c) :: rest => well_formed c && all rest
         end) es
  end.

(** The names of [es] that end with [suf], in listing order. *)
Definition matching (suf : string) (es : list (string * node)) : list string :=
  filter (fun nm => endswith nm suf) (map fst es).

(** [list(d.glob("*" + suf))]: the entries of the directory [d] whose
    name ends with [suf]; nothing when [d] is no directory. *)
Definition glob (fs : node) (d : Path) (suf : string) : list Path :=
  match lookup fs d with
  | Some (Dir es) => map (child d) (matching suf es)
  | _ => []
  end.

(** The recursive wildcard: the matches of a directory first, then
    those of its subdirectories, each visited in listing order
    (pathlib's selector for "**" yields the directory itself before
    it descends). *)
Fixpoint walk (suf : string) (here : Path) (n : node) : list Path :=
  match n with
  | File _ => []
  | Dir es =>
      map (child here) (matching suf es) ++
      (fix sub (es : list (string * node)) : list Path :=
         match es with
         | [] => []
         | (nm, c) :: rest => walk suf (child here nm) c ++ sub rest
         end) es
  end.

(** [list(d.glob("**/*" + suf))] *)
Definition rglob (fs : node) (d : Path) (suf : string) : list Path :=
  match lookup fs d with
  | Some n => walk suf d n
  | None => []
  end.

(** Replace the first entry called [nm], or add one at the end. *)
Fixpoint put_entry (nm : string) (x : node) (es : list (string * node))
  : list (string * node) :=
  match es with
  | [] => [(nm, x)]
  | (k, y) :: rest =>
      if String.eqb k nm then (nm, x) :: rest else (k, y) :: put_entry nm x rest
  end.

(** Remove the entries called [nm]. *)
Definition del_entry (nm : string) (es : list (string * node))
  : list (string * node) :=
  filter (fun e => negb (String.eqb (fst e) nm)) es.

Definition set_entry (nm : string) (x : option node) (es : list (string * node))
  : list (string * node) :=
  match x with
  | Some y => put_entry nm y es
  | None => del_entry nm es
  end.

(** Rewrite what [p] names: [f] receives the present entry and answers
    with the new one ([None]: no entry).  Nothing changes when the
    parent of [p] is not a directory of [n], or when [p] is the root. *)
Fixpoint alter (p : Path) (f : option node -> option node) (n : node) : node :=
  match p with
  | [] => n
  | c :: p' =>
      match n with
      | File _ => n
      | Dir es =>
          match p' with
          | [] => Dir (set_entry c (f (assoc c es)) es)
          | _ :: _ =>
              match assoc c es with
              | Some sub => Dir (put_entry c (alter p' f sub) es)
              | None => n
              end
          end
      end
  end.

(** What shutil.rmtree leaves of a tree when the removal of the paths
    outside [ok] fails and errors are ignored: a file goes when its
    unlink succeeds, a directory when it was emptied and its rmdir
    succeeds.  [None]: nothing is left. *)
Fixpoint prune (ok : Path -> bool) (here : Path) (n : node) : option node :=
  match n with
  | File _ => if ok here then None else Some n
  | Dir es =>
      let kept :=
        (fix go (es : list (string * node)) : list (string * node) :=
           match es with
           | [] => []
           | (nm, c) :: rest =>
               match prune ok (child here nm) c with
               | Some c' => (nm, c') :: go rest
               | None => go rest
               end
           end) es in
      match kept with
      | [] => if ok here then None else Some (Dir [])
      | _ :: _ => Some (Dir kept)
      end
  end.

(** *** Operations, as computations over the file system *)

(** [open(p, "rb").read()]: the bytes of the file. *)
Definition read_bytes (p : Path) : SE node string :=
  attempt (fun fs =>
    match lookup fs p with
    | Some (File d) => Ok d
    | Some (Dir _) => Raise (Exn IsADirectoryError (str p))
    | None => Raise (Exn FileNotFoundError (str p))
    end).

(** [open(p, 'r', encoding='utf-8', errors='ignore').read()]: opening
    raises for a directory or a missing file; decoding never raises. *)
Definition read_text (p : Path) : SE node string :=
  data <- read_bytes p ;;
  ret (decode_text data).

(** [open(p, "wb").write(data)] *)
Definition write_bytes (p : Path) (data : string) : SE node unit :=
  fun fs =>
    match lookup fs (parent p), lookup fs p with
    | Some (Dir _), Some (Dir _) => (Raise (Exn IsADirectoryError (str p)), fs)
    | Some (Dir _), _ => (Ok tt, alter p (fun _ => Some (File data)) fs)
    | _, _ => (Raise (Exn FileNotFoundError (str p)), fs)
    end.

(** [os.mkdir(p)] *)
Definition mkdir (p : Path) : SE node unit :=
  fun fs =>
    match lookup fs (parent p), lookup fs p with
    | Some (Dir _), None => (Ok tt, alter p (fun _ => Some (Dir [])) fs)
    | Some (Dir _), Some _ => (Raise (Exn FileExistsError (str p)), fs)
    | _, _ => (Raise (Exn FileNotFoundError (str p)), fs)
    end.

(** [p.unlink()]; [ok] tells which removals the system lets through. *)
Definition unlink (ok : Path -> bool) (p : Path) : SE node unit :=
  fun fs =>
    match lookup fs p with
    | Some (File _) =>
        if ok p then (Ok tt, alter p (fun _ => None) fs)
        else (Raise (Exn PermissionError (str p)), fs)
    | Some (Dir _) => (Raise (Exn IsADirectoryError (str p)), fs)
    | None => (Raise (Exn FileNotFoundError (str p)), fs)
    end.

(** [p.rmdir()] *)
Definition rmdir (ok : Path -> bool) (p : Path) : SE node unit :=
  fun fs =>
    match lookup fs p with
    | Some (Dir []) =>
        if ok p then (Ok tt, alter p (fun _ => None) fs)
        else (Raise (Exn PermissionError (str p)), fs)
    | Some (Dir (_ :: _)) => (Raise (Exn OSError "Directory not empty"), fs)
    | Some (File _) => (Raise (Exn NotADirectoryError (str p)), fs)
    | None => (Raise (Exn FileNotFoundError (str p)), fs)
    end.

(** [list(p.iterdir())] *)
Definition iterdir (p : Path) : SE node (list Path) :=
  attempt (fun fs =>
    match lookup fs p with
    | Some (Dir es) => Ok (map (child p) (map fst es))
    | Some (File _) => Raise (Exn NotADirectoryError (str p))
    | None => Raise (Exn FileNotFoundError (str p))
    end).

(** [shutil.rmtree(p, ignore_errors=True)]: it never raises; a path
    that is no directory is left alone (the error of listing it is
    one of those ignored). *)
Definition rmtree_ignore_errors (ok : Path -> bool) (p : Path) : SE node unit :=
  fun fs =>
    match lookup fs p with
    | Some (Dir es) => (Ok tt, alter p (fun _ => prune ok p (Dir es)) fs)
    | _ => (Ok tt, fs)
    end.

End FS.

(* ===================================================================== *)
(** ** The environment of the service *)
(* ===================================================================== *)

(** An archive library as the service uses it: the constructor that
    opens an archive ([zipfile.ZipFile(p)], [tarfile.open(p)], ...), and
    [extractall(dest)], which writes into the file system and may raise
    after it has written some members. *)
Record Codec := {
  codec_open : node -> Path -> result unit;
  codec_extractall : Path -> Path -> SE node unit
}.

(** Everything the module obtains from outside: the three capability
    flags set by the guarded imports (lines 13-32), the libraries, the
    child processes and the operating system. *)
Record Env := {
  MAGIC_SUPPORTED : bool;
  RAR_SUPPORTED : bool;
  SEVENZ_SUPPORTED : bool;
  (** [magic.from_file(str(p), mime=True)] *)
  magic_from_file : node -> Path -> result string;
  zipfile_ZipFile : Codec;
  (** [zf.testzip()]: the first damaged member, if any *)
  zipfile_testzip : node -> Path -> result (option string);
  tarfile_open : Codec;
  rarfile_RarFile : Codec;
  py7zr_SevenZipFile : Codec;
  (** [shutil.unpack_archive(str(p), str(dest))] *)
  shutil_unpack_archive : Path -> Path -> SE node unit;
  (** [subprocess.run(argv, cwd=cwd, capture_output=True, text=True,
      timeout=300).returncode]; [Raise] with class [TimeoutExpired]
      when the 300 seconds ran out: [subprocess.run] has then killed
      the child and waited for it, and the file system is as the child
      left it *)
  child_process : list string -> Path -> SE node Z;
  sys_executable : string;
  (** [werkzeug.utils.secure_filename], which answers with a flat name *)
  secure_filename : string -> string;
  (** [tempfile.gettempdir()] and the fresh name [tempfile.mkdtemp]
      picks there *)
  gettempdir : Path;
  mkdtemp_name : node -> string;
  (** the removals ([unlink], [rmdir]) the system lets through *)
  removal_allowed : Path -> bool;
  (** [flask.send_file(p, ...)]: the payload it reads *)
  flask_send_file : node -> Path -> result string
}.

(** One call of [subprocess.run]: its argv, working directory and how it
    ended. *)
Record invocation := {
  inv_argv : list string;
  inv_cwd : Path;
  inv_outcome : result Z
}.

(** The state a request runs in: the file system, and the child
    processes started so far, oldest first. *)
Record world := { fs : node; trace : list invocation }.

(** A computation on the file system, run in a [world]. *)
Definition lift_fs {A} (m : SE node A) : SE world A :=
  fun w => let (r, fs') := m (fs w) in (r, {| fs := fs'; trace := trace w |}).

(** werkzeug's FileStorage: the declared file name and the bytes. *)
Record FileStorage := { filename : string; stream : string }.

(** [request.files] *)
Record Request := { files : list (string * FileStorage) }.

(** [request.files["file"]], [None] when ["file" not in request.files] *)
Definition assoc_file (request : Request) : option FileStorage :=
  (fix get (l : list (string * FileStorage)) : option FileStorage :=
     match l with
     | [] => None
     | (k, f) :: rest => if String.eqb k "file" then Some f else get rest
     end) (files request).

(** What the endpoint returns: [jsonify({"error": msg}), status], or the
    attachment built by [send_file]. *)
Inductive Response :=
| Json (status : nat) (error : string)
| Attachment (path : Path) (mimetype download_name payload : string).

(* ===================================================================== *)
(** ** latex_service.py *)
(* ===================================================================== *)

(** Line 43.  A set: only membership and [sorted] are used. *)
Definition SUPPORTED_EXTENSIONS : list string :=
  [".zip"; ".tar"; ".tar.gz"; ".tar.bz2"; ".tar.xz"; ".rar"; ".7z"].

(** Lines 44-53. *)
Definition ARCHIVE_MIMES : list (string * string) :=
  [("application/zip", ".zip");
   ("application/x-zip-compressed", ".zip");
   ("application/x-tar", ".tar");
   ("application/x-gtar", ".tar");
   ("application/x-rar-compressed", ".rar");
   ("application/x-7z-compressed", ".7z");
   ("application/x-bzip2", ".tar.bz2");
   ("application/x-xz", ".tar.xz")].

(** [sorted(l)] on strings, by insertion. *)
Fixpoint insert_sorted (x : string) (l : list string) : list string :=
  match l with
  | [] => [x]
  | y :: l' => if String.leb x y then x :: l else y :: insert_sorted x l'
  end.

Definition sorted (l : list string) : list string :=
  fold_right insert_sorted [] l.

(** The messages of lines 381 and 404. *)
Definition NO_LATEX_FILES : string :=
  "No LaTeX files found. Please ensure your archive contains main.tex or other .tex files.".

Definition COMPILATION_FAILED : string := "LaTeX compilation failed".

(** The three compound suffixes tested with [endswith] (lines 97, 224, 310). *)
Definition COMPRESSED_TAR : list string := [".tar.gz"; ".tar.bz2"; ".tar.xz"].

(** The routine [extract_archive] hands an archive to (its if/elif
    chain, lines 298-334). *)
Inductive route := RouteZip | RouteTar | RouteRar | Route7z | RouteShutil.

Section Service.
Import PyStr PyPath FS.
Local Open Scope string_scope.
Context (E : Env).

(** Lines 65-76: the lookup by extension. *)
Definition detect_by_extension (file_path : Path) : string :=
  let suffix := lower (suffix file_path) in
  if suffix =? ".zip" then "application/zip"
  else if mem suffix [".tar"; ".tar.gz"; ".tar.bz2"; ".tar.xz"] then "application/x-tar"
  else if suffix =? ".rar" then "application/x-rar-compressed"
  else if suffix =? ".7z" then "application/x-7z-compressed"
  else "application/octet-stream".

(** Lines 55-76. *)
Definition detect_file_type (fs : node) (file_path : Path) : string :=
  if MAGIC_SUPPORTED E then
    match magic_from_file E fs file_path with
    | Ok mime => mime
    | Raise _ => detect_by_extension file_path
    end
  else detect_by_extension file_path.

(** Lines 78-102. *)
Definition is_archive_file (fs : node) (file_path : Path) : bool :=
  let mime_type := detect_file_type fs file_path in
  let extension := lower (suffix file_path) in
  let filename := lower (name file_path) in
  if mem mime_type (map fst ARCHIVE_MIMES) then true
  else if mem extension SUPPORTED_EXTENSIONS then true
  else if endswith_any filename COMPRESSED_TAR then true
  else false.

(** [subprocess.run] as the pipeline calls it: the call is recorded. *)
Definition subprocess_run (argv : list string) (cwd : Path) : SE world Z :=
  fun w =>
    let (r, fs') := child_process E argv cwd (fs w) in
    (r, {| fs := fs';
           trace := (trace w ++ [{| inv_argv := argv; inv_cwd := cwd;
                                    inv_outcome := r |}])%list |}).

(** Lines 113-123: the argv of the first pass. *)
Definition first_pass_argv (tex_path work_dir : Path) : list string :=
  ["latexmk"; "-synctex=1"; "-interaction=nonstopmode"; "-file-line-error";
   "-pdf"; "-f"; "-outdir=" ++ str work_dir; "--shell-escape"; str tex_path].

(** Lines 156-161. *)
Definition pythontex_argv (tex_path work_dir : Path) : list string :=
  ["pythontex"; "--interpreter"; "python:" ++ sys_executable E;
   str (child work_dir (name tex_path))].

(** Lines 175-184. *)
Definition final_pass_argv (tex_path work_dir : Path) : list string :=
  ["latexmk"; "-synctex=1"; "-interaction=nonstopmode"; "-file-line-error";
   "-pdf"; "-outdir=" ++ str work_dir; "--shell-escape"; str tex_path].

(** Line 146: the test on the text of the entry document. *)
Definition mentions_pythontex (tex_content : string) : bool :=
  contains tex_content "\usepackage{pythontex}"
  || (contains tex_content "\usepackage[" && contains tex_content "pythontex").

(** Lines 133-150: [needs_pythontex] once both checks have run; a
    document that cannot be read contributes nothing. *)
Definition needs_pythontex (fs : node) (tex_path work_dir : Path) : bool :=
  let needs_pythontex := false in
  let pythontex_files := glob fs work_dir ".pytxcode" in
  let needs_pythontex :=
    match pythontex_files with [] => needs_pythontex | _ :: _ => true end in
  match read_text tex_path fs with
  | (Ok tex_content, _) =>
      if mentions_pythontex tex_content then true else needs_pythontex
  | (Raise _, _) => needs_pythontex
  end.

(** Lines 104-217. *)
Definition compile_latex (tex_path output_path work_dir : Path) : SE world bool :=
  try_except
    (result <- subprocess_run (first_pass_argv tex_path work_dir) work_dir ;;
     needs <- read (fun w => needs_pythontex (fs w) tex_path work_dir) ;;
     if needs then
       (result <- subprocess_run (pythontex_argv tex_path work_dir) work_dir ;;
        (* a non-zero return code is logged, the final pass still runs *)
        result <- subprocess_run (final_pass_argv tex_path work_dir) work_dir ;;
        if negb (result =? 0)%Z then
          (* the PDF may have been written all the same *)
          (pdf <- read (fun w => exists_ (fs w) output_path) ;;
           if negb pdf then ret false
           else read (fun w => exists_ (fs w) output_path))
        else read (fun w => exists_ (fs w) output_path))
     else
       (* no pythontex: did the first pass fail? *)
       (failed <- (if negb (result =? 0)%Z then
                     pdf <- read (fun w => exists_ (fs w) output_path) ;;
                     ret (negb pdf)
                   else ret false) ;;
        if failed then ret false
        else read (fun w => exists_ (fs w) output_path)))
    (fun e =>
       match exn_kind e with
       | TimeoutExpired => ret false
       | CalledProcessError => ret false
       | _ => ret false
       end).

(** [tempfile.mkdtemp()] *)
Definition mkdtemp : SE node Path :=
  nm <- read (mkdtemp_name E) ;;
  let d := child (gettempdir E) nm in
  mkdir d ;;;
  ret d.

(** [p.stat().st_size] (a directory reports one block). *)
Definition stat_size (p : Path) : SE node nat :=
  attempt (fun fs =>
    match lookup fs p with
    | Some (File d) => Ok (String.length d)
    | Some (Dir _) => Ok 4096
    | None => Raise (Exn FileNotFoundError (str p))
    end).

(** Lines 219-280. *)
Definition save_uploaded_file (uploaded : FileStorage) : SE node Path :=
  let filename := secure_filename E (filename uploaded) in
  suffix <-
    (if endswith_any filename COMPRESSED_TAR then
       match after_first "."%char filename with
       | Some rest => ret ("." ++ rest)
       | None => raise (Exn OtherException "list index out of range")
       end
     else ret (suffix_of_name filename)) ;;
  temp_dir <- mkdtemp ;;
  let tmp_file := child temp_dir ("upload" ++ suffix) in
  try_except
    (let content := stream uploaded in
     write_bytes tmp_file content ;;;
     present <- read (fun fs => exists_ fs tmp_file) ;;
     if present then
       (file_size <- stat_size tmp_file ;;
        if (file_size =? 0)%nat then raise (Exn ValueError "Saved file is empty")
        else if lower suffix =? ".zip" then
          try_except_class BadZipFile
            (attempt (fun fs => codec_open (zipfile_ZipFile E) fs tmp_file) ;;;
             attempt (fun fs => zipfile_testzip E fs tmp_file) ;;;
             ret tt)
            (fun e => raise (Exn ValueError ("Invalid ZIP file after save: " ++ exn_str e)))
        else ret tt)
     else raise (Exn ValueError "Failed to create temporary file"))
    (fun e =>
       try_except
         (present <- read (fun fs => exists_ fs tmp_file) ;;
          (if present then unlink (removal_allowed E) tmp_file else ret tt) ;;;
          present <- read (fun fs => exists_ fs temp_dir) ;;
          if present then rmdir (removal_allowed E) temp_dir else ret tt)
         (fun _ => ret tt) ;;;
       raise e) ;;;
  ret tmp_file.

(** The tests of the if/elif chain of [extract_archive], in order. *)
Definition archive_route (mime_type suffix name : string) : route :=
  if mem mime_type ["application/zip"; "application/x-zip-compressed"]
     || (suffix =? ".zip") then RouteZip
  else if contains (lower mime_type) "tar" || startswith suffix ".tar"
          || endswith_any name COMPRESSED_TAR then RouteTar
  else if (mime_type =? "application/x-rar-compressed") || (suffix =? ".rar")
  then RouteRar
  else if (mime_type =? "application/x-7z-compressed") || (suffix =? ".7z")
  then Route7z
  else RouteShutil.

(** [with lib(archive_path) as a: a.extractall(dest)] *)
Definition open_and_extractall (lib : Codec) (archive_path dest : Path)
  : SE node unit :=
  attempt (fun fs => codec_open lib fs archive_path) ;;;
  codec_extractall lib archive_path dest.

(** Lines 297-334: the routine of each route. *)
Definition extraction_routine (r : route) (archive_path dest : Path)
  : SE node unit :=
  match r with
  | RouteZip =>
      try_except_class BadZipFile
        (attempt (fun fs => codec_open (zipfile_ZipFile E) fs archive_path) ;;;
         attempt (fun fs => zipfile_testzip E fs archive_path) ;;;
         codec_extractall (zipfile_ZipFile E) archive_path dest)
        (fun e => raise (Exn ValueError ("Invalid ZIP file: " ++ exn_str e)))
  | RouteTar => open_and_extractall (tarfile_open E) archive_path dest
  | RouteRar =>
      if negb (RAR_SUPPORTED E) then
        raise (Exn RuntimeError
                 "RAR format not supported (rarfile module not available)")
      else open_and_extractall (rarfile_RarFile E) archive_path dest
  | Route7z =>
      if negb (SEVENZ_SUPPORTED E) then
        raise (Exn RuntimeError
                 "7Z format not supported (py7zr module not available)")
      else open_and_extractall (py7zr_SevenZipFile E) archive_path dest
  | RouteShutil => shutil_unpack_archive E archive_path dest
  end.

(** Lines 282-338. *)
Definition extract_archive (archive_path dest : Path) : SE node unit :=
  supported <- read (fun fs => is_archive_file fs archive_path) ;;
  if negb supported then
    raise (Exn ValueError ("Unsupported archive format: " ++ suffix archive_path))
  else
    mime_type <- read (fun fs => detect_file_type fs archive_path) ;;
    let suffix := lower (suffix archive_path) in
    try_except
      (present <- read (fun fs => exists_ fs archive_path) ;;
       if negb present then
         raise (Exn FileNotFoundError ("Archive file not found: " ++ str archive_path))
       else
         extraction_routine
           (archive_route mime_type suffix (name archive_path)) archive_path dest)
      (fun e => raise e).

(** Lines 356-372: the upload is saved, checked and unpacked; [Some]
    is the response of an early [return]. *)
Definition receive_archive (uploaded : FileStorage) (workdir : Path)
    (saved : result Path) : SE node (option Response) :=
  try_except
    (archive_path <- reflect saved ;;
     supported <- read (fun fs => is_archive_file fs archive_path) ;;
     if negb supported then
       detected_type <- read (fun fs => detect_file_type fs archive_path) ;;
       ret (Some (Json 400
         ("Unsupported file format. File: " ++ filename uploaded
          ++ ", Detected type: " ++ detected_type
          ++ ". Supported formats: "
          ++ String.concat ", " (sorted SUPPORTED_EXTENSIONS))))
     else
       extract_archive archive_path workdir ;;;
       ret None)
    (fun e =>
       if exn_class_eqb (exn_kind e) ValueError then
         ret (Some (Json 400 (exn_str e)))
       else
         ret (Some (Json 400 ("Failed to extract archive: " ++ exn_str e)))).

(** Lines 374-384: the entry document, [None] when the workspace holds
    no .tex entry. *)
Definition find_main_tex (fs : node) (workdir : Path) : option Path :=
  let main_tex := child workdir "main.tex" in
  if negb (exists_ fs main_tex) then
    let tex_files := rglob fs workdir ".tex" in
    match tex_files with
    | [] => None
    | first :: _ => Some first
    end
  else Some main_tex.

(** Lines 402-416: the error message taken from the first log file. *)
Definition error_info (workdir : Path) : SE node string :=
  log_files <- read (fun fs => glob fs workdir ".log") ;;
  let error_info := COMPILATION_FAILED in
  match log_files with
  | [] => ret error_info
  | first :: _ =>
      try_except
        (log_content <- read_text first ;;
         if contains log_content "! " then
           let error_lines :=
             filter (fun line => startswith line "! ") (split nl log_content) in
           match error_lines with
           | line :: _ => ret ("LaTeX Error: " ++ drop 2 line)
           | [] => ret error_info
           end
         else ret error_info)
        (fun _ => ret error_info)
  end.

(** Lines 374-418: from the search for the entry document to the
    response. *)
Definition compile_workspace (workdir : Path) : SE world Response :=
  entry <- read (fun w => find_main_tex (fs w) workdir) ;;
  match entry with
  | None => ret (Json 400 NO_LATEX_FILES)
  | Some main_tex =>
      let pdf_name := stem main_tex ++ ".pdf" in
      let pdf_file := child workdir pdf_name in
      result <- compile_latex main_tex pdf_file workdir ;;
      pdf <- read (fun w => exists_ (fs w) pdf_file) ;;
      if result && pdf then
        payload <- lift_fs (attempt (fun fs => flask_send_file E fs pdf_file)) ;;
        ret (Attachment pdf_file "application/pdf" pdf_name payload)
      else
        msg <- lift_fs (error_info workdir) ;;
        ret (Json 400 msg)
  end.

(** Lines 356-418: the body of the outer [try]. *)
Definition endpoint_body (uploaded : FileStorage) (workdir : Path)
    (saved : result Path) : SE world Response :=
  early <- lift_fs (receive_archive uploaded workdir saved) ;;
  match early with
  | Some response => ret response
  | None => compile_workspace workdir
  end.

(** Lines 422-443: the saved upload and its temporary directory are
    removed; no exception leaves this block. *)
Definition remove_upload (archive_path : option Path) : SE node unit :=
  match archive_path with
  | Some archive_path =>
      present <- read (fun fs => exists_ fs archive_path) ;;
      if present then
        try_except
          (let temp_parent := parent archive_path in
           unlink (removal_allowed E) archive_path ;;;
           try_except
             (if startswith (name temp_parent) "tmp" then
                rest <- iterdir temp_parent ;;
                match rest with
                | [] => rmdir (removal_allowed E) temp_parent
                | _ :: _ => ret tt
                end
              else ret tt)
             (fun _ => ret tt))
          (fun e =>
             match exn_kind e with
             | PermissionError => ret tt
             | _ => ret tt
             end)
      else ret tt
  | None => ret tt
  end.

(** Lines 420-446: the [finally] block. *)
Definition cleanup (archive_path : option Path) (workdir : Path) : SE node unit :=
  remove_upload archive_path ;;;
  present <- read (fun fs => exists_ fs workdir) ;;
  if present then rmtree_ignore_errors (removal_allowed E) workdir else ret tt.

(** Lines 340-446.  [archive_path] is [None] until [save_uploaded_file]
    has returned; the [finally] block reads it. *)
Definition compile_latex_endpoint (request : Request) : SE world Response :=
  match assoc_file request with
  | None => ret (Json 400 "No file uploaded")
  | Some uploaded =>
      if filename uploaded =? "" then ret (Json 400 "No file selected")
      else
        workdir <- lift_fs mkdtemp ;;
        saved <- reify (lift_fs (save_uploaded_file uploaded)) ;;
        let archive_path :=
          match saved with Ok p => Some p | Raise _ => None end in
        try_finally (endpoint_body uploaded workdir saved)
                    (lift_fs (cleanup archive_path workdir))
  end.

End Service.

(* ===================================================================== *)
(** ** Runs of the pipeline *)
(* ===================================================================== *)

Section Runs.
Import PyStr PyPath FS.
Context (E : Env).

(** The three invocations, as the trace records them. *)
Definition first_pass (tex_path work_dir : Path) (r : result Z) : invocation :=
  {| inv_argv := first_pass_argv tex_path work_dir; inv_cwd := work_dir;
     inv_outcome := r |}.

Definition pythontex_pass (tex_path work_dir : Path) (r : result Z) : invocation :=
  {| inv_argv := pythontex_argv E tex_path work_dir; inv_cwd := work_dir;
     inv_outcome := r |}.

Definition final_pass (tex_path work_dir : Path) (r : result Z) : invocation :=
  {| inv_argv := final_pass_argv tex_path work_dir; inv_cwd := work_dir;
     inv_outcome := r |}.

(** What a run of [compile_latex] can look like: the invocations it
    added to the trace, its answer, and the file system it left. *)
Inductive compile_run (tex out wd : Path) (fs0 : node)
  : list invocation -> bool -> node -> Prop :=
| run_first_raised e fs1 :
    child_process E (first_pass_argv tex wd) wd fs0 = (Raise e, fs1) ->
    compile_run tex out wd fs0 [first_pass tex wd (Raise e)] false fs1
| run_single_pass rc fs1 :
    child_process E (first_pass_argv tex wd) wd fs0 = (Ok rc, fs1) ->
    needs_pythontex fs1 tex wd = false ->
    compile_run tex out wd fs0 [first_pass tex wd (Ok rc)] (exists_ fs1 out) fs1
| run_pythontex_raised rc fs1 e fs2 :
    child_process E (first_pass_argv tex wd) wd fs0 = (Ok rc, fs1) ->
    needs_pythontex fs1 tex wd = true ->
    child_process E (pythontex_argv E tex wd) wd fs1 = (Raise e, fs2) ->
    compile_run tex out wd fs0
      [first_pass tex wd (Ok rc); pythontex_pass tex wd (Raise e)] false fs2
| run_final_raised rc fs1 rc2 fs2 e fs3 :
    child_process E (first_pass_argv tex wd) wd fs0 = (Ok rc, fs1) ->
    needs_pythontex fs1 tex wd = true ->
    child_process E (pythontex_argv E tex wd) wd fs1 = (Ok rc2, fs2) ->
    child_process E (final_pass_argv tex wd) wd fs2 = (Raise e, fs3) ->
    compile_run tex out wd fs0
      [first_pass tex wd (Ok rc); pythontex_pass tex wd (Ok rc2);
       final_pass tex wd (Raise e)] false fs3
| run_three_passes rc fs1 rc2 fs2 rc3 fs3 :
    child_process E (first_pass_argv tex wd) wd fs0 = (Ok rc, fs1) ->
    needs_pythontex fs1 tex wd = true ->
    child_process E (pythontex_argv E tex wd) wd fs1 = (Ok rc2, fs2) ->
    child_process E (final_pass_argv tex wd) wd fs2 = (Ok rc3, fs3) ->
    compile_run tex out wd fs0
      [first_pass tex wd (Ok rc); pythontex_pass tex wd (Ok rc2);
       final_pass tex wd (Ok rc3)] (exists_ fs3 out) fs3.

End Runs.

(* ===================================================================== *)
(** ** Sample environments *)
(* ===================================================================== *)

(** Concrete libraries, toolchains and file systems on which the
    service can be run by computation. *)
Module Sample.
Import PyStr PyPath FS.
Local Open Scope string_scope.

(** Write the files [members] into the directory [dest], in order. *)
Fixpoint write_members (members : list (string * string)) (dest : Path)
  : SE node unit :=
  match members with
  | [] => ret tt
  | (nm, data) :: rest =>
      write_bytes (child dest nm) data ;;; write_members rest dest
  end.

(** A library that opens every archive and unpacks [members]. *)
Definition unpacking (members : list (string * string)) : Codec :=
  {| codec_open := fun _ _ => Ok tt;
     codec_extractall := fun _ dest => write_members members dest |}.

(** A library whose [extractall] writes [members] and then meets the
    damaged part of the archive. *)
Definition damaged_after (members : list (string * string)) (e : exn) : Codec :=
  {| codec_open := fun _ _ => Ok tt;
     codec_extractall := fun _ dest => write_members members dest ;;; raise e |}.

(** A library that refuses every file on opening. *)
Definition refusing (e : exn) : Codec :=
  {| codec_open := fun _ _ => Raise e;
     codec_extractall := fun _ _ => raise e |}.

(** A pass that writes [outputs] into its working directory and exits
    with [rc]. *)
Definition pass (outputs : list (string * string)) (rc : Z) (cwd : Path)
  : SE node Z :=
  write_members outputs cwd ;;; ret rc.

(** A pass that is still running after 300 seconds. *)
Definition hanging_pass (cwd : Path) : SE node Z :=
  raise (Exn TimeoutExpired "timed out after 300 seconds").

(** The child processes: pythontex, latexmk with -f, latexmk without. *)
Definition toolchain (first pythontex final : Path -> SE node Z)
    (argv : list string) (cwd : Path) : SE node Z :=
  match argv with
  | prog :: _ =>
      if prog =? "pythontex" then pythontex cwd
      else if mem "-f" argv then first cwd
      else final cwd
  | [] => raise (Exn OSError "no program")
  end.

Definition tmp : Path := ["tmp"].
Definition work : Path := ["tmp"; "tmpwork"].
Definition upload_dir : Path := ["tmp"; "tmpupload"].

(** An environment without python-magic, rarfile and py7zr, in which
    every removal succeeds. *)
Definition env (zip tar : Codec) (processes : list string -> Path -> SE node Z)
  : Env :=
  {| MAGIC_SUPPORTED := false;
     RAR_SUPPORTED := false;
     SEVENZ_SUPPORTED := false;
     magic_from_file := fun _ _ => Raise (Exn OtherException "magic is not loaded");
     zipfile_ZipFile := zip;
     zipfile_testzip := fun _ _ => Ok None;
     tarfile_open := tar;
     rarfile_RarFile := refusing (Exn OtherException "rarfile is not loaded");
     py7zr_SevenZipFile := refusing (Exn OtherException "py7zr is not loaded");
     shutil_unpack_archive := fun _ _ => raise (Exn ValueError "Unknown archive format");
     child_process := processes;
     sys_executable := "/usr/bin/python3";
     secure_filename := fun nm => nm;
     gettempdir := tmp;
     mkdtemp_name := fun fs => if exists_ fs work then "tmpupload" else "tmpwork";
     removal_allowed := fun _ => true;
     flask_send_file := fun fs p => fst (read_bytes p fs) |}.

(** Lines of text joined by line feeds. *)
Definition text (lines : list string) : string :=
  String.concat (String nl "") lines.

Definition plain_document : string :=
  text ["\documentclass{article}"; "\begin{document}"; "Hello"; "\end{document}"].

Definition pythontex_document : string :=
  text ["\documentclass{article}"; "\usepackage{pythontex}"; "\begin{document}";
        "\py{1+1}"; "\end{document}"].

Definition broken_log : string :=
  text ["This is pdfTeX"; "! Undefined control sequence."; "l.3 \foo";
        "! Emergency stop."].

(** An empty temporary directory, and a workspace that holds main.tex. *)
Definition empty_disk : node := Dir [("tmp", Dir [])].

Definition project (document : string) : node :=
  Dir [("tmp", Dir [("tmpwork", Dir [("main.tex", File document)])])].

Definition main_tex : Path := child work "main.tex".
Definition main_pdf : Path := child work "main.pdf".

Definition start (disk : node) : world := {| fs := disk; trace := [] |}.

(** One pass that succeeds. *)
Definition one_pass : list string -> Path -> SE node Z :=
  toolchain (pass [("main.pdf", "%PDF-1.5"); ("main.log", "Output written")] 0)
            (pass [] 0) (pass [] 0).

(** The first pass fails and leaves main.pytxcode; pythontex runs; the
    final pass writes the PDF and still exits with 1. *)
Definition final_pass_exits_nonzero : list string -> Path -> SE node Z :=
  toolchain (pass [("main.pytxcode", "=>PYTHONTEX#py"); ("main.log", "first")] 1)
            (pass [("pythontex-files-main", "1+1=2")] 0)
            (pass [("main.pdf", "%PDF-1.5")] 1).

(** The first pass never comes back. *)
Definition first_pass_hangs : list string -> Path -> SE node Z :=
  toolchain hanging_pass (pass [] 0) (pass [] 0).


(** The first pass exits with 1 and leaves a log with two errors. *)
Definition first_pass_logs_errors : list string -> Path -> SE node Z :=
  toolchain (pass [("main.log", broken_log)] 1) (pass [] 0) (pass [] 0).

Definition no_tar : Codec := refusing (Exn TarError "file could not be opened").

Definition env_one_pass : Env :=
  env (unpacking [("main.tex", plain_document)]) no_tar one_pass.

Definition env_final_nonzero : Env :=
  env (unpacking [("main.tex", plain_document)]) no_tar final_pass_exits_nonzero.

Definition env_timeout : Env :=
  env (unpacking [("main.tex", plain_document)]) no_tar first_pass_hangs.


(** A tar library that unpacks main.tex and then reaches the end of a
    truncated archive. *)
Definition env_truncated_tar : Env :=
  env (refusing (Exn BadZipFile "File is not a zip file"))
      (damaged_after [("main.tex", plain_document)]
                     (Exn TarError "unexpected end of data"))
      one_pass.

(** A zip library that finds no zip structure. *)
Definition env_bad_zip : Env :=
  env (refusing (Exn BadZipFile "File is not a zip file")) no_tar one_pass.

(** An upload directory that holds the file [nm], next to an empty
    workspace. *)
Definition uploaded_as (nm : string) : node :=
  Dir [("tmp", Dir [("tmpwork", Dir []);
                    ("tmpupload", Dir [(nm, File "archive bytes")])])].

Definition zip_request : Request :=
  {| files := [("file", {| filename := "project.zip"; stream := "PK archive bytes" |})] |}.

(** A workspace without any .tex entry, and one whose only .tex entry
    lies in a subdirectory. *)
Definition workspace_without_tex : node :=
  Dir [("tmp", Dir [("tmpwork", Dir [("notes.txt", File "no document");
                                    ("img", Dir [("plot.png", File "png")])])])].

Definition workspace_with_nested_tex : node :=
  Dir [("tmp", Dir [("tmpwork", Dir [("img", Dir [("plot.png", File "png")]);
                                    ("src", Dir [("paper.tex", File plain_document)])])])].

Definition workspace_with_log : node :=
  Dir [("tmp", Dir [("tmpwork", Dir [("main.tex", File plain_document);
                                    ("main.log", File broken_log)])])].

End Sample.

(** Further samples: a zip library whose [testzip] names a damaged
    member, an upload with a compound suffix, a temporary directory in
    which the workspace was already made, a document that names
    pythontex among other packages, a log with Windows line ends, and
    an environment in which python-magic reports RAR content. *)
Module MoreSamples.
Import PyStr PyPath FS Sample.
Local Open Scope string_scope.

Definition env_damaged_member : Env :=
  {| MAGIC_SUPPORTED := false;
     RAR_SUPPORTED := false;
     SEVENZ_SUPPORTED := false;
     magic_from_file := magic_from_file env_one_pass;
     zipfile_ZipFile := unpacking [("main.tex", plain_document); ("b.tex", "damaged")];
     zipfile_testzip := fun _ _ => Ok (Some "b.tex");
     tarfile_open := no_tar;
     rarfile_RarFile := rarfile_RarFile env_one_pass;
     py7zr_SevenZipFile := py7zr_SevenZipFile env_one_pass;
     shutil_unpack_archive := shutil_unpack_archive env_one_pass;
     child_process := one_pass;
     sys_executable := sys_executable env_one_pass;
     secure_filename := fun nm => nm;
     gettempdir := tmp;
     mkdtemp_name := mkdtemp_name env_one_pass;
     removal_allowed := fun _ => true;
     flask_send_file := flask_send_file env_one_pass |}.

Definition tar_gz_upload : FileStorage :=
  {| filename := "my.project.tar.gz"; stream := "gzip bytes" |}.

Definition workspace_ready : node := Dir [("tmp", Dir [("tmpwork", Dir [])])].

(** A document that loads pythontex in a list of packages. *)
Definition package_list_document : string :=
  text ["\documentclass{article}"; "\usepackage{amsmath,pythontex}";
        "\begin{document}"; "\py{1+1}"; "\end{document}"].

(** The log of [broken_log] as a Windows build of the toolchain writes
    it: the lines end with "\r\n", and the first error line holds a
    byte, 0xFF, that is no UTF-8. *)
Definition crlf : string := String cr (String nl "").

Definition stray_byte : string := String "255"%char "".

Definition crlf_log : string :=
  String.concat crlf
    ["This is pdfTeX"; "! Undefined control " ++ stray_byte ++ "sequence.";
     "l.3 \foo"; "! Emergency stop."].

Definition workspace_with_crlf_log : node :=
  Dir [("tmp", Dir [("tmpwork", Dir [("main.tex", File plain_document);
                                    ("main.log", File crlf_log)])])].

(** An environment with python-magic, which reports every file as a
    RAR archive, and without rarfile. *)
Definition env_magic_rar : Env :=
  {| MAGIC_SUPPORTED := true;
     RAR_SUPPORTED := false;
     SEVENZ_SUPPORTED := false;
     magic_from_file := fun _ _ => Ok "application/x-rar-compressed";
     zipfile_ZipFile := zipfile_ZipFile env_one_pass;
     zipfile_testzip := zipfile_testzip env_one_pass;
     tarfile_open := no_tar;
     rarfile_RarFile := rarfile_RarFile env_one_pass;
     py7zr_SevenZipFile := py7zr_SevenZipFile env_one_pass;
     shutil_unpack_archive := shutil_unpack_archive env_one_pass;
     child_process := one_pass;
     sys_executable := sys_executable env_one_pass;
     secure_filename := fun nm => nm;
     gettempdir := tmp;
     mkdtemp_name := mkdtemp_name env_one_pass;
     removal_allowed := fun _ => true;
     flask_send_file := flask_send_file env_one_pass |}.

End MoreSamples.

(* ===================================================================== *)
(** * Properties *)
(* ===================================================================== *)

(** ** Strings and suffixes *)

Module PyStrFacts.
Import PyStr PyPath.
Local Open Scope string_scope.

Lemma startswith_app s pre rest :
  startswith s pre = true -> startswith (s ++ rest) pre = true.
Proof.
  revert s; induction pre as [|a pre IH]; intros s H; [reflexivity|].
  destruct s as [|b s]; simpl in *; [discriminate|].
  apply andb_true_iff in H as [Hab Hs].
  rewrite Hab; simpl; auto.
Qed.

Lemma endswith_split s suf :
  endswith s suf = true -> exists pre, s = pre ++ suf.
Proof.
  induction s as [|c s IH]; cbn [endswith]; intros H.
  - rewrite orb_false_r in H. apply String.eqb_eq in H. subst.
    exists ""; reflexivity.
  - apply orb_true_iff in H as [H|H].
    + apply String.eqb_eq in H. exists ""; simpl; congruence.
    + destruct (IH H) as [pre ->]. exists (String c pre); reflexivity.
Qed.

Lemma endswith_app pre suf : endswith (pre ++ suf) suf = true.
Proof.
  induction pre as [|c pre IH].
  - destruct suf; cbn [endswith append]; rewrite String.eqb_refl; reflexivity.
  - cbn [endswith append]. rewrite IH. apply orb_true_r.
Qed.

Lemma length_app (a b : string) :
  String.length (a ++ b) = String.length a + String.length b.
Proof. induction a; simpl; auto. Qed.

Lemma append_assoc (a b c : string) : (a ++ b) ++ c = a ++ (b ++ c).
Proof. induction a; simpl; congruence. Qed.

Lemma rfind_app c pre s :
  rfind c (pre ++ s) =
  match rfind c s with
  | Some i => Some (String.length pre + i)
  | None => rfind c pre
  end.
Proof.
  induction pre as [|a pre IH]; simpl.
  - destruct (rfind c s); reflexivity.
  - rewrite IH. destruct (rfind c s); reflexivity.
Qed.

Lemma drop_app pre s k :
  drop (String.length pre + k) (pre ++ s) = drop k s.
Proof. induction pre; simpl; auto. Qed.

(** The suffix of a name is its last extension only: a name that ends
    with a dot, an extension [ext] without dots and nothing else has
    suffix [.ext], whatever stands before. *)
Lemma suffix_of_name_last pre a ext :
  rfind "."%char (String a ext) = None ->
  pre <> "" ->
  suffix_of_name (pre ++ String "."%char (String a ext)) = String "."%char (String a ext).
Proof.
  intros Hext Hpre. unfold suffix_of_name.
  rewrite rfind_app.
  change (rfind "."%char (String "."%char (String a ext)))
    with (match rfind "."%char (String a ext) with
          | Some i => Some (S i)
          | None => Some 0
          end).
  rewrite Hext, Nat.add_0_r.
  rewrite length_app. cbn [String.length].
  destruct pre as [|b pre]; [congruence|]. cbn [String.length].
  replace ((0 <? S (String.length pre))
           && (S (String.length pre) <? S (String.length pre) + S (S (String.length ext)) - 1))%nat
    with true.
  - rewrite <- (Nat.add_0_r (S (String.length pre))).
    change (S (String.length pre)) with (String.length (String b pre)).
    apply (drop_app (String b pre) _ 0).
  - symmetry. apply andb_true_iff; split; apply Nat.ltb_lt; lia.
Qed.

Lemma suffix_of_compressed_tar nm :
  endswith_any nm COMPRESSED_TAR = true ->
  mem (lower (suffix_of_name nm)) [".gz"; ".bz2"; ".xz"] = true.
Proof.
  unfold endswith_any, COMPRESSED_TAR; simpl. intros H.
  rewrite orb_false_r in H.
  apply orb_true_iff in H as [H|H]; [|apply orb_true_iff in H as [H|H]];
    apply endswith_split in H as [pre ->].
  - change (pre ++ ".tar.gz") with (pre ++ ".tar" ++ ".gz").
    rewrite <- append_assoc.
    rewrite suffix_of_name_last; [reflexivity|reflexivity|destruct pre; discriminate].
  - change (pre ++ ".tar.bz2") with (pre ++ ".tar" ++ ".bz2").
    rewrite <- append_assoc.
    rewrite suffix_of_name_last; [reflexivity|reflexivity|destruct pre; discriminate].
  - change (pre ++ ".tar.xz") with (pre ++ ".tar" ++ ".xz").
    rewrite <- append_assoc.
    rewrite suffix_of_name_last; [reflexivity|reflexivity|destruct pre; discriminate].
Qed.

Lemma split_nonempty sep s : split sep s <> [].
Proof.
  destruct s as [|c s]; simpl; [discriminate|].
  destruct (Ascii.eqb c sep); [discriminate|].
  destruct (split sep s); discriminate.
Qed.

(** The first piece of a split is a prefix of the string. *)
Lemma split_head sep s l ls :
  split sep s = l :: ls -> exists rest, s = l ++ rest.
Proof.
  revert l ls; induction s as [|c s IH]; simpl; intros l ls H.
  - injection H as <- <-. exists ""; reflexivity.
  - destruct (Ascii.eqb c sep).
    + injection H as <- <-. exists (String c s); reflexivity.
    + destruct (split sep s) as [|l0 ls0] eqn:Hs.
      * injection H as <- <-. exists s. f_equal.
        exfalso; exact (split_nonempty _ _ Hs).
      * injection H as <- <-. destruct (IH _ _ eq_refl) as [rest ->].
        exists rest; reflexivity.
Qed.

(** A piece of the split that starts with [pre] shows that the string
    contains [pre]. *)
Lemma split_line_contains sep s pre l :
  In l (split sep s) -> pre <> "" -> startswith l pre = true ->
  contains s pre = true.
Proof.
  intros Hin Hpre. revert l Hin.
  induction s as [|c s IH]; intros l Hin Hl.
  - simpl in Hin. destruct Hin as [<-|[]].
    destruct pre; [congruence|discriminate].
  - cbn [contains]. apply orb_true_iff.
    simpl in Hin. destruct (Ascii.eqb c sep).
    + destruct Hin as [<-|Hin].
      * destruct pre; [congruence|discriminate].
      * right. eapply IH; eauto.
    + destruct (split sep s) as [|l0 ls0] eqn:Hs;
        [exfalso; exact (split_nonempty _ _ Hs)|].
      destruct Hin as [<-|Hin].
      * left. destruct (split_head _ _ _ _ Hs) as [rest ->].
        change (String c (l0 ++ rest)) with (String c l0 ++ rest).
        apply startswith_app; assumption.
      * right. eapply IH; [right; exact Hin|assumption].
Qed.

(** The first element of a list that satisfies a test heads the
    filtered list. *)
Lemma filter_first {A} (f : A -> bool) pre x post :
  Forall (fun y => f y = false) pre -> f x = true ->
  filter f (pre ++ x :: post) = x :: filter f post.
Proof.
  induction 1 as [|y pre Hy _ IH]; simpl; intros Hx.
  - rewrite Hx; reflexivity.
  - rewrite Hy; auto.
Qed.

Lemma filter_none {A} (f : A -> bool) l :
  Forall (fun y => f y = false) l -> filter f l = [].
Proof. induction 1 as [|y l Hy _ IH]; simpl; [|rewrite Hy]; auto. Qed.

Lemma startswith_split s pre :
  startswith s pre = true -> exists rest, s = (pre ++ rest)%string.
Proof.
  revert s; induction pre as [|a pre IH]; intros s H.
  - exists s; reflexivity.
  - destruct s as [|b s]; [discriminate|]. cbn [startswith] in H.
    apply andb_true_iff in H as [Hab Hs]. apply Ascii.eqb_eq in Hab. subst b.
    destruct (IH _ Hs) as [rest ->]. exists rest; reflexivity.
Qed.

Lemma startswith_prefix pre rest : startswith (pre ++ rest)%string pre = true.
Proof.
  induction pre as [|a pre IH]; [reflexivity|].
  cbn [append startswith]. rewrite Ascii.eqb_refl. exact IH.
Qed.

Lemma contains_split s sub :
  contains s sub = true -> exists a b, s = (a ++ sub ++ b)%string.
Proof.
  induction s as [|c s IH]; cbn [contains]; intros H.
  - rewrite orb_false_r in H. destruct (startswith_split _ _ H) as [rest Hr].
    exists ""%string, rest. exact Hr.
  - apply orb_true_iff in H as [H|H].
    + destruct (startswith_split _ _ H) as [rest Hr].
      exists ""%string, rest. exact Hr.
    + destruct (IH H) as [a [b ->]]. exists (String c a), b. reflexivity.
Qed.

Lemma contains_middle a sub b : contains (a ++ sub ++ b)%string sub = true.
Proof.
  induction a as [|c a IH].
  - cbn [append]. destruct (sub ++ b)%string eqn:Hs; cbn [contains];
      rewrite <- Hs, startswith_prefix; reflexivity.
  - cbn [append contains]. rewrite IH. apply orb_true_r.
Qed.

(** A string that contains [big] contains every part of [big]. *)
Lemma contains_part s x small y :
  contains s (x ++ small ++ y)%string = true -> contains s small = true.
Proof.
  intros H. destruct (contains_split _ _ H) as [a [b ->]].
  rewrite !append_assoc. rewrite <- (append_assoc a x).
  apply contains_middle.
Qed.

(** [contains] decides [occurs]. *)
Lemma contains_occurs s sub : contains s sub = true <-> occurs sub s.
Proof.
  split.
  - intros H. destruct (contains_split _ _ H) as [a [b ->]]. exists a, b. reflexivity.
  - intros [a [b ->]]. apply contains_middle.
Qed.

Lemma not_contains_occurs s sub : contains s sub = false <-> ~ occurs sub s.
Proof.
  rewrite <- contains_occurs. destruct (contains s sub); split; intros H; congruence.
Qed.

(** *** The decoder *)

Lemma length_drop n : forall s, String.length (drop n s) = String.length s - n.
Proof.
  induction n as [|n IH]; intros s; cbn [drop]; [lia|].
  destruct s as [|c s]; [reflexivity|]. cbn [String.length]. rewrite IH. lia.
Qed.

(** Every step of the decoder consumes a byte. *)
Lemma utf8_decode_head_consumes c s :
  match utf8_decode_head (String c s) with
  | Scalar n | Invalid n => 1 <= n
  | Truncated => True
  end.
Proof.
  unfold utf8_decode_head.
  repeat match goal with
         | |- context [if ?b then _ else _] => destruct b
         | |- context [match ?x with EmptyString => _ | String _ _ => _ end] => destruct x
         end; try exact I; lia.
Qed.

(** With as much fuel as there are bytes the decoder does not depend on
    the fuel. *)
Lemma utf8_ignore_fuel fuel : forall fuel' s,
  String.length s <= fuel -> String.length s <= fuel' ->
  utf8_ignore_from fuel s = utf8_ignore_from fuel' s.
Proof.
  induction fuel as [|fuel IH]; intros fuel' s H H'.
  - destruct s; [|cbn in H; lia]. destruct fuel'; reflexivity.
  - destruct s as [|c s]; [destruct fuel'; reflexivity|].
    destruct fuel' as [|fuel']; [cbn in H'; lia|].
    cbn [utf8_ignore_from].
    pose proof (utf8_decode_head_consumes c s) as Hn.
    destruct (utf8_decode_head (String c s)) as [n|n|]; [| |reflexivity].
    + f_equal. apply IH; rewrite length_drop; cbn [String.length] in *; lia.
    + apply IH; rewrite length_drop; cbn [String.length] in *; lia.
Qed.

(** The decoder runs to the end of its input: it keeps the code point
    at the head, or leaves out what is none there, and goes on with the
    rest. *)
Lemma utf8_ignore_step c s :
  utf8_ignore (String c s) =
  match utf8_decode_head (String c s) with
  | Scalar n => take n (String c s) ++ utf8_ignore (drop n (String c s))
  | Invalid n => utf8_ignore (drop n (String c s))
  | Truncated => ""
  end.
Proof.
  unfold utf8_ignore at 1. cbn [String.length utf8_ignore_from].
  pose proof (utf8_decode_head_consumes c s) as Hn.
  destruct (utf8_decode_head (String c s)) as [n|n|]; [| |reflexivity];
    unfold utf8_ignore; [f_equal|];
    apply utf8_ignore_fuel; rewrite ?length_drop; cbn [String.length]; lia.
Qed.

(** The decoder on some inputs, with the answers of CPython 3.11:
    an invalid start byte; a three-byte code point; a start byte whose
    continuation is missing; a surrogate; an overlong form; an encoding
    cut off by the end of the data; and the line ends. *)
Lemma decode_text_examples :
  let bytes := fold_right (fun n s => String (ascii_of_nat n) s) "" in
  decode_text (bytes [97; 255; 98]) = "ab"
  /\ decode_text (bytes [226; 130; 172]) = bytes [226; 130; 172]
  /\ decode_text (bytes [226; 40; 161]) = "("
  /\ decode_text (bytes [226; 130; 40]) = "("
  /\ decode_text (bytes [237; 160; 128; 120]) = "x"
  /\ decode_text (bytes [192; 175; 120]) = "x"
  /\ decode_text (bytes [240; 159; 152; 128]) = bytes [240; 159; 152; 128]
  /\ decode_text (bytes [120; 240; 159; 152]) = "x"
  /\ decode_text (bytes [97; 13; 10; 98; 13; 99; 10; 13; 255; 10; 100; 13])
     = bytes [97; 10; 98; 10; 99; 10; 10; 100; 10].
Proof. vm_compute. repeat split; reflexivity. Qed.

End PyStrFacts.

(** ** The file system *)

Module FSFacts.
Import PyStr PyPath FS.

(** Induction on a tree, with the hypothesis for every entry of a
    directory. *)
Lemma node_induction (P : node -> Prop) :
  (forall d, P (File d)) ->
  (forall es, Forall (fun e => P (snd e)) es -> P (Dir es)) ->
  forall n, P n.
Proof.
  intros HF HD. fix IH 1. intros [d|es].
  - apply HF.
  - apply HD. induction es as [|[nm c] es IHes]; constructor.
    + apply IH.
    + exact IHes.
Qed.

Lemma assoc_put_same c x es : assoc c (put_entry c x es) = Some x.
Proof.
  induction es as [|[k y] es IH]; simpl.
  - rewrite String.eqb_refl; reflexivity.
  - destruct (String.eqb k c) eqn:Hk; simpl.
    + rewrite String.eqb_refl; reflexivity.
    + rewrite Hk; exact IH.
Qed.

Lemma assoc_del_same c es : assoc c (del_entry c es) = None.
Proof.
  induction es as [|[k y] es IH]; simpl; [reflexivity|].
  destruct (String.eqb k c) eqn:Hk; simpl; [exact IH|].
  rewrite Hk; exact IH.
Qed.

Lemma assoc_set_same c o es : assoc c (set_entry c o es) = o.
Proof. destruct o; [apply assoc_put_same|apply assoc_del_same]. Qed.

(** Rewriting an existing entry: the path then names what [f] answered. *)
Lemma lookup_alter_same p f : forall n x,
  p <> [] -> lookup n p = Some x -> lookup (alter p f n) p = f (Some x).
Proof.
  induction p as [|c p IH]; intros n x Hp Hl; [congruence|].
  destruct n as [d|es]; [discriminate|]. cbn [lookup] in Hl.
  destruct (assoc c es) as [sub|] eqn:Hc; [|discriminate].
  cbn [alter]. destruct p as [|c' p].
  - cbn [lookup] in *. injection Hl as <-.
    rewrite Hc, assoc_set_same. destruct (f (Some sub)); reflexivity.
  - rewrite Hc. cbn [lookup]. rewrite assoc_put_same.
    apply IH; [discriminate|exact Hl].
Qed.

Lemma lookup_app n d : forall rel m,
  lookup n d = Some m -> lookup n (d ++ rel) = lookup m rel.
Proof.
  revert n; induction d as [|c d IH]; intros n rel m H; simpl in *.
  - congruence.
  - destruct n as [|es]; [discriminate|].
    destruct (assoc c es); [eauto|discriminate].
Qed.

Lemma lookup_prefix n d rel x :
  lookup n (d ++ rel) = Some x -> exists m, lookup n d = Some m.
Proof.
  revert n; induction d as [|c d IH]; intros n H; simpl in *; [eauto|].
  destruct n as [|es]; [discriminate|].
  destruct (assoc c es); [eauto|discriminate].
Qed.

(** When every removal succeeds, nothing is left of a tree. *)
Lemma prune_all ok : forall n here,
  (forall q, ok (here ++ q) = true) -> prune ok here n = None.
Proof.
  induction n as [d|es IH] using node_induction; intros here Hok; cbn [prune].
  - specialize (Hok []). rewrite app_nil_r in Hok. rewrite Hok; reflexivity.
  - assert (Hgo :
      (fix go (es : list (string * node)) : list (string * node) :=
         match es with
         | [] => []
         | (nm, c) :: rest =>
             match prune ok (child here nm) c with
             | Some c' => (nm, c') :: go rest
             | None => go rest
             end
         end) es = []).
    { induction IH as [|[nm c] es Hc _ IHes]; [reflexivity|].
      cbn [snd] in Hc. rewrite Hc; [exact IHes|].
      intros q. unfold child. rewrite <- app_assoc. apply Hok. }
    rewrite Hgo. specialize (Hok []). rewrite app_nil_r in Hok.
    rewrite Hok; reflexivity.
Qed.

(** [rmtree] never raises. *)
Lemma rmtree_ok ok p fs :
  exists fs', rmtree_ignore_errors ok p fs = (Ok tt, fs').
Proof.
  unfold rmtree_ignore_errors.
  destruct (lookup fs p) as [[d|es]|]; eauto.
Qed.

(** [rmtree] on a directory whose removals all succeed: the path names
    nothing afterwards. *)
Lemma rmtree_removes ok p fs :
  p <> [] -> is_file fs p = false ->
  (forall q, ok (p ++ q) = true) ->
  exists_ (snd (rmtree_ignore_errors ok p fs)) p = false.
Proof.
  unfold rmtree_ignore_errors, is_file, exists_. intros Hp Hf Hok.
  destruct (lookup fs p) as [[d|es]|] eqn:Hl; cbn [snd].
  - discriminate.
  - rewrite (lookup_alter_same p _ fs (Dir es) Hp Hl).
    rewrite prune_all by exact Hok. reflexivity.
  - rewrite Hl; reflexivity.
Qed.

Lemma mem_In x l : mem x l = true <-> In x l.
Proof.
  unfold mem. rewrite existsb_exists. split.
  - intros [y [Hy Heq]]. apply String.eqb_eq in Heq. subst; assumption.
  - intros H. exists x. split; [assumption|apply String.eqb_refl].
Qed.

Lemma assoc_In_distinct es : forall nm c,
  distinct (map fst es) = true -> In (nm, c) es -> assoc nm es = Some c.
Proof.
  induction es as [|[k y] es IH]; intros nm c Hd Hin; [destruct Hin|].
  cbn [map fst distinct] in Hd. apply andb_true_iff in Hd as [Hk Hd].
  cbn [assoc]. destruct Hin as [Heq|Hin].
  - injection Heq as -> ->. rewrite String.eqb_refl; reflexivity.
  - destruct (String.eqb k nm) eqn:Hkn.
    + apply String.eqb_eq in Hkn. subst k.
      apply negb_true_iff in Hk.
      assert (mem nm (map fst es) = true)
        by (apply mem_In, in_map_iff; exists (nm, c); auto).
      congruence.
    + apply IH; assumption.
Qed.

Lemma assoc_In nm es x : assoc nm es = Some x -> In (nm, x) es.
Proof.
  induction es as [|[k y] es IH]; simpl; [discriminate|].
  destruct (String.eqb k nm) eqn:Hk.
  - apply String.eqb_eq in Hk. intros [= ->]. left; congruence.
  - auto.
Qed.

Lemma assoc_of_name nm es :
  In nm (map fst es) -> exists x, assoc nm es = Some x.
Proof.
  induction es as [|[k y] es IH]; simpl; [intros []|].
  intros [<-|H].
  - rewrite String.eqb_refl; eauto.
  - destruct (String.eqb k nm); eauto.
Qed.

Lemma well_formed_dir es :
  well_formed (Dir es) = true ->
  distinct (map fst es) = true /\ Forall (fun e => well_formed (snd e) = true) es.
Proof.
  cbn [well_formed]. intros H. apply andb_true_iff in H as [Hd Hall].
  split; [assumption|]. clear Hd.
  induction es as [|[k y] es IH]; constructor.
  - apply andb_true_iff in Hall as [H _]; exact H.
  - apply IH. apply andb_true_iff in Hall as [_ H]; exact H.
Qed.

Lemma well_formed_lookup p : forall n m,
  well_formed n = true -> lookup n p = Some m -> well_formed m = true.
Proof.
  induction p as [|c p IH]; intros n m Hw Hl; simpl in Hl.
  - congruence.
  - destruct n as [|es]; [discriminate|].
    destruct (assoc c es) as [sub|] eqn:Hc; [|discriminate].
    apply well_formed_dir in Hw as [_ Hall].
    apply assoc_In in Hc. rewrite Forall_forall in Hall.
    apply (IH sub m); [exact (Hall _ Hc)|exact Hl].
Qed.

Lemma last_cons_nonempty (c : string) (l : list string) d :
  l <> [] -> last (c :: l) d = last l d.
Proof. destruct l; [congruence|reflexivity]. Qed.

(** What the recursive search lists lies strictly below the starting
    directory and carries the wanted suffix. *)
Lemma walk_shape suf : forall n here q,
  In q (walk suf here n) ->
  exists rel, q = here ++ rel /\ rel <> [] /\ endswith (name rel) suf = true.
Proof.
  induction n as [d|es IH] using node_induction; intros here q Hin;
    cbn [walk] in Hin; [destruct Hin|].
  apply in_app_or in Hin as [Hin|Hin].
  - apply in_map_iff in Hin as [nm [<- Hnm]].
    apply filter_In in Hnm as [_ Hsuf].
    exists [nm]. repeat split; [discriminate|exact Hsuf].
  - induction IH as [|[nm c] es Hc _ IHes]; [destruct Hin|].
    apply in_app_or in Hin as [Hin|Hin]; [|auto].
    destruct (Hc _ _ Hin) as [rel [-> [Hrel Hsuf]]].
    exists (nm :: rel). unfold child. rewrite <- app_assoc.
    repeat split; [discriminate|].
    unfold name in *. rewrite last_cons_nonempty; assumption.
Qed.

(** In a well-formed tree it also exists. *)
Lemma walk_exists suf : forall n here q,
  well_formed n = true -> In q (walk suf here n) ->
  exists rel, q = here ++ rel /\ lookup n rel <> None.
Proof.
  induction n as [d|es IH] using node_induction; intros here q Hw Hin;
    cbn [walk] in Hin; [destruct Hin|].
  apply well_formed_dir in Hw as [Hd Hall].
  apply in_app_or in Hin as [Hin|Hin].
  - apply in_map_iff in Hin as [nm [<- Hnm]].
    apply filter_In in Hnm as [Hnm _].
    destruct (assoc_of_name _ _ Hnm) as [x Hx].
    exists [nm]. split; [reflexivity|]. cbn [lookup]. rewrite Hx; discriminate.
  - assert (Hsub : forall nm c, In (nm, c) es -> assoc nm es = Some c)
      by (intros; apply assoc_In_distinct; assumption).
    clear Hd.
    assert (Hgen : forall es0,
      Forall (fun e => forall here q, well_formed (snd e) = true ->
                In q (walk suf here (snd e)) ->
                exists rel, q = here ++ rel /\ lookup (snd e) rel <> None) es0 ->
      Forall (fun e => well_formed (snd e) = true) es0 ->
      (forall nm c, In (nm, c) es0 -> assoc nm es = Some c) ->
      In q ((fix sub (es : list (string * node)) : list Path :=
               match es with
               | [] => []
               | (nm, c) :: rest => walk suf (child here nm) c ++ sub rest
               end) es0) ->
      exists rel, q = here ++ rel /\ lookup (Dir es) rel <> None).
    { induction es0 as [|[nm c] es0 IHes0]; intros HIH Hwf Has Hq; [destruct Hq|].
      inversion HIH as [|? ? Hc HIH']; subst.
      inversion Hwf as [|? ? Hwc Hwf']; subst.
      apply in_app_or in Hq as [Hq|Hq].
      - destruct (Hc _ _ Hwc Hq) as [rel [-> Hl]].
        exists (nm :: rel). unfold child. rewrite <- app_assoc.
        split; [reflexivity|]. cbn [lookup].
        rewrite (Has nm c) by (left; reflexivity). exact Hl.
      - apply IHes0; auto. intros; apply Has; right; assumption. }
    apply (Hgen es); auto.
Qed.

(** The recursive glob of a well-formed file system lists existing
    entries below the directory, named with the suffix. *)
Lemma rglob_sound fs d suf q :
  well_formed fs = true -> In q (rglob fs d suf) ->
  exists rel, q = d ++ rel /\ rel <> [] /\ exists_ fs q = true
              /\ endswith (name rel) suf = true.
Proof.
  unfold rglob, exists_. intros Hw Hin.
  destruct (lookup fs d) as [m|] eqn:Hd; [|destruct Hin].
  destruct (walk_shape _ _ _ _ Hin) as [rel [-> [Hrel Hsuf]]].
  exists rel. repeat split; auto.
  destruct (walk_exists _ _ _ _ (well_formed_lookup _ _ _ Hw Hd) Hin)
    as [rel' [Heq Hl]].
  apply app_inv_head in Heq. subst rel'.
  rewrite (lookup_app _ _ _ _ Hd). destruct (lookup m rel); congruence.
Qed.

End FSFacts.

(** ** The compilation passes *)

Section CompileFacts.
Import PyStr PyPath FS PyStrFacts.
Context (E : Env).

(** The control flow of [compile_latex], pass by pass. *)
Lemma compile_latex_passes tex out wd w :
  compile_latex E tex out wd w =
  let (r1, w1) := subprocess_run E (first_pass_argv tex wd) wd w in
  match r1 with
  | Raise _ => (Ok false, w1)
  | Ok _ =>
      if needs_pythontex (fs w1) tex wd then
        let (r2, w2) := subprocess_run E (pythontex_argv E tex wd) wd w1 in
        match r2 with
        | Raise _ => (Ok false, w2)
        | Ok _ =>
            let (r3, w3) := subprocess_run E (final_pass_argv tex wd) wd w2 in
            match r3 with
            | Raise _ => (Ok false, w3)
            | Ok _ => (Ok (exists_ (fs w3) out), w3)
            end
        end
      else (Ok (exists_ (fs w1) out), w1)
  end.
Proof.
  unfold compile_latex, try_except, bind, read, ret.
  destruct (subprocess_run E (first_pass_argv tex wd) wd w) as [[rc1|e1] w1].
  - destruct (needs_pythontex (fs w1) tex wd).
    + destruct (subprocess_run E (pythontex_argv E tex wd) wd w1) as [[rc2|e2] w2].
      * destruct (subprocess_run E (final_pass_argv tex wd) wd w2) as [[rc3|e3] w3].
        -- destruct (negb (rc3 =? 0)%Z), (exists_ (fs w3) out) eqn:Hx;
             cbn; rewrite ?Hx; reflexivity.
        -- destruct (exn_kind e3); reflexivity.
      * destruct (exn_kind e2); reflexivity.
    + destruct (negb (rc1 =? 0)%Z), (exists_ (fs w1) out) eqn:Hx;
        cbn; rewrite ?Hx; reflexivity.
  - destruct (exn_kind e1); reflexivity.
Qed.

Lemma subprocess_run_eq argv cwd w :
  subprocess_run E argv cwd w =
  (fst (child_process E argv cwd (fs w)),
   {| fs := snd (child_process E argv cwd (fs w));
      trace := trace w ++ [{| inv_argv := argv; inv_cwd := cwd;
                              inv_outcome := fst (child_process E argv cwd (fs w)) |}] |}).
Proof.
  unfold subprocess_run. destruct (child_process E argv cwd (fs w)); reflexivity.
Qed.

(** Every call of [compile_latex] is one of these runs, and it
    returns a Boolean. *)
Lemma compile_latex_run tex out wd w :
  exists tr b fs',
    compile_latex E tex out wd w = (Ok b, {| fs := fs'; trace := trace w ++ tr |})
    /\ compile_run E tex out wd (fs w) tr b fs'.
Proof.
  rewrite compile_latex_passes. unfold subprocess_run. cbn [fs trace].
  destruct (child_process E (first_pass_argv tex wd) wd (fs w)) as [[rc1|e1] fs1] eqn:H1;
    cbn [fs trace].
  - destruct (needs_pythontex fs1 tex wd) eqn:Hn.
    + destruct (child_process E (pythontex_argv E tex wd) wd fs1) as [[rc2|e2] fs2] eqn:H2;
        cbn [fs trace].
      * destruct (child_process E (final_pass_argv tex wd) wd fs2) as [[rc3|e3] fs3] eqn:H3;
          cbn [fs trace]; rewrite <- !app_assoc; cbn [app];
          do 3 eexists; (split; [reflexivity|]).
        -- eapply run_three_passes; eauto.
        -- eapply run_final_raised; eauto.
      * rewrite <- !app_assoc; cbn [app].
        do 3 eexists; (split; [reflexivity|]).
        eapply run_pythontex_raised; eauto.
    + do 3 eexists; (split; [reflexivity|]).
      eapply run_single_pass; eauto.
  - do 3 eexists; (split; [reflexivity|]).
    eapply run_first_raised; eauto.
Qed.

(** The flag [needs_pythontex] is the disjunction of the two checks:
    a *.pytxcode entry in the working directory, or a readable entry
    document whose text passes the test of line 146. *)
Lemma needs_pythontex_checks fs1 tex wd :
  needs_pythontex fs1 tex wd =
  (match glob fs1 wd ".pytxcode" with [] => false | _ :: _ => true end)
  || (match lookup fs1 tex with
      | Some (File data) => mentions_pythontex (decode_text data)
      | _ => false
      end).
Proof.
  unfold needs_pythontex, read_text, read_bytes, bind, ret, attempt.
  destruct (glob fs1 wd ".pytxcode"); destruct (lookup fs1 tex) as [[data|es]|];
    cbn; try reflexivity; destruct (mentions_pythontex (decode_text data)); reflexivity.
Qed.

(** The test of line 146, in words: the text contains
    \usepackage{pythontex}, or it contains \usepackage[ and, anywhere,
    pythontex. *)
Lemma mentions_pythontex_occurs text :
  mentions_pythontex text = true <->
  occurs "\usepackage{pythontex}" text
  \/ (occurs "\usepackage[" text /\ occurs "pythontex" text).
Proof.
  unfold mentions_pythontex.
  rewrite orb_true_iff, andb_true_iff, !contains_occurs. reflexivity.
Qed.

(** C10.  [compile_latex] never propagates an exception: whatever the
    child processes do, it returns a Boolean, and the Boolean is False
    as soon as one invocation raised (a timeout, a called-process
    error or any other exception). *)
Theorem compile_latex_never_raises tex out wd w :
  exists b fs' tr,
    compile_latex E tex out wd w = (Ok b, {| fs := fs'; trace := trace w ++ tr |})
    /\ (Exists (fun i => is_ok (inv_outcome i) = false) tr -> b = false).
Proof.
  destruct (compile_latex_run tex out wd w) as [tr [b [fs' [Heq Hrun]]]].
  exists b, fs', tr. split; [exact Heq|].
  intros Hex. destruct Hrun; try reflexivity;
    repeat match goal with
           | H : Exists _ (_ :: _) |- _ => inversion H; clear H; subst
           | H : Exists _ [] |- _ => inversion H
           | H : is_ok _ = false |- _ => discriminate H
           end.
Qed.

(** C1.  When every pass that was started came back with an exit code,
    whatever the codes, [compile_latex] answers True exactly when the
    PDF exists at [output_path] in the file system the passes left. *)
Theorem success_iff_artifact_exists tex out wd w r w' tr :
  compile_latex E tex out wd w = (r, w') ->
  trace w' = trace w ++ tr ->
  Forall (fun i => is_ok (inv_outcome i) = true) tr ->
  r = Ok (exists_ (fs w') out)
  /\ (r = Ok true <-> exists_ (fs w') out = true).
Proof.
  intros Hc Htr Hall.
  destruct (compile_latex_run tex out wd w) as [tr0 [b [fs' [Heq Hrun]]]].
  rewrite Heq in Hc. injection Hc as <- <-. cbn [fs trace] in *.
  apply app_inv_head in Htr. subst tr0.
  assert (Hb : b = exists_ fs' out).
  { destruct Hrun; try reflexivity;
      repeat match goal with
             | H : Forall _ (_ :: _) |- _ => inversion H; clear H; subst
             | H : is_ok _ = true |- _ => discriminate H
             end. }
  subst b. split; [reflexivity|].
  split; [intros [= ->]; reflexivity|intros ->; reflexivity].
Qed.

(** C2, as the code has it.  Once the primary pass has returned, the
    auxiliary pass is required exactly when the working directory lists
    a *.pytxcode entry, or the entry document is a file that can be
    read and whose text (decoded as UTF-8, undecodable bytes left out)
    contains \usepackage{pythontex}, or contains \usepackage[ and also
    pythontex.  When it is required the next invocation is pythontex,
    followed by the final latexmk pass when pythontex returns; when it
    is not, the primary pass is the only invocation. *)
Theorem auxiliary_pass_iff_required tex out wd w rc fs1 :
  child_process E (first_pass_argv tex wd) wd (fs w) = (Ok rc, fs1) ->
  let produced := glob fs1 wd ".pytxcode" <> [] in
  let referenced :=
    exists data,
      lookup fs1 tex = Some (File data)
      /\ (occurs "\usepackage{pythontex}" (decode_text data)
          \/ (occurs "\usepackage[" (decode_text data)
              /\ occurs "pythontex" (decode_text data))) in
  exists b fs' tr,
    compile_latex E tex out wd w = (Ok b, {| fs := fs'; trace := trace w ++ tr |})
    /\ (produced \/ referenced ->
        exists r2 rest,
          tr = first_pass tex wd (Ok rc) :: pythontex_pass E tex wd r2 :: rest
          /\ (is_ok r2 = true -> exists r3, rest = [final_pass tex wd r3])
          /\ (is_ok r2 = false -> rest = []))
    /\ (~ (produced \/ referenced) -> tr = [first_pass tex wd (Ok rc)]).
Proof.
  intros H1 produced referenced.
  destruct (compile_latex_run tex out wd w) as [tr [b [fs' [Heq Hrun]]]].
  exists b, fs', tr. split; [exact Heq|].
  assert (Hn : needs_pythontex fs1 tex wd = true <-> produced \/ referenced).
  { rewrite needs_pythontex_checks, orb_true_iff. unfold produced, referenced.
    split; (intros [H|H]; [left|right]).
    - destruct (glob fs1 wd ".pytxcode"); [discriminate H|discriminate].
    - destruct (lookup fs1 tex) as [[data|es]|]; try discriminate H.
      exists data. split; [reflexivity|]. apply mentions_pythontex_occurs. exact H.
    - destruct (glob fs1 wd ".pytxcode"); [congruence|reflexivity].
    - destruct H as [data [-> H]]. apply mentions_pythontex_occurs. exact H. }
  destruct Hrun;
    match goal with
    | H : child_process E (first_pass_argv _ _) _ _ = _ |- _ =>
        rewrite H1 in H; first [discriminate H|injection H as ? ?; subst]
    end;
    (split; [intros Hreq|intros Hreq]);
    try (apply Hn in Hreq; congruence);
    try (exfalso; apply Hreq, Hn; assumption);
    try reflexivity;
    try (eexists; eexists; split; [reflexivity|];
         split; [intros Hok|intros Hok]; try discriminate Hok; eauto).
Qed.

End CompileFacts.

(** ** Detection and extraction *)

Section ArchiveFacts.
Import PyStr PyPath FS PyStrFacts.
Local Open Scope string_scope.
Context (E : Env).

Lemma try_except_reraise {S A} (m : SE S A) s :
  try_except m (fun e => raise e) s = m s.
Proof. unfold try_except, raise. destruct (m s) as [[a|e] s']; reflexivity. Qed.

Lemma extract_archive_unsupported fs p d :
  is_archive_file E fs p = false ->
  extract_archive E p d fs =
  (Raise (Exn ValueError ("Unsupported archive format: " ++ suffix p)), fs).
Proof.
  intros H. unfold extract_archive, bind, read. rewrite H. reflexivity.
Qed.

Lemma extract_archive_missing fs p d :
  is_archive_file E fs p = true -> exists_ fs p = false ->
  extract_archive E p d fs =
  (Raise (Exn FileNotFoundError ("Archive file not found: " ++ str p)), fs).
Proof.
  intros H Hx. unfold extract_archive, bind, read. rewrite H. cbn [negb].
  rewrite try_except_reraise. rewrite Hx. reflexivity.
Qed.

Lemma extract_archive_dispatch fs p d :
  is_archive_file E fs p = true -> exists_ fs p = true ->
  extract_archive E p d fs =
  extraction_routine E
    (archive_route (detect_file_type E fs p) (lower (suffix p)) (name p)) p d fs.
Proof.
  intros H Hx. unfold extract_archive, bind, read. rewrite H. cbn [negb].
  rewrite try_except_reraise. rewrite Hx. reflexivity.
Qed.

(** A file routed to the RAR or to the 7z routine is one
    [is_archive_file] accepts. *)
Lemma rar_7z_route_supported fs p :
  let r := archive_route (detect_file_type E fs p) (lower (suffix p)) (name p) in
  r = RouteRar \/ r = Route7z -> is_archive_file E fs p = true.
Proof.
  cbv zeta. unfold archive_route, is_archive_file.
  set (mime := detect_file_type E fs p). set (sfx := lower (suffix p)).
  destruct (mem mime ["application/zip"; "application/x-zip-compressed"]
            || (sfx =? ".zip")); [intros [H|H]; discriminate|].
  destruct (contains (lower mime) "tar" || startswith sfx ".tar"
            || endswith_any (name p) COMPRESSED_TAR); [intros [H|H]; discriminate|].
  destruct (mime =? "application/x-rar-compressed") eqn:Hm.
  { apply String.eqb_eq in Hm. rewrite Hm. reflexivity. }
  destruct (sfx =? ".rar") eqn:Hs.
  { apply String.eqb_eq in Hs. rewrite Hs.
    destruct (mem mime (map fst ARCHIVE_MIMES)); reflexivity. }
  cbn [orb].
  destruct (mime =? "application/x-7z-compressed") eqn:Hm7.
  { apply String.eqb_eq in Hm7. rewrite Hm7. reflexivity. }
  destruct (sfx =? ".7z") eqn:Hs7.
  { apply String.eqb_eq in Hs7. rewrite Hs7.
    destruct (mem mime (map fst ARCHIVE_MIMES)); reflexivity. }
  cbn [orb]. intros [H|H]; discriminate.
Qed.

(** The tests of the if/elif chain, one by one: a file that neither
    the zip test nor the tar test takes goes to the RAR routine when
    its type or its suffix says RAR, and to the 7z routine when they do
    not say RAR but say 7z. *)
Lemma archive_route_rar_7z mime sfx nm :
  mem mime ["application/zip"; "application/x-zip-compressed"] = false ->
  sfx <> ".zip" ->
  contains (lower mime) "tar" = false ->
  startswith sfx ".tar" = false ->
  endswith_any nm COMPRESSED_TAR = false ->
  (mime = "application/x-rar-compressed" \/ sfx = ".rar" ->
   archive_route mime sfx nm = RouteRar)
  /\ (mime <> "application/x-rar-compressed" -> sfx <> ".rar" ->
      mime = "application/x-7z-compressed" \/ sfx = ".7z" ->
      archive_route mime sfx nm = Route7z).
Proof.
  intros Hz Hsz Ht Hst Hct. unfold archive_route.
  apply String.eqb_neq in Hsz. rewrite Hz, Hsz, Ht, Hst, Hct. cbn [orb].
  split.
  - intros [->| ->]; [reflexivity|].
    rewrite String.eqb_refl, orb_true_r. reflexivity.
  - intros Hm Hs H7.
    apply String.eqb_neq in Hm, Hs. rewrite Hm, Hs. cbn [orb].
    destruct H7 as [->| ->]; [reflexivity|].
    rewrite String.eqb_refl, orb_true_r. reflexivity.
Qed.

(** C8, as the code has it.  Take a file that exists and that neither
    the zip test nor the tar test of the if/elif chain takes: its
    detected type is no zip type and does not contain "tar", its suffix
    is not .zip and does not start with .tar, its name does not end
    with .tar.gz, .tar.bz2 or .tar.xz.  If its type or suffix says RAR
    and rarfile is absent, or they do not say RAR but say 7z and py7zr
    is absent, then [is_archive_file] accepts the file and
    [extract_archive] raises the RuntimeError of the missing module
    with nothing written; RuntimeError is a class other than the
    ValueError of the unsupported-format and invalid-ZIP errors. *)
Theorem missing_capability_is_a_distinct_error fs archive_path dest :
  let mime := detect_file_type E fs archive_path in
  let sfx := lower (suffix archive_path) in
  exists_ fs archive_path = true ->
  mem mime ["application/zip"; "application/x-zip-compressed"] = false ->
  sfx <> ".zip" ->
  contains (lower mime) "tar" = false ->
  startswith sfx ".tar" = false ->
  endswith_any (name archive_path) COMPRESSED_TAR = false ->
  (mime = "application/x-rar-compressed" \/ sfx = ".rar" ->
   RAR_SUPPORTED E = false ->
   is_archive_file E fs archive_path = true
   /\ extract_archive E archive_path dest fs
      = (Raise (Exn RuntimeError
                  "RAR format not supported (rarfile module not available)"), fs))
  /\ (mime <> "application/x-rar-compressed" -> sfx <> ".rar" ->
      mime = "application/x-7z-compressed" \/ sfx = ".7z" ->
      SEVENZ_SUPPORTED E = false ->
      is_archive_file E fs archive_path = true
      /\ extract_archive E archive_path dest fs
         = (Raise (Exn RuntimeError
                     "7Z format not supported (py7zr module not available)"), fs))
  /\ exn_class_eqb RuntimeError ValueError = false.
Proof.
  intros mime sfx Hx Hz Hsz Ht Hst Hct.
  destruct (archive_route_rar_7z mime sfx (name archive_path) Hz Hsz Ht Hst Hct)
    as [Hrar H7z].
  split; [|split; [|reflexivity]].
  - intros Hsays Hcap. specialize (Hrar Hsays).
    assert (Hs : is_archive_file E fs archive_path = true)
      by (apply rar_7z_route_supported; left; exact Hrar).
    split; [exact Hs|].
    rewrite (extract_archive_dispatch _ _ _ Hs Hx).
    fold mime sfx. rewrite Hrar. cbn [extraction_routine]. rewrite Hcap. reflexivity.
  - intros Hm Hs' Hsays Hcap. specialize (H7z Hm Hs' Hsays).
    assert (Hs : is_archive_file E fs archive_path = true)
      by (apply rar_7z_route_supported; right; exact H7z).
    split; [exact Hs|].
    rewrite (extract_archive_dispatch _ _ _ Hs Hx).
    fold mime sfx. rewrite H7z. cbn [extraction_routine]. rewrite Hcap. reflexivity.
Qed.

(** What a library call raised, as it leaves the zip routine: a
    BadZipFile has become a ValueError, anything else is unchanged. *)
Lemma zip_routine_eq fs p d :
  extraction_routine E RouteZip p d fs =
  let leaves (e : exn) : result unit :=
    if exn_class_eqb (exn_kind e) BadZipFile
    then Raise (Exn ValueError ("Invalid ZIP file: " ++ exn_str e))
    else Raise e in
  match codec_open (zipfile_ZipFile E) fs p with
  | Raise e => (leaves e, fs)
  | Ok _ =>
      match zipfile_testzip E fs p with
      | Raise e => (leaves e, fs)
      | Ok _ =>
          match codec_extractall (zipfile_ZipFile E) p d fs with
          | (Ok u, fs') => (Ok u, fs')
          | (Raise e, fs') => (leaves e, fs')
          end
      end
  end.
Proof.
  cbn [extraction_routine].
  unfold try_except_class, try_except, bind, attempt, raise.
  destruct (codec_open (zipfile_ZipFile E) fs p) as [[]|e1].
  - destruct (zipfile_testzip E fs p) as [bad|e2].
    + destruct (codec_extractall (zipfile_ZipFile E) p d fs) as [[[]|e3] fs3];
        [reflexivity|].
      cbv zeta. destruct (exn_class_eqb (exn_kind e3) BadZipFile); reflexivity.
    + cbv zeta. destruct (exn_class_eqb (exn_kind e2) BadZipFile); reflexivity.
  - cbv zeta. destruct (exn_class_eqb (exn_kind e1) BadZipFile); reflexivity.
Qed.

(** Opening and unpacking with a library: what the library raises is
    what leaves, in the state the library left. *)
Lemma open_and_extractall_eq lib fs p d :
  open_and_extractall lib p d fs =
  match codec_open lib fs p with
  | Raise e => (Raise e, fs)
  | Ok _ => codec_extractall lib p d fs
  end.
Proof.
  unfold open_and_extractall, bind, attempt.
  destruct (codec_open lib fs p) as [[]|e]; reflexivity.
Qed.

(** C5, as the code has it.  An input [is_archive_file] rejects is
    refused with a ValueError before anything is written.  For a file
    that is accepted and exists, the outcome is the outcome of the
    library calls of its routine, in the state these calls left, so
    that nothing a library wrote is taken back: on the zip route the
    archive is opened, [testzip] is called and [extractall] runs, and a
    BadZipFile from any of the three leaves as ValueError("Invalid ZIP
    file: ..."), with the file system untouched when it came from the
    first two; on the tar, RAR and 7z routes (the latter two with their
    module present) the archive is opened and [extractall] runs, with
    no test in between, and what the library raises leaves unchanged;
    the last route is [shutil.unpack_archive].  Hence [extract_archive]
    returns normally only when the library's open and extractall both
    returned. *)
Theorem extraction_fails_when_the_library_does fs archive_path dest :
  let r := archive_route (detect_file_type E fs archive_path)
                         (lower (suffix archive_path)) (name archive_path) in
  let invalid_zip (e : exn) : result unit :=
    if exn_class_eqb (exn_kind e) BadZipFile
    then Raise (Exn ValueError ("Invalid ZIP file: " ++ exn_str e))
    else Raise e in
  let through (lib : Codec) : result unit * node :=
    match codec_open lib fs archive_path with
    | Raise e => (Raise e, fs)
    | Ok _ => codec_extractall lib archive_path dest fs
    end in
  (is_archive_file E fs archive_path = false ->
     extract_archive E archive_path dest fs =
     (Raise (Exn ValueError
               ("Unsupported archive format: " ++ suffix archive_path)), fs))
  /\ (is_archive_file E fs archive_path = true ->
      exists_ fs archive_path = true ->
      match r with
      | RouteZip =>
          extract_archive E archive_path dest fs =
          match codec_open (zipfile_ZipFile E) fs archive_path with
          | Raise e => (invalid_zip e, fs)
          | Ok _ =>
              match zipfile_testzip E fs archive_path with
              | Raise e => (invalid_zip e, fs)
              | Ok _ =>
                  match codec_extractall (zipfile_ZipFile E) archive_path dest fs with
                  | (Ok u, fs') => (Ok u, fs')
                  | (Raise e, fs') => (invalid_zip e, fs')
                  end
              end
          end
      | RouteTar =>
          extract_archive E archive_path dest fs = through (tarfile_open E)
      | RouteRar =>
          RAR_SUPPORTED E = true ->
          extract_archive E archive_path dest fs = through (rarfile_RarFile E)
      | Route7z =>
          SEVENZ_SUPPORTED E = true ->
          extract_archive E archive_path dest fs = through (py7zr_SevenZipFile E)
      | RouteShutil =>
          extract_archive E archive_path dest fs
          = shutil_unpack_archive E archive_path dest fs
      end)
  /\ (forall fs',
        extract_archive E archive_path dest fs = (Ok tt, fs') ->
        is_archive_file E fs archive_path = true
        /\ exists_ fs archive_path = true
        /\ match r with
           | RouteZip =>
               codec_open (zipfile_ZipFile E) fs archive_path = Ok tt
               /\ codec_extractall (zipfile_ZipFile E) archive_path dest fs = (Ok tt, fs')
           | RouteTar =>
               codec_open (tarfile_open E) fs archive_path = Ok tt
               /\ codec_extractall (tarfile_open E) archive_path dest fs = (Ok tt, fs')
           | RouteRar =>
               RAR_SUPPORTED E = true
               /\ codec_open (rarfile_RarFile E) fs archive_path = Ok tt
               /\ codec_extractall (rarfile_RarFile E) archive_path dest fs = (Ok tt, fs')
           | Route7z =>
               SEVENZ_SUPPORTED E = true
               /\ codec_open (py7zr_SevenZipFile E) fs archive_path = Ok tt
               /\ codec_extractall (py7zr_SevenZipFile E) archive_path dest fs = (Ok tt, fs')
           | RouteShutil =>
               shutil_unpack_archive E archive_path dest fs = (Ok tt, fs')
           end).
Proof.
  intros r invalid_zip through.
  split; [apply extract_archive_unsupported|]. split.
  - intros Hs Hx.
    rewrite (extract_archive_dispatch _ _ _ Hs Hx). fold r.
    destruct r.
    + apply zip_routine_eq.
    + cbn [extraction_routine]. apply open_and_extractall_eq.
    + intros Hcap. cbn [extraction_routine]. rewrite Hcap.
      apply open_and_extractall_eq.
    + intros Hcap. cbn [extraction_routine]. rewrite Hcap.
      apply open_and_extractall_eq.
    + reflexivity.
  - intros fs' Hok.
    destruct (is_archive_file E fs archive_path) eqn:Hs;
      [|rewrite extract_archive_unsupported in Hok by exact Hs; discriminate].
    destruct (exists_ fs archive_path) eqn:Hx;
      [|rewrite extract_archive_missing in Hok by assumption; discriminate].
    split; [reflexivity|]. split; [reflexivity|].
    rewrite (extract_archive_dispatch _ _ _ Hs Hx) in Hok. fold r in Hok.
    destruct r; cbn [extraction_routine] in Hok.
    + unfold try_except_class, try_except, bind, attempt, raise in Hok.
      destruct (codec_open (zipfile_ZipFile E) fs archive_path) as [[]|e1].
      * destruct (zipfile_testzip E fs archive_path) as [bad|e2].
        -- destruct (codec_extractall (zipfile_ZipFile E) archive_path dest fs)
             as [[[]|e3] fs3].
           ++ injection Hok as <-. auto.
           ++ destruct (exn_class_eqb (exn_kind e3) BadZipFile); discriminate.
        -- destruct (exn_class_eqb (exn_kind e2) BadZipFile); discriminate.
      * destruct (exn_class_eqb (exn_kind e1) BadZipFile); discriminate.
    + unfold open_and_extractall, bind, attempt in Hok.
      destruct (codec_open (tarfile_open E) fs archive_path) as [[]|e1];
        [auto|discriminate].
    + destruct (RAR_SUPPORTED E); cbn [negb] in Hok; [|discriminate].
      unfold open_and_extractall, bind, attempt in Hok.
      destruct (codec_open (rarfile_RarFile E) fs archive_path) as [[]|e1];
        [auto|discriminate].
    + destruct (SEVENZ_SUPPORTED E); cbn [negb] in Hok; [|discriminate].
      unfold open_and_extractall, bind, attempt in Hok.
      destruct (codec_open (py7zr_SevenZipFile E) fs archive_path) as [[]|e1];
        [auto|discriminate].
    + exact Hok.
Qed.

(** Without python-magic the type comes from the last extension alone. *)
Lemma detect_file_type_without_magic fs p :
  MAGIC_SUPPORTED E = false -> detect_file_type E fs p = detect_by_extension p.
Proof. intros H. unfold detect_file_type. rewrite H. reflexivity. Qed.

(** C4.  Without python-magic, a name that ends with .tar.gz, .tar.bz2
    or .tar.xz is classified as application/octet-stream: [suffix]
    keeps the last extension only, so the compound entries of the
    lookup are never met. *)
Theorem compound_suffix_is_not_resolved_to_tar fs file_path :
  MAGIC_SUPPORTED E = false ->
  endswith_any (name file_path) COMPRESSED_TAR = true ->
  detect_file_type E fs file_path = "application/octet-stream".
Proof.
  intros Hm Hn. rewrite detect_file_type_without_magic by exact Hm.
  unfold detect_by_extension, suffix.
  pose proof (suffix_of_compressed_tar _ Hn) as Hs.
  apply FSFacts.mem_In in Hs.
  destruct Hs as [<-|[<-|[<-|[]]]]; reflexivity.
Qed.

End ArchiveFacts.

(** ** The diagnostic taken from the log *)

Section DiagnosticFacts.
Import PyStr PyPath FS PyStrFacts.
Local Open Scope string_scope.

(** [error_info] as a function of the file system. *)
Lemma error_info_eq workdir fs :
  error_info workdir fs =
  (Ok match glob fs workdir ".log" with
      | [] => COMPILATION_FAILED
      | first :: _ =>
          match lookup fs first with
          | Some (File data) =>
              if contains (decode_text data) "! " then
                match filter (fun line => startswith line "! ")
                             (split nl (decode_text data)) with
                | line :: _ => "LaTeX Error: " ++ drop 2 line
                | [] => COMPILATION_FAILED
                end
              else COMPILATION_FAILED
          | _ => COMPILATION_FAILED
          end
      end, fs).
Proof.
  unfold error_info, read_text, read_bytes.
  unfold bind, read, try_except, ret, attempt.
  destruct (glob fs workdir ".log") as [|first others]; [reflexivity|].
  destruct (lookup fs first) as [[data|es]|]; [|reflexivity|reflexivity].
  destruct (contains (decode_text data) "! "); [|reflexivity].
  destruct (filter _ _); reflexivity.
Qed.

(** C7, as the code has it.  [error_info] never raises and changes
    nothing.  Without a *.log entry, or when the first one cannot be
    opened, the message is the generic one; otherwise the log is read
    as UTF-8 text (undecodable bytes left out, line ends translated)
    and the message is the label "LaTeX Error: " followed by the first
    line that starts with "! ", without these two characters, and the
    generic message when no line starts so. *)
Theorem diagnostic_from_first_log workdir fs :
  exists msg,
    error_info workdir fs = (Ok msg, fs)
    /\ (glob fs workdir ".log" = [] -> msg = COMPILATION_FAILED)
    /\ (forall first others,
          glob fs workdir ".log" = first :: others ->
          match lookup fs first with
          | Some (File data) =>
              (forall before line after,
                 split nl (decode_text data) = (before ++ line :: after)%list ->
                 Forall (fun l => startswith l "! " = false) before ->
                 startswith line "! " = true ->
                 msg = "LaTeX Error: " ++ drop 2 line)
              /\ (Forall (fun l => startswith l "! " = false)
                         (split nl (decode_text data)) ->
                  msg = COMPILATION_FAILED)
          | _ => msg = COMPILATION_FAILED
          end).
Proof.
  rewrite error_info_eq.
  destruct (glob fs workdir ".log") as [|first others] eqn:Hg.
  - eexists. split; [reflexivity|]. split; [reflexivity|]. discriminate.
  - destruct (lookup fs first) as [[data|es]|] eqn:Hl.
    + destruct (contains (decode_text data) "! ") eqn:Hc.
      * destruct (filter (fun line => startswith line "! ") (split nl (decode_text data)))
          as [|line0 rest0] eqn:Hf.
        -- eexists. split; [reflexivity|]. split; [discriminate|].
           intros ? ? [= <- <-]. rewrite Hl. split; [|reflexivity].
           intros before line after Hs Hb Hline.
           rewrite Hs, filter_first in Hf by assumption. discriminate.
        -- eexists. split; [reflexivity|]. split; [discriminate|].
           intros ? ? [= <- <-]. rewrite Hl. split.
           ++ intros before line after Hs Hb Hline.
              rewrite Hs, filter_first in Hf by assumption.
              injection Hf as <- _. reflexivity.
           ++ intros Hnone. rewrite filter_none in Hf by assumption. discriminate.
      * eexists. split; [reflexivity|]. split; [discriminate|].
        intros ? ? [= <- <-]. rewrite Hl. split; [|reflexivity].
        intros before line after Hs Hb Hline.
        assert (contains (decode_text data) "! " = true).
        { apply (split_line_contains nl (decode_text data) "! " line);
            [rewrite Hs; apply in_or_app; right; left; reflexivity
            |discriminate|exact Hline]. }
        congruence.
    + eexists. split; [reflexivity|]. split; [discriminate|].
      intros ? ? [= <- <-]. rewrite Hl. reflexivity.
    + eexists. split; [reflexivity|]. split; [discriminate|].
      intros ? ? [= <- <-]. rewrite Hl. reflexivity.
Qed.

End DiagnosticFacts.

(** ** The endpoint *)

Section EndpointFacts.
Import PyStr PyPath FS PyStrFacts FSFacts.
Context (E : Env).

Lemma assoc_del_other k c es :
  String.eqb c k = false -> assoc k (del_entry c es) = assoc k es.
Proof.
  intros Hck. induction es as [|[k0 y] es IH]; simpl; [reflexivity|].
  destruct (String.eqb k0 c) eqn:H0; simpl.
  - apply String.eqb_eq in H0. subst k0. rewrite Hck. exact IH.
  - destruct (String.eqb k0 k); [reflexivity|exact IH].
Qed.

Lemma assoc_put_other k c x es :
  String.eqb c k = false -> assoc k (put_entry c x es) = assoc k es.
Proof.
  intros Hck. induction es as [|[k0 y] es IH]; simpl.
  - rewrite Hck; reflexivity.
  - destruct (String.eqb k0 c) eqn:H0; simpl.
    + apply String.eqb_eq in H0. subst k0. rewrite Hck. reflexivity.
    + destruct (String.eqb k0 k); [reflexivity|exact IH].
Qed.

(** Removing an entry turns no path into a regular file. *)
Lemma is_file_after_removal p : forall n q,
  is_file (alter p (fun _ => None) n) q = true -> is_file n q = true.
Proof.
  unfold is_file.
  induction p as [|c p IH]; intros n q H; [exact H|].
  destruct n as [d|es]; [exact H|].
  cbn [alter] in H. destruct p as [|c' p].
  - destruct q as [|k q]; [discriminate H|].
    cbn [lookup set_entry] in *.
    destruct (String.eqb c k) eqn:Hck.
    + apply String.eqb_eq in Hck. subst k.
      rewrite assoc_del_same in H. discriminate.
    + rewrite assoc_del_other in H by exact Hck. exact H.
  - destruct (assoc c es) as [sub|] eqn:Hc; [|exact H].
    destruct q as [|k q]; [discriminate H|].
    cbn [lookup] in *.
    destruct (String.eqb c k) eqn:Hck.
    + apply String.eqb_eq in Hck. subst k.
      rewrite assoc_put_same in H. rewrite Hc. apply IH. exact H.
    + rewrite assoc_put_other in H by exact Hck. exact H.
Qed.

(** The upload is removed without an exception, and no regular file
    appears where there was none. *)
Lemma remove_upload_spec archive_path fs0 :
  exists fs1,
    remove_upload E archive_path fs0 = (Ok tt, fs1)
    /\ forall q, is_file fs1 q = true -> is_file fs0 q = true.
Proof.
  unfold remove_upload. destruct archive_path as [ap|];
    [|eexists; split; [reflexivity|auto]].
  unfold bind, read, try_except, ret, unlink, iterdir, rmdir, attempt.
  destruct (exists_ fs0 ap); [|eexists; split; [reflexivity|auto]].
  destruct (lookup fs0 ap) as [[d|es]|].
  - destruct (removal_allowed E ap).
    + set (fs1 := alter ap (fun _ => None) fs0).
      assert (H1 : forall q, is_file fs1 q = true -> is_file fs0 q = true)
        by (intros q; apply is_file_after_removal).
      destruct (startswith (name (parent ap)) "tmp");
        [|eexists; split; [reflexivity|exact H1]].
      destruct (lookup fs1 (parent ap)) as [[d'|[|e es']]|] eqn:Hl;
        try (eexists; split; [reflexivity|exact H1]).
      cbn [map]. rewrite Hl.
      destruct (removal_allowed E (parent ap));
        [|eexists; split; [reflexivity|exact H1]].
      eexists; split; [reflexivity|].
      intros q Hq. apply H1. eapply is_file_after_removal; exact Hq.
    + cbn. eexists; split; [reflexivity|auto].
  - cbn. eexists; split; [reflexivity|auto].
  - cbn. eexists; split; [reflexivity|auto].
Qed.

(** The [finally] block raises nothing; it leaves no workspace behind
    when the workspace path was not turned into a regular file and
    every removal below it succeeds. *)
Lemma cleanup_spec archive_path workdir fs0 :
  exists fs2,
    cleanup E archive_path workdir fs0 = (Ok tt, fs2)
    /\ (workdir <> [] -> is_file fs0 workdir = false ->
        (forall q, removal_allowed E (workdir ++ q) = true) ->
        exists_ fs2 workdir = false).
Proof.
  unfold cleanup, bind at 1.
  destruct (remove_upload_spec archive_path fs0) as [fs1 [-> Hfile]].
  unfold bind, read.
  destruct (exists_ fs1 workdir) eqn:Hx.
  - destruct (rmtree_ok (removal_allowed E) workdir fs1) as [fs2 Hrm].
    exists fs2. split; [exact Hrm|].
    intros Hne Hnf Hok.
    replace fs2 with (snd (rmtree_ignore_errors (removal_allowed E) workdir fs1))
      by (rewrite Hrm; reflexivity).
    apply rmtree_removes; auto.
    destruct (is_file fs1 workdir) eqn:Hf; [|reflexivity].
    apply Hfile in Hf. congruence.
  - exists fs1. split; [reflexivity|]. intros _ _ _. exact Hx.
Qed.

Lemma lift_fs_eq {A} (m : SE node A) w :
  lift_fs m w = (fst (m (fs w)), {| fs := snd (m (fs w)); trace := trace w |}).
Proof. unfold lift_fs. destruct (m (fs w)); reflexivity. Qed.

Lemma mkdtemp_nonempty fs0 workdir fs1 :
  mkdtemp E fs0 = (Ok workdir, fs1) -> workdir <> [].
Proof.
  unfold mkdtemp, bind, read, ret.
  destruct (mkdir _ fs0) as [[[]|e] fs']; [|discriminate].
  intros [= <- _]. unfold child. destruct (gettempdir E); discriminate.
Qed.

(** The endpoint, once the upload is there and the workspace was made:
    the upload is saved, the body runs, the [finally] block runs, and
    the outcome is that of the body. *)
Lemma endpoint_runs_body_then_cleanup request uploaded w workdir fs1 :
  assoc_file request = Some uploaded ->
  filename uploaded <> "" ->
  mkdtemp E (fs w) = (Ok workdir, fs1) ->
  exists saved fs2 r wb fs3,
    save_uploaded_file E uploaded fs1 = (saved, fs2)
    /\ endpoint_body E uploaded workdir saved {| fs := fs2; trace := trace w |} = (r, wb)
    /\ cleanup E (match saved with Ok p => Some p | Raise _ => None end)
               workdir (fs wb) = (Ok tt, fs3)
    /\ compile_latex_endpoint E request w = (r, {| fs := fs3; trace := trace wb |}).
Proof.
  intros Hfile Hname Hmk.
  unfold compile_latex_endpoint. rewrite Hfile.
  apply String.eqb_neq in Hname. rewrite Hname.
  unfold bind at 1. rewrite lift_fs_eq, Hmk. cbn [fst snd].
  unfold bind at 1, reify. rewrite lift_fs_eq. cbn [fs trace].
  destruct (save_uploaded_file E uploaded fs1) as [saved fs2] eqn:Hsave.
  cbn [fst snd]. unfold try_finally.
  destruct (endpoint_body E uploaded workdir saved {| fs := fs2; trace := trace w |})
    as [r wb] eqn:Hbody.
  rewrite lift_fs_eq.
  destruct (cleanup_spec (match saved with Ok p => Some p | Raise _ => None end)
              workdir (fs wb)) as [fs3 [Hc _]].
  rewrite Hc. cbn [fst snd].
  exists saved, fs2, r, wb, fs3. auto.
Qed.

(** C6.  For a request that carries a file, once the workspace was
    created: the endpoint ends as its body ended, with a response of
    any kind or with the exception the body raised, so the [finally]
    block raised nothing, whichever removals failed; and when no
    removal below the workspace fails (and the workspace path was not
    replaced by a regular file) the workspace no longer exists. *)
Theorem workspace_removed_on_every_exit request uploaded w workdir fs1 :
  assoc_file request = Some uploaded ->
  filename uploaded <> "" ->
  mkdtemp E (fs w) = (Ok workdir, fs1) ->
  exists saved fs2 r wb w',
    save_uploaded_file E uploaded fs1 = (saved, fs2)
    /\ endpoint_body E uploaded workdir saved {| fs := fs2; trace := trace w |} = (r, wb)
    /\ compile_latex_endpoint E request w = (r, w')
    /\ (is_file (fs wb) workdir = false ->
        (forall q, removal_allowed E (workdir ++ q) = true) ->
        exists_ (fs w') workdir = false).
Proof.
  intros Hfile Hname Hmk.
  destruct (endpoint_runs_body_then_cleanup _ _ _ _ _ Hfile Hname Hmk)
    as [saved [fs2 [r [wb [fs3 [Hsave [Hbody [Hclean Hend]]]]]]]].
  exists saved, fs2, r, wb, {| fs := fs3; trace := trace wb |}.
  repeat split; auto.
  intros Hnf Hok. cbn [fs].
  destruct (cleanup_spec (match saved with Ok p => Some p | Raise _ => None end)
              workdir (fs wb)) as [fs3' [Hc Hgone]].
  rewrite Hclean in Hc. injection Hc as <-.
  apply Hgone; auto. eapply mkdtemp_nonempty; eauto.
Qed.

(** The message of [error_info] is the generic one or a line of the
    log behind "LaTeX Error: "; nothing is raised or changed. *)
Lemma error_info_total workdir fs0 :
  exists msg,
    error_info workdir fs0 = (Ok msg, fs0)
    /\ (msg = COMPILATION_FAILED
        \/ exists line, msg = ("LaTeX Error: " ++ line)%string).
Proof.
  rewrite error_info_eq.
  destruct (glob fs0 workdir ".log") as [|first others]; [eauto|].
  destruct (lookup fs0 first) as [[data|es]|]; [|eauto|eauto].
  destruct (contains (decode_text data) "! "); [|eauto].
  destruct (filter _ _) as [|line rest]; eauto.
Qed.

Lemma compile_run_true tex out wd fs0 tr b fs1 :
  compile_run E tex out wd fs0 tr b fs1 -> b = true -> exists_ fs1 out = true.
Proof. intros H Hb. destruct H; congruence. Qed.



(** The second half of the body: from the entry document to the
    response. *)
Lemma compile_workspace_cases workdir w :
  match find_main_tex (fs w) workdir with
  | None => compile_workspace E workdir w = (Ok (Json 400 NO_LATEX_FILES), w)
  | Some main_tex =>
      let pdf_name := (stem main_tex ++ ".pdf")%string in
      let pdf_file := child workdir pdf_name in
      exists tr b fs1 r,
        compile_run E main_tex pdf_file workdir (fs w) tr b fs1
        /\ compile_workspace E workdir w
           = (r, {| fs := fs1; trace := trace w ++ tr |})
        /\ (b = true ->
            r = match flask_send_file E fs1 pdf_file with
                | Ok payload =>
                    Ok (Attachment pdf_file "application/pdf" pdf_name payload)
                | Raise e => Raise e
                end)
        /\ (b = false ->
            exists msg, error_info workdir fs1 = (Ok msg, fs1)
                        /\ r = Ok (Json 400 msg))
        /\ compile_latex E main_tex pdf_file workdir w
           = (Ok b, {| fs := fs1; trace := trace w ++ tr |})
  end.
Proof.
  assert (Hstart : compile_workspace E workdir w =
            match find_main_tex (fs w) workdir with
            | None => (Ok (Json 400 NO_LATEX_FILES), w)
            | Some main_tex =>
                let pdf_name := (stem main_tex ++ ".pdf")%string in
                let pdf_file := child workdir pdf_name in
                (result <- compile_latex E main_tex pdf_file workdir ;;
                 pdf <- read (fun w => exists_ (fs w) pdf_file) ;;
                 if result && pdf then
                   payload <- lift_fs (attempt (fun fs => flask_send_file E fs pdf_file)) ;;
                   ret (Attachment pdf_file "application/pdf" pdf_name payload)
                 else
                   msg <- lift_fs (error_info workdir) ;;
                   ret (Json 400 msg)) w
            end).
  { unfold compile_workspace. unfold bind at 1. unfold read at 1.
    destruct (find_main_tex (fs w) workdir); reflexivity. }
  rewrite Hstart. clear Hstart.
  destruct (find_main_tex (fs w) workdir) as [main_tex|]; [|reflexivity].
  cbv zeta.
  set (pdf_name := (stem main_tex ++ ".pdf")%string).
  set (pdf_file := child workdir pdf_name).
  destruct (compile_latex_run E main_tex pdf_file workdir w)
    as [tr [b [fs1 [Heq Hrun]]]].
  unfold bind at 1. rewrite Heq.
  unfold bind at 1. unfold read at 1. cbn [fs].
  destruct b.
  - rewrite (compile_run_true _ _ _ _ _ _ _ Hrun eq_refl). cbn [andb].
    unfold bind, ret. rewrite lift_fs_eq. unfold attempt. cbn [fst snd fs trace].
    exists tr, true, fs1,
      (match flask_send_file E fs1 pdf_file with
       | Ok payload => Ok (Attachment pdf_file "application/pdf" pdf_name payload)
       | Raise e => Raise e
       end).
    split; [exact Hrun|]. split.
    + destruct (flask_send_file E fs1 pdf_file); reflexivity.
    + split; [reflexivity|]. split; [discriminate|reflexivity].
  - cbn [andb]. unfold bind, ret. rewrite lift_fs_eq. cbn [fst snd fs trace].
    destruct (error_info_total workdir fs1) as [msg [Hmsg _]].
    rewrite Hmsg. cbn [fst snd].
    eexists tr, false, fs1, _. split; [exact Hrun|]. split; [reflexivity|].
    split; [discriminate|]. split; [|reflexivity]. intros _. eauto.
Qed.

Lemma compile_run_starts tex out wd fs0 tr b fs1 :
  compile_run E tex out wd fs0 tr b fs1 ->
  exists r rest, tr = first_pass tex wd r :: rest.
Proof. intros H. destruct H; eauto. Qed.

(** C9.  When main.tex exists at the root of the workspace it is the
    entry document; otherwise the entry document is the first path
    the recursive search for *.tex lists.  The entry document is the
    one the first latexmk pass is started on.  In a workspace with no
    entry called *.tex at any depth the answer is the 400 response
    "No LaTeX files found" and nothing changes: no process is
    started. *)
Theorem entry_document_resolution workdir w :
  let main_tex := child workdir "main.tex" in
  (exists_ (fs w) main_tex = true ->
     find_main_tex (fs w) workdir = Some main_tex)
  /\ (exists_ (fs w) main_tex = false ->
      find_main_tex (fs w) workdir = hd_error (rglob (fs w) workdir ".tex"))
  /\ (forall entry,
        find_main_tex (fs w) workdir = Some entry ->
        exists r fs' rc rest,
          compile_workspace E workdir w
          = (r, {| fs := fs';
                   trace := trace w ++ first_pass entry workdir rc :: rest |}))
  /\ (well_formed (fs w) = true ->
      (forall q, q <> [] -> exists_ (fs w) (workdir ++ q) = true ->
                 endswith (name q) ".tex" = false) ->
      find_main_tex (fs w) workdir = None
      /\ compile_workspace E workdir w = (Ok (Json 400 NO_LATEX_FILES), w)).
Proof.
  intros main_tex. split; [|split; [|split]].
  - intros Hx. unfold find_main_tex. fold main_tex. rewrite Hx. reflexivity.
  - intros Hx. unfold find_main_tex. fold main_tex. rewrite Hx. cbn [negb].
    destruct (rglob (fs w) workdir ".tex"); reflexivity.
  - intros entry Hentry.
    pose proof (compile_workspace_cases workdir w) as Hc.
    rewrite Hentry in Hc. cbv zeta in Hc.
    destruct Hc as [tr [b [fs1 [r [Hrun [Heq _]]]]]].
    destruct (compile_run_starts _ _ _ _ _ _ _ Hrun) as [rc [rest ->]].
    exists r, fs1, rc, rest. exact Heq.
  - intros Hwf Hnone.
    assert (Hfind : find_main_tex (fs w) workdir = None).
    { unfold find_main_tex. fold main_tex.
      destruct (exists_ (fs w) main_tex) eqn:Hx.
      - assert (H : endswith (name ["main.tex"]) ".tex" = false)
          by (apply Hnone; [discriminate|exact Hx]).
        cbv in H. discriminate H.
      - cbn [negb]. destruct (rglob (fs w) workdir ".tex") as [|q rest] eqn:Hg;
          [reflexivity|].
        destruct (rglob_sound (fs w) workdir ".tex" q Hwf) as [rel [-> [Hne [Hex Hsuf]]]];
          [rewrite Hg; left; reflexivity|].
        rewrite (Hnone rel Hne Hex) in Hsuf. discriminate. }
    split; [exact Hfind|].
    pose proof (compile_workspace_cases workdir w) as Hc.
    rewrite Hfind in Hc. exact Hc.
Qed.

(** [receive_archive] raises nothing: it ends with a 400 response, or
    with the archive unpacked. *)
Lemma receive_archive_cases up wd saved fs2 :
  exists o fsr,
    receive_archive E up wd saved fs2 = (Ok o, fsr)
    /\ match o with
       | Some resp => exists msg, resp = Json 400 msg
       | None =>
           exists ap, saved = Ok ap /\ is_archive_file E fs2 ap = true
                      /\ extract_archive E ap wd fs2 = (Ok tt, fsr)
       end.
Proof.
  unfold receive_archive, try_except, bind, reflect, read, ret.
  destruct saved as [ap|e].
  - destruct (is_archive_file E fs2 ap) eqn:Hs; cbn [negb].
    + destruct (extract_archive E ap wd fs2) as [[[]|e] fsr] eqn:Hx.
      * exists None, fsr. split; [reflexivity|]. exists ap. auto.
      * destruct (exn_class_eqb (exn_kind e) ValueError);
          eexists (Some _), fsr; (split; [reflexivity|eauto]).
    + eexists (Some _), fs2. split; [reflexivity|eauto].
  - destruct (exn_class_eqb (exn_kind e) ValueError);
      eexists (Some _), fs2; (split; [reflexivity|eauto]).
Qed.

(** The ways a request can end: without a process, on a 400 response
    or on the exception of [mkdtemp]; or after the upload was saved and
    unpacked and an entry document found, with one call of
    [compile_latex], the response built from its answer in the file
    system it left, and the [finally] block. *)
Lemma endpoint_cases request w r w' :
  compile_latex_endpoint E request w = (r, w') ->
  (trace w' = trace w
   /\ ((exists msg, r = Ok (Json 400 msg))
       \/ exists e fs1, r = Raise e /\ mkdtemp E (fs w) = (Raise e, fs1)))
  \/ exists uploaded workdir fs1 ap fs2 fs3 entry tr b fsc,
       assoc_file request = Some uploaded
       /\ mkdtemp E (fs w) = (Ok workdir, fs1)
       /\ save_uploaded_file E uploaded fs1 = (Ok ap, fs2)
       /\ is_archive_file E fs2 ap = true
       /\ extract_archive E ap workdir fs2 = (Ok tt, fs3)
       /\ find_main_tex fs3 workdir = Some entry
       /\ compile_run E entry (child workdir (stem entry ++ ".pdf")%string)
                      workdir fs3 tr b fsc
       /\ trace w' = trace w ++ tr
       /\ (b = true ->
           r = match flask_send_file E fsc (child workdir (stem entry ++ ".pdf")%string) with
               | Ok payload =>
                   Ok (Attachment (child workdir (stem entry ++ ".pdf")%string)
                                  "application/pdf" (stem entry ++ ".pdf")%string payload)
               | Raise e => Raise e
               end)
       /\ (b = false ->
           exists msg, error_info workdir fsc = (Ok msg, fsc)
                       /\ r = Ok (Json 400 msg))
       /\ compile_latex E entry (child workdir (stem entry ++ ".pdf")%string) workdir
                        {| fs := fs3; trace := trace w |}
          = (Ok b, {| fs := fsc; trace := trace w' |})
       /\ cleanup E (Some ap) workdir fsc = (Ok tt, fs w').
Proof.
  intros Hend.
  destruct (assoc_file request) as [uploaded|] eqn:Hfile;
    [|unfold compile_latex_endpoint in Hend; rewrite Hfile in Hend;
      injection Hend as <- <-;
      left; split; [reflexivity|left; eexists; reflexivity]].
  destruct (String.eqb (filename uploaded) "") eqn:Hname;
    [unfold compile_latex_endpoint in Hend; rewrite Hfile, Hname in Hend;
     injection Hend as <- <-;
     left; split; [reflexivity|left; eexists; reflexivity]|].
  destruct (mkdtemp E (fs w)) as [[workdir|e] fs1] eqn:Hmk.
  - apply String.eqb_neq in Hname.
    destruct (endpoint_runs_body_then_cleanup _ _ _ _ _ Hfile Hname Hmk)
      as [saved [fs2 [r0 [wb [fs3 [Hsave [Hbody [Hclean Heq]]]]]]]].
    rewrite Heq in Hend. injection Hend as <- <-. cbn [trace fs].
    unfold endpoint_body in Hbody. unfold bind at 1 in Hbody.
    rewrite lift_fs_eq in Hbody. cbn [fs trace] in Hbody.
    destruct (receive_archive_cases uploaded workdir saved fs2)
      as [o [fsr [Hrec Ho]]].
    rewrite Hrec in Hbody. cbn [fst snd] in Hbody.
    destruct o as [resp|].
    + destruct Ho as [msg ->]. injection Hbody as <- <-.
      left; split; [reflexivity|left; eexists; reflexivity].
    + destruct Ho as [ap [-> [Hs Hx]]].
      pose proof (compile_workspace_cases workdir {| fs := fsr; trace := trace w |}) as Hc.
      cbn [fs trace] in Hc.
      destruct (find_main_tex fsr workdir) as [entry|] eqn:Hentry.
      * cbv zeta in Hc.
        destruct Hc as [tr [b [fsc [rc [Hrun [Hcw [Htrue [Hfalse Hcl]]]]]]]].
        rewrite Hcw in Hbody. injection Hbody as <- <-.
        cbn [trace fs] in Hclean |- *.
        right. exists uploaded, workdir, fs1, ap, fs2, fsr, entry, tr, b, fsc.
        do 8 (split; [assumption || reflexivity|]).
        split; [exact Htrue|]. split; [exact Hfalse|].
        split; [exact Hcl|exact Hclean].
      * rewrite Hc in Hbody. injection Hbody as <- <-.
        left; split; [reflexivity|left; eexists; reflexivity].
  - unfold compile_latex_endpoint in Hend. rewrite Hfile, Hname in Hend.
    unfold bind at 1 in Hend. rewrite lift_fs_eq, Hmk in Hend.
    injection Hend as <- <-. left. split; [reflexivity|]. right. eauto.
Qed.


End EndpointFacts.

(** ** Runs on the sample environments *)

Section SampleRuns.
Import PyStr PyPath FS Sample MoreSamples PyStrFacts.

(** C1 on a run whose final pass exits with 1 after it wrote the PDF:
    all three passes returned, and the answer is True. *)
Lemma final_pass_nonzero_with_artifact_succeeds :
  let run := compile_latex env_final_nonzero main_tex main_pdf work
               (start (project pythontex_document)) in
  Forall (fun i => is_ok (inv_outcome i) = true) (trace (snd run))
  /\ List.map inv_outcome (trace (snd run)) = [Ok 1%Z; Ok 0%Z; Ok 1%Z]
  /\ exists_ (fs (snd run)) main_pdf = true
  /\ fst run = Ok true.
Proof.
  intros run.
  assert (Hall : Forall (fun i => is_ok (inv_outcome i) = true) (trace (snd run)))
    by (vm_compute; repeat constructor).
  destruct (success_iff_artifact_exists env_final_nonzero main_tex main_pdf work
              (start (project pythontex_document)) (fst run) (snd run)
              (trace (snd run)) (surjective_pairing run) eq_refl Hall)
    as [Hr _].
  split; [exact Hall|]. split; [vm_compute; reflexivity|].
  split; [vm_compute; reflexivity|].
  rewrite Hr. vm_compute. reflexivity.
Defined.

(** Against C2 as the specification words it: a document that loads
    pythontex in \usepackage{amsmath,pythontex} references the package
    by name, yet the test of line 146 does not pass, and with no
    *.pytxcode entry the primary pass is the only invocation. *)
Lemma package_list_reference_gets_no_auxiliary_pass :
  let w := start (project package_list_document) in
  let run := compile_latex env_one_pass main_tex main_pdf work w in
  read_text main_tex (fs w) = (Ok package_list_document, fs w)
  /\ contains package_list_document "\usepackage{amsmath,pythontex}" = true
  /\ contains package_list_document "pythontex" = true
  /\ glob (fs (snd run)) work ".pytxcode" = []
  /\ trace (snd run) = [first_pass main_tex work (Ok 0%Z)]
  /\ fst run = Ok true.
Proof. vm_compute. repeat split; reflexivity. Qed.

(** C2 as amended, on three runs: a primary pass that leaves
    main.pytxcode for a document without pythontex; a primary pass
    that leaves no such entry for a document that holds
    \usepackage{pythontex}; and the latter pass for a document without
    pythontex.  The first two run pythontex and the final pass, the
    third stops after the primary pass. *)
Lemma pythontex_runs_when_required :
  (let w := start (project plain_document) in
   let after_first :=
     child_process env_final_nonzero (first_pass_argv main_tex work) work (fs w) in
   fst after_first = Ok 1%Z
   /\ glob (snd after_first) work ".pytxcode" = [child work "main.pytxcode"]
   /\ exists b fs' r2 r3,
        compile_latex env_final_nonzero main_tex main_pdf work w
        = (Ok b, {| fs := fs';
                    trace := [first_pass main_tex work (Ok 1%Z);
                              pythontex_pass env_final_nonzero main_tex work r2;
                              final_pass main_tex work r3] |}))
  /\ (let w := start (project pythontex_document) in
      let after_first :=
        child_process env_one_pass (first_pass_argv main_tex work) work (fs w) in
      fst after_first = Ok 0%Z
      /\ glob (snd after_first) work ".pytxcode" = []
      /\ lookup (snd after_first) main_tex = Some (File pythontex_document)
      /\ contains (decode_text pythontex_document) "\usepackage{pythontex}" = true
      /\ exists b fs' r2 r3,
           compile_latex env_one_pass main_tex main_pdf work w
           = (Ok b, {| fs := fs';
                       trace := [first_pass main_tex work (Ok 0%Z);
                                 pythontex_pass env_one_pass main_tex work r2;
                                 final_pass main_tex work r3] |}))
  /\ (let w := start (project plain_document) in
      let after_first :=
        child_process env_one_pass (first_pass_argv main_tex work) work (fs w) in
      fst after_first = Ok 0%Z
      /\ glob (snd after_first) work ".pytxcode" = []
      /\ lookup (snd after_first) main_tex = Some (File plain_document)
      /\ contains (decode_text plain_document) "pythontex" = false
      /\ exists b fs',
           compile_latex env_one_pass main_tex main_pdf work w
           = (Ok b, {| fs := fs'; trace := [first_pass main_tex work (Ok 0%Z)] |})).
Proof.
  split; [|split].
  - intros w after_first.
    split; [vm_compute; reflexivity|]. split; [vm_compute; reflexivity|].
    pose proof (auxiliary_pass_iff_required env_final_nonzero main_tex main_pdf work w
                  1%Z (snd after_first) eq_refl) as H.
    cbv zeta in H.
    destruct H as [b [fs' [tr [Heq [Hreq _]]]]].
    assert (Hp : glob (snd after_first) work ".pytxcode" <> [])
      by (vm_compute; discriminate).
    destruct (Hreq (or_introl Hp)) as [r2 [rest [-> [Hok _]]]].
    assert (Hr2 : is_ok r2 = true).
    { assert (Ht : trace (snd (compile_latex env_final_nonzero main_tex main_pdf work w))
                   = trace w ++ first_pass main_tex work (Ok 1%Z)
                              :: pythontex_pass env_final_nonzero main_tex work r2 :: rest)
        by (rewrite Heq; reflexivity).
      vm_compute in Ht. injection Ht as Hr2 _. rewrite <- Hr2. reflexivity. }
    destruct (Hok Hr2) as [r3 ->].
    exists b, fs', r2, r3. exact Heq.
  - intros w after_first.
    split; [vm_compute; reflexivity|]. split; [vm_compute; reflexivity|].
    split; [vm_compute; reflexivity|]. split; [vm_compute; reflexivity|].
    pose proof (auxiliary_pass_iff_required env_one_pass main_tex main_pdf work w
                  0%Z (snd after_first) eq_refl) as H.
    cbv zeta in H.
    destruct H as [b [fs' [tr [Heq [Hreq _]]]]].
    assert (Hp : exists data,
               lookup (snd after_first) main_tex = Some (File data)
               /\ (occurs "\usepackage{pythontex}" (decode_text data)
                   \/ (occurs "\usepackage[" (decode_text data)
                       /\ occurs "pythontex" (decode_text data)))).
    { exists pythontex_document. split; [vm_compute; reflexivity|].
      left. apply contains_occurs. vm_compute. reflexivity. }
    destruct (Hreq (or_intror Hp)) as [r2 [rest [-> [Hok _]]]].
    assert (Hr2 : is_ok r2 = true).
    { assert (Ht : trace (snd (compile_latex env_one_pass main_tex main_pdf work w))
                   = trace w ++ first_pass main_tex work (Ok 0%Z)
                              :: pythontex_pass env_one_pass main_tex work r2 :: rest)
        by (rewrite Heq; reflexivity).
      vm_compute in Ht. injection Ht as Hr2 _. rewrite <- Hr2. reflexivity. }
    destruct (Hok Hr2) as [r3 ->].
    exists b, fs', r2, r3. exact Heq.
  - intros w after_first.
    split; [vm_compute; reflexivity|]. split; [vm_compute; reflexivity|].
    split; [vm_compute; reflexivity|]. split; [vm_compute; reflexivity|].
    pose proof (auxiliary_pass_iff_required env_one_pass main_tex main_pdf work w
                  0%Z (snd after_first) eq_refl) as H.
    cbv zeta in H.
    destruct H as [b [fs' [tr [Heq [_ Hnot]]]]].
    exists b, fs'. rewrite Heq. rewrite Hnot; [reflexivity|].
    intros [Hp|[data [Hl Ht]]].
    + apply Hp. vm_compute. reflexivity.
    + assert (Hd : data = plain_document)
        by (vm_compute in Hl; injection Hl as <-; reflexivity).
      subst data.
      assert (Hno : forall sub, contains (decode_text plain_document) sub = false ->
                                ~ occurs sub (decode_text plain_document))
        by (intros sub; apply not_contains_occurs).
      destruct Ht as [Ht|[_ Ht]]; revert Ht; apply Hno; vm_compute; reflexivity.
Defined.

(** C10 on a first pass that times out: the answer is False, not an
    exception. *)
Lemma timeout_inside_compile_latex_gives_false :
  let run := compile_latex env_timeout main_tex main_pdf work
               (start (project plain_document)) in
  List.map (fun i => is_ok (inv_outcome i)) (trace (snd run)) = [false]
  /\ fst run = Ok false.
Proof.
  intros run. split; [vm_compute; reflexivity|].
  destruct (compile_latex_never_raises env_timeout main_tex main_pdf work
              (start (project plain_document))) as [b [fs' [tr [Heq Hraised]]]].
  assert (Ht : trace (snd run) = tr) by (unfold run; rewrite Heq; reflexivity).
  unfold run. rewrite Heq. cbn [fst]. f_equal. apply Hraised.
  rewrite <- Ht. vm_compute. constructor. reflexivity.
Defined.



(** C4 on upload.tar.gz. *)
Lemma upload_tar_gz_is_octet_stream :
  MAGIC_SUPPORTED env_one_pass = false
  /\ endswith_any (name (child upload_dir "upload.tar.gz")) COMPRESSED_TAR = true
  /\ detect_file_type env_one_pass (uploaded_as "upload.tar.gz")
       (child upload_dir "upload.tar.gz") = "application/octet-stream".
Proof.
  split; [reflexivity|]. split; [vm_compute; reflexivity|].
  apply (compound_suffix_is_not_resolved_to_tar env_one_pass
           (uploaded_as "upload.tar.gz") (child upload_dir "upload.tar.gz"));
    vm_compute; reflexivity.
Defined.

(** Against C5 as the specification words it: the tar routine runs no integrity
    test; on a truncated archive it has written main.tex into the
    destination when the library raises, and the exception that
    leaves [extract_archive] is the library's own, not a ValueError. *)
Lemma truncated_tar_is_partially_extracted :
  let archive := child upload_dir "upload.tar" in
  let before := uploaded_as "upload.tar" in
  let run := extract_archive env_truncated_tar archive work before in
  is_archive_file env_truncated_tar before archive = true
  /\ fst run = Raise (Exn TarError "unexpected end of data")
  /\ exn_class_eqb TarError ValueError = false
  /\ lookup before (child work "main.tex") = None
  /\ lookup (snd run) (child work "main.tex") = Some (File plain_document).
Proof. vm_compute. repeat split; reflexivity. Qed.

(** C5 as amended, on a file that is no zip archive under the name
    upload.zip, which is refused with nothing written, and on the
    truncated tar archive, where the outcome and the file system are
    those [extractall] left. *)
Lemma bad_zip_is_refused_before_writing :
  (let archive := child upload_dir "upload.zip" in
   let before := uploaded_as "upload.zip" in
   codec_open (zipfile_ZipFile env_bad_zip) before archive
   = Raise (Exn BadZipFile "File is not a zip file")
   /\ extract_archive env_bad_zip archive work before
      = (Raise (Exn ValueError "Invalid ZIP file: File is not a zip file"), before))
  /\ (let archive := child upload_dir "upload.tar" in
      let before := uploaded_as "upload.tar" in
      extract_archive env_truncated_tar archive work before
      = codec_extractall (tarfile_open env_truncated_tar) archive work before).
Proof.
  split.
  - intros archive before. split; [reflexivity|].
    pose proof (extraction_fails_when_the_library_does env_bad_zip before archive work)
      as H.
    cbv zeta in H. destruct H as [_ [H _]].
    specialize (H eq_refl eq_refl).
    change (archive_route (detect_file_type env_bad_zip before archive)
              (lower (suffix archive)) (name archive)) with RouteZip in H.
    cbv iota in H. refine (eq_trans H _). reflexivity.
  - intros archive before.
    pose proof (extraction_fails_when_the_library_does env_truncated_tar before
                  archive work) as H.
    cbv zeta in H. destruct H as [_ [H _]].
    specialize (H eq_refl eq_refl).
    change (archive_route (detect_file_type env_truncated_tar before archive)
              (lower (suffix archive)) (name archive)) with RouteTar in H.
    cbv iota in H. refine (eq_trans H _). reflexivity.
Defined.

(** C6 on a request that is answered with the PDF: the workspace is
    gone afterwards. *)
Lemma workspace_is_gone_after_a_successful_request :
  let run := compile_latex_endpoint env_one_pass zip_request (start empty_disk) in
  (exists payload,
     fst run = Ok (Attachment (child work "main.pdf") "application/pdf"
                              "main.pdf" payload))
  /\ exists_ (fs (snd run)) work = false.
Proof.
  intros run. split; [eexists; vm_compute; reflexivity|].
  destruct (workspace_removed_on_every_exit env_one_pass zip_request
              {| filename := "project.zip"; stream := "PK archive bytes" |}
              (start empty_disk) work
              (snd (mkdtemp env_one_pass (fs (start empty_disk))))
              eq_refl ltac:(discriminate) eq_refl)
    as [saved [fs2 [r [wb [w' [Hsave [Hbody [Hend Hgone]]]]]]]].
  vm_compute in Hsave. injection Hsave as <- <-.
  vm_compute in Hbody. injection Hbody as <- <-.
  unfold run. rewrite Hend. cbn [snd].
  apply Hgone; [vm_compute; reflexivity|reflexivity].
Defined.

(** Against C7 as the specification words it: the summary is not the
    first marker line trimmed of its marker; the label "LaTeX Error: "
    stands before it. *)
Lemma summary_is_labelled :
  let answer := fst (error_info work workspace_with_log) in
  filter (fun line => startswith line "! ") (split nl (decode_text broken_log))
  = ["! Undefined control sequence."; "! Emergency stop."]
  /\ drop 2 "! Undefined control sequence." = "Undefined control sequence."
  /\ answer = Ok "LaTeX Error: Undefined control sequence."
  /\ answer <> Ok "Undefined control sequence.".
Proof.
  vm_compute. repeat split; try reflexivity. discriminate.
Qed.

(** C7 as amended, on a log with two error lines, "\r\n" line ends
    and a byte that is no UTF-8 in the first error line: the first
    error line is reported as the text holds it. *)
Lemma first_error_line_is_reported :
  split nl (decode_text crlf_log)
  = ["This is pdfTeX"; "! Undefined control sequence."; "l.3 \foo";
     "! Emergency stop."]
  /\ split nl crlf_log <> split nl (decode_text crlf_log)
  /\ error_info work workspace_with_crlf_log
     = (Ok "LaTeX Error: Undefined control sequence.", workspace_with_crlf_log).
Proof.
  split; [vm_compute; reflexivity|]. split; [vm_compute; discriminate|].
  destruct (diagnostic_from_first_log work workspace_with_crlf_log)
    as [msg [Heq [_ Hfirst]]].
  rewrite Heq. f_equal. f_equal.
  specialize (Hfirst (child work "main.log") [] eq_refl).
  change (lookup workspace_with_crlf_log (child work "main.log"))
    with (Some (File crlf_log)) in Hfirst.
  destruct Hfirst as [Hline _].
  apply (Hline ["This is pdfTeX"] "! Undefined control sequence."
               ["l.3 \foo"; "! Emergency stop."]).
  - vm_compute; reflexivity.
  - repeat constructor.
  - reflexivity.
Defined.

(** Against C8 as the specification words it: python-magic recognises the
    content of upload.tar as RAR and rarfile is absent; detection
    accepts the file, but the tar test of the chain comes first, and
    what extraction raises is the error of tarfile, not the error of
    the missing module. *)
Lemma rar_content_named_tar_raises_the_tar_error :
  let archive := child upload_dir "upload.tar" in
  let before := uploaded_as "upload.tar" in
  detect_file_type env_magic_rar before archive = "application/x-rar-compressed"
  /\ RAR_SUPPORTED env_magic_rar = false
  /\ is_archive_file env_magic_rar before archive = true
  /\ extract_archive env_magic_rar archive work before
     = (Raise (Exn TarError "file could not be opened"), before)
  /\ exn_class_eqb TarError RuntimeError = false.
Proof. vm_compute. repeat split; reflexivity. Qed.

(** C8 as amended, on upload.rar without rarfile. *)
Lemma rar_without_rarfile_is_a_runtime_error :
  let archive := child upload_dir "upload.rar" in
  let before := uploaded_as "upload.rar" in
  RAR_SUPPORTED env_one_pass = false
  /\ lower (suffix archive) = ".rar"
  /\ is_archive_file env_one_pass before archive = true
  /\ extract_archive env_one_pass archive work before
     = (Raise (Exn RuntimeError
                 "RAR format not supported (rarfile module not available)"), before).
Proof.
  intros archive before.
  assert (Hsfx : lower (suffix archive) = ".rar") by (vm_compute; reflexivity).
  split; [reflexivity|]. split; [exact Hsfx|].
  pose proof (missing_capability_is_a_distinct_error env_one_pass before archive work)
    as H.
  cbv zeta in H.
  destruct H as [H _];
    [vm_compute; reflexivity|vm_compute; reflexivity|vm_compute; discriminate
    |vm_compute; reflexivity|vm_compute; reflexivity|vm_compute; reflexivity|].
  exact (H (or_intror Hsfx) eq_refl).
Defined.

Lemma sample_workspace_has_no_tex q :
  q <> [] -> exists_ workspace_without_tex (work ++ q) = true ->
  endswith (name q) ".tex" = false.
Proof.
  intros Hq. unfold exists_, workspace_without_tex, work. cbn [app lookup assoc].
  change (String.eqb "tmp" "tmp") with true. cbn iota.
  cbn [lookup assoc]. change (String.eqb "tmpwork" "tmpwork") with true. cbn iota.
  destruct q as [|c q]; [congruence|]. cbn [lookup assoc].
  destruct (String.eqb_spec "notes.txt" c) as [<-|_].
  { destruct q; [intros _; reflexivity|discriminate]. }
  destruct (String.eqb_spec "img" c) as [<-|_]; [|discriminate].
  destruct q as [|c2 q]; [intros _; reflexivity|]. cbn [lookup assoc].
  destruct (String.eqb_spec "plot.png" c2) as [<-|_]; [|discriminate].
  destruct q; [intros _; reflexivity|discriminate].
Qed.

(** C9 on three workspaces: main.tex at the root; a single paper.tex
    in a subdirectory; no .tex entry at all. *)
Lemma entry_document_on_samples :
  find_main_tex (project plain_document) work = Some (child work "main.tex")
  /\ find_main_tex workspace_with_nested_tex work = Some (work ++ ["src"; "paper.tex"])
  /\ well_formed workspace_without_tex = true
  /\ compile_workspace env_one_pass work (start workspace_without_tex)
     = (Ok (Json 400 NO_LATEX_FILES), start workspace_without_tex).
Proof.
  split; [|split; [|split]].
  - pose proof (entry_document_resolution env_one_pass work
                  (start (project plain_document))) as H.
    cbv zeta in H. destruct H as [H _]. apply H. vm_compute; reflexivity.
  - pose proof (entry_document_resolution env_one_pass work
                  (start workspace_with_nested_tex)) as H.
    cbv zeta in H. destruct H as [_ [H _]].
    refine (eq_trans (H _) _); vm_compute; reflexivity.
  - vm_compute; reflexivity.
  - pose proof (entry_document_resolution env_one_pass work
                  (start workspace_without_tex)) as H.
    cbv zeta in H. destruct H as [_ [_ [_ H]]].
    apply H; [vm_compute; reflexivity|exact sample_workspace_has_no_tex].
Defined.

End SampleRuns.

(* ===================================================================== *)
(** * Further properties of the service *)
(* ===================================================================== *)

(** ** Suffixes and the archive check *)

Section SuffixFacts.
Import PyStr PyPath FS PyStrFacts FSFacts.
Local Open Scope string_scope.

Lemma lower_ascii_dot a :
  Ascii.eqb (lower_ascii a) "."%char = Ascii.eqb a "."%char.
Proof. destruct a as [[] [] [] [] [] [] [] []]; reflexivity. Qed.

Lemma rfind_dot_lower s : rfind "."%char (lower s) = rfind "."%char s.
Proof.
  induction s as [|a s IH]; [reflexivity|].
  cbn [lower rfind]. rewrite IH, lower_ascii_dot. reflexivity.
Qed.

Lemma rfind_drop c s : forall i,
  rfind c s = Some i -> rfind c (drop i s) = Some 0.
Proof.
  induction s as [|a s IH]; intros i H; [discriminate|].
  cbn [rfind] in H. destruct (rfind c s) as [j|] eqn:Hj.
  - injection H as <-. cbn [drop]. apply IH. reflexivity.
  - destruct (Ascii.eqb a c) eqn:Ha; [|discriminate].
    injection H as <-. cbn [drop rfind]. rewrite Hj, Ha. reflexivity.
Qed.

(** The suffix of a name is empty or holds one dot, its first
    character. *)
Lemma suffix_of_name_one_dot nm :
  suffix_of_name nm = "" \/ rfind "."%char (suffix_of_name nm) = Some 0.
Proof.
  unfold suffix_of_name.
  destruct (rfind "."%char nm) as [i|] eqn:Hi; [|left; reflexivity].
  destruct ((0 <? i) && (i <? String.length nm - 1))%nat; [|left; reflexivity].
  right. apply rfind_drop. exact Hi.
Qed.

Lemma lower_suffix_not_compound nm :
  mem (lower (suffix_of_name nm)) COMPRESSED_TAR = false.
Proof.
  assert (H : lower (suffix_of_name nm) = ""
              \/ rfind "."%char (lower (suffix_of_name nm)) = Some 0).
  { destruct (suffix_of_name_one_dot nm) as [->|H];
      [left; reflexivity|right; rewrite rfind_dot_lower; exact H]. }
  destruct (mem _ COMPRESSED_TAR) eqn:Hm; [|reflexivity].
  apply mem_In in Hm.
  destruct Hm as [Hm|[Hm|[Hm|[]]]]; rewrite <- Hm in H;
    destruct H as [H|H]; discriminate H.
Qed.

(** X1.  [Path.suffix] is never one of the compound suffixes: for every
    path the lower-cased suffix differs from .tar.gz, .tar.bz2 and
    .tar.xz, so the extension lookup of [detect_file_type] never
    answers application/x-tar for them and the extension test of
    [is_archive_file] never succeeds on them. *)
Theorem suffix_is_never_compound (file_path : Path) :
  mem (lower (suffix file_path)) COMPRESSED_TAR = false
  /\ (detect_by_extension file_path = "application/x-tar"
      <-> lower (suffix file_path) = ".tar").
Proof.
  pose proof (lower_suffix_not_compound (name file_path)) as Hc.
  split; [exact Hc|].
  unfold detect_by_extension. fold (suffix file_path) in Hc.
  set (sfx := lower (suffix file_path)) in *.
  unfold COMPRESSED_TAR in Hc. cbn [mem existsb] in Hc.
  apply orb_false_iff in Hc as [Hgz Hc].
  apply orb_false_iff in Hc as [Hbz Hc].
  apply orb_false_iff in Hc as [Hxz _].
  cbn [mem existsb]. rewrite Hgz, Hbz, Hxz.
  destruct (String.eqb_spec sfx ".zip") as [->|Hzip];
    [split; intros H; discriminate H|].
  destruct (String.eqb_spec sfx ".tar") as [->|Htar];
    [split; reflexivity|].
  cbn [orb].
  destruct (sfx =? ".rar"); [split; intros H; [discriminate H|congruence]|].
  destruct (sfx =? ".7z"); split; intros H; (discriminate H || congruence).
Qed.

(** X2.  Without python-magic, [is_archive_file] accepts exactly the
    paths whose lower-cased suffix is .zip, .tar, .rar or .7z, and those
    whose lower-cased name ends with .tar.gz, .tar.bz2 or .tar.xz. *)
Theorem archive_check_without_magic (E : Env) fs file_path :
  MAGIC_SUPPORTED E = false ->
  is_archive_file E fs file_path
  = mem (lower (suffix file_path)) [".zip"; ".tar"; ".rar"; ".7z"]
    || endswith_any (lower (name file_path)) COMPRESSED_TAR.
Proof.
  intros Hm. unfold is_archive_file, detect_file_type. rewrite Hm.
  unfold detect_by_extension.
  pose proof (lower_suffix_not_compound (name file_path)) as Hc.
  fold (suffix file_path) in Hc.
  set (sfx := lower (suffix file_path)) in *.
  unfold COMPRESSED_TAR in Hc. cbn [mem existsb] in Hc.
  apply orb_false_iff in Hc as [Hgz Hc].
  apply orb_false_iff in Hc as [Hbz Hc].
  apply orb_false_iff in Hc as [Hxz _].
  cbn [mem existsb SUPPORTED_EXTENSIONS].
  rewrite Hgz, Hbz, Hxz.
  destruct (sfx =? ".zip") eqn:Hzip; [reflexivity|].
  destruct (sfx =? ".tar") eqn:Htar; [reflexivity|].
  destruct (sfx =? ".rar") eqn:Hrar; [reflexivity|].
  destruct (sfx =? ".7z") eqn:H7z; [reflexivity|].
  cbn [orb].
  destruct (endswith_any (lower (name file_path)) COMPRESSED_TAR); reflexivity.
Qed.

End SuffixFacts.

(** ** More on the passes *)

Section PassFacts.
Import PyStr PyPath FS PyStrFacts FSFacts.
Context (E : Env).

(** The test of line 146 passes only on a text in which the word
    pythontex occurs. *)
Lemma mentions_pythontex_word text :
  mentions_pythontex text = true -> contains text "pythontex" = true.
Proof.
  unfold mentions_pythontex. intros H.
  apply orb_true_iff in H as [H|H].
  - apply (contains_part text "\usepackage{" "pythontex" "}"). exact H.
  - apply andb_true_iff in H as [_ H]. exact H.
Qed.

(** X3.  When the primary pass returns without leaving a *.pytxcode
    entry, and the word pythontex does not occur in the text of the
    entry document as [open] decodes it, [compile_latex] starts no
    other process and answers whether the PDF exists, whatever the exit
    code of the pass. *)
Theorem single_pass_without_pythontex tex out wd w rc fs1 :
  child_process E (first_pass_argv tex wd) wd (fs w) = (Ok rc, fs1) ->
  glob fs1 wd ".pytxcode" = [] ->
  (forall data, lookup fs1 tex = Some (File data) ->
                contains (decode_text data) "pythontex" = false) ->
  compile_latex E tex out wd w
  = (Ok (exists_ fs1 out),
     {| fs := fs1; trace := trace w ++ [first_pass tex wd (Ok rc)] |}).
Proof.
  intros H1 Hglob Htext.
  rewrite compile_latex_passes. unfold subprocess_run. rewrite H1. cbn [fs].
  rewrite needs_pythontex_checks, Hglob. cbn [orb].
  destruct (lookup fs1 tex) as [[data|es]|] eqn:Hl; try reflexivity.
  destruct (mentions_pythontex (decode_text data)) eqn:Hm; [|reflexivity].
  apply mentions_pythontex_word in Hm. rewrite (Htext data eq_refl) in Hm.
  discriminate.
Qed.

(** X4.  A True answer of [compile_latex] is backed by the file system:
    the PDF exists in the state the call left, and the last process of
    the call returned an exit code. *)
Theorem true_answer_means_pdf_exists tex out wd w w' :
  compile_latex E tex out wd w = (Ok true, w') ->
  exists_ (fs w') out = true
  /\ exists earlier last rc,
       trace w' = trace w ++ earlier ++ [last] /\ inv_outcome last = Ok rc.
Proof.
  intros H.
  destruct (compile_latex_run E tex out wd w) as [tr [b [fs' [Heq Hrun]]]].
  rewrite Heq in H. injection H as -> <-. cbn [fs trace].
  split; [eapply compile_run_true; eauto|].
  inversion Hrun; subst.
  - exists [], (first_pass tex wd (Ok rc)), rc. split; reflexivity.
  - exists [first_pass tex wd (Ok rc); pythontex_pass E tex wd (Ok rc2)],
      (final_pass tex wd (Ok rc3)), rc3. split; reflexivity.
Qed.

(** X5.  The argv of the final pass is the argv of the first pass
    without its -f argument. *)
Theorem final_pass_drops_the_force_flag (tex_path work_dir : Path) :
  final_pass_argv tex_path work_dir
  = filter (fun arg => negb (String.eqb arg "-f")) (first_pass_argv tex_path work_dir).
Proof. reflexivity. Qed.

End PassFacts.

(** ** More on the entry document *)

Section EntryFacts.
Import PyStr PyPath FS PyStrFacts FSFacts.

Lemma name_app (d rel : Path) : rel <> [] -> name (d ++ rel) = name rel.
Proof.
  unfold name. induction d as [|c d IH]; intros H; [reflexivity|].
  cbn [app]. rewrite last_cons_nonempty; [auto|].
  destruct d; [exact H|discriminate].
Qed.

Lemma walk_sub_In suf here es nm c q :
  In (nm, c) es -> In q (walk suf (child here nm) c) ->
  In q ((fix sub (es : list (string * node)) : list Path :=
           match es with
           | [] => []
           | (nm, c) :: rest => walk suf (child here nm) c ++ sub rest
           end) es).
Proof.
  induction es as [|[k y] es IH]; intros Hin Hq; [destruct Hin|].
  apply in_or_app. destruct Hin as [Heq|Hin].
  - injection Heq as -> ->. left; exact Hq.
  - right. apply IH; assumption.
Qed.

(** The recursive search misses no entry that carries the suffix. *)
Lemma walk_complete suf rel : forall n here x,
  rel <> [] -> lookup n rel = Some x -> endswith (name rel) suf = true ->
  In (here ++ rel) (walk suf here n).
Proof.
  induction rel as [|c rel IH]; intros n here x Hne Hl Hsuf; [congruence|].
  destruct n as [d|es]; [discriminate|]. cbn [lookup] in Hl.
  destruct (assoc c es) as [sub|] eqn:Hc; [|discriminate].
  cbn [walk]. apply in_or_app. destruct rel as [|c' rel].
  - left. apply in_map_iff. exists c. split; [reflexivity|].
    apply filter_In. split; [|exact Hsuf].
    apply in_map_iff. exists (c, sub). split; [reflexivity|].
    apply assoc_In; exact Hc.
  - right. apply (walk_sub_In suf here es c sub); [apply assoc_In; exact Hc|].
    replace (here ++ c :: c' :: rel) with (child here c ++ c' :: rel)
      by (unfold child; rewrite <- app_assoc; reflexivity).
    apply (IH sub (child here c) x); [discriminate|exact Hl|].
    unfold name in *. rewrite last_cons_nonempty in Hsuf by discriminate.
    exact Hsuf.
Qed.

(** X6.  The entry document always lies inside the workspace and its
    name ends with .tex. *)
Theorem entry_document_lies_in_workspace fs workdir entry :
  find_main_tex fs workdir = Some entry ->
  exists rel, entry = workdir ++ rel /\ rel <> []
              /\ endswith (name entry) ".tex" = true.
Proof.
  unfold find_main_tex. destruct (exists_ fs (child workdir "main.tex")).
  - cbn [negb]. intros [= <-]. exists ["main.tex"].
    split; [reflexivity|]. split; [discriminate|].
    unfold child. rewrite name_app by discriminate. reflexivity.
  - cbn [negb]. unfold rglob.
    destruct (lookup fs workdir) as [n|]; [|discriminate].
    destruct (walk ".tex" workdir n) as [|q rest] eqn:Hw; [discriminate|].
    intros [= <-].
    destruct (walk_shape ".tex" n workdir q) as [rel [-> [Hne Hsuf]]];
      [rewrite Hw; left; reflexivity|].
    exists rel. split; [reflexivity|]. split; [exact Hne|].
    rewrite name_app by exact Hne. exact Hsuf.
Qed.

(** X7.  An entry named *.tex anywhere below the workspace root is
    enough for an entry document to be found. *)
Theorem tex_entry_anywhere_is_found fs workdir rel :
  rel <> [] ->
  exists_ fs (workdir ++ rel) = true ->
  endswith (name rel) ".tex" = true ->
  exists entry, find_main_tex fs workdir = Some entry.
Proof.
  intros Hne Hex Hsuf. unfold find_main_tex.
  destruct (exists_ fs (child workdir "main.tex")); cbn [negb]; [eauto|].
  unfold exists_ in Hex.
  destruct (lookup fs (workdir ++ rel)) as [x|] eqn:Hl; [|discriminate].
  destruct (lookup_prefix _ _ _ _ Hl) as [m Hm].
  rewrite (lookup_app _ _ _ _ Hm) in Hl.
  pose proof (walk_complete ".tex" rel m workdir x Hne Hl Hsuf) as Hin.
  unfold rglob. rewrite Hm.
  destruct (walk ".tex" workdir m); [destruct Hin|eauto].
Qed.

End EntryFacts.

(** ** More on extraction *)

Section ExtractionFacts.
Import PyStr PyPath FS PyStrFacts FSFacts.
Local Open Scope string_scope.
Context (E : Env).

(** X8.  What [testzip] reports does not matter: on the zip route, once
    the archive opens and [testzip] returns, with or without the name of
    a damaged member, the outcome of [extract_archive] is the outcome of
    [extractall], a BadZipFile turned into a ValueError. *)
Theorem testzip_report_is_not_inspected fs archive_path dest damaged :
  is_archive_file E fs archive_path = true ->
  exists_ fs archive_path = true ->
  archive_route (detect_file_type E fs archive_path)
                (lower (suffix archive_path)) (name archive_path) = RouteZip ->
  codec_open (zipfile_ZipFile E) fs archive_path = Ok tt ->
  zipfile_testzip E fs archive_path = Ok damaged ->
  extract_archive E archive_path dest fs
  = match codec_extractall (zipfile_ZipFile E) archive_path dest fs with
    | (Ok u, fs') => (Ok u, fs')
    | (Raise e, fs') =>
        if exn_class_eqb (exn_kind e) BadZipFile
        then (Raise (Exn ValueError ("Invalid ZIP file: " ++ exn_str e)), fs')
        else (Raise e, fs')
    end.
Proof.
  intros Hs Hx Hr Hopen Htest.
  rewrite (extract_archive_dispatch E _ _ _ Hs Hx), Hr.
  cbn [extraction_routine].
  unfold try_except_class, try_except, bind, attempt, raise.
  rewrite Hopen, Htest.
  destruct (codec_extractall (zipfile_ZipFile E) archive_path dest fs)
    as [[u|e] fs']; [reflexivity|].
  destruct (exn_class_eqb (exn_kind e) BadZipFile); reflexivity.
Qed.

Lemma exn_class_eqb_eq a b : exn_class_eqb a b = true <-> a = b.
Proof.
  split; [|intros ->; destruct b; reflexivity].
  destruct a, b; (reflexivity || discriminate).
Qed.

(** X9.  No BadZipFile leaves the zip route: whatever zipfile raises
    there, [extract_archive] raises an exception of another class. *)
Theorem zip_route_raises_no_BadZipFile fs archive_path dest e fs' :
  archive_route (detect_file_type E fs archive_path)
                (lower (suffix archive_path)) (name archive_path) = RouteZip ->
  extract_archive E archive_path dest fs = (Raise e, fs') ->
  exn_kind e <> BadZipFile.
Proof.
  intros Hr Hraise.
  destruct (is_archive_file E fs archive_path) eqn:Hs;
    [|rewrite extract_archive_unsupported in Hraise by exact Hs;
      injection Hraise as <- _; discriminate].
  destruct (exists_ fs archive_path) eqn:Hx;
    [|rewrite extract_archive_missing in Hraise by assumption;
      injection Hraise as <- _; discriminate].
  rewrite (extract_archive_dispatch E _ _ _ Hs Hx), Hr in Hraise.
  cbn [extraction_routine] in Hraise.
  unfold try_except_class, try_except, bind, attempt, raise in Hraise.
  assert (Hconv : forall (x : exn) (s : node),
            (if exn_class_eqb (exn_kind x) BadZipFile
             then fun s : node =>
                    (Raise (Exn ValueError ("Invalid ZIP file: " ++ exn_str x)), s)
             else fun s : node => (@Raise unit x, s)) s = (Raise e, fs') ->
            exn_kind e <> BadZipFile).
  { intros x s H. destruct (exn_class_eqb (exn_kind x) BadZipFile) eqn:Hk;
      injection H as <- _; [discriminate|].
    intros Habs. apply exn_class_eqb_eq in Habs. congruence. }
  destruct (codec_open (zipfile_ZipFile E) fs archive_path) as [[]|e1];
    [|eapply Hconv; exact Hraise].
  destruct (zipfile_testzip E fs archive_path) as [bad|e2];
    [|eapply Hconv; exact Hraise].
  destruct (codec_extractall (zipfile_ZipFile E) archive_path dest fs)
    as [[[]|e3] fs3]; [discriminate|eapply Hconv; exact Hraise].
Qed.

(** X10.  A supported name that names nothing is answered with
    FileNotFoundError, whatever the route, and nothing is written. *)
Theorem missing_archive_is_not_found fs archive_path dest :
  is_archive_file E fs archive_path = true ->
  exists_ fs archive_path = false ->
  extract_archive E archive_path dest fs
  = (Raise (Exn FileNotFoundError ("Archive file not found: " ++ str archive_path)), fs).
Proof. apply extract_archive_missing. Qed.

End ExtractionFacts.

(** ** Saving the upload *)

Section UploadFacts.
Import PyStr PyPath FS PyStrFacts FSFacts.
Context (E : Env).

(** Writing below an existing directory: the path then names what [f]
    answered. *)
Lemma lookup_alter_write p f : forall n es,
  p <> [] -> lookup n (parent p) = Some (Dir es) ->
  lookup (alter p f n) p = f (lookup n p).
Proof.
  unfold parent.
  induction p as [|c p IH]; intros n es Hp Hl; [congruence|].
  destruct p as [|c' p].
  - cbn [removelast lookup] in Hl. injection Hl as ->.
    cbn [alter lookup]. rewrite assoc_set_same.
    destruct (assoc c es); destruct (f _); reflexivity.
  - change (removelast (c :: c' :: p)) with (c :: removelast (c' :: p)) in Hl.
    destruct n as [d|es0]; [discriminate|]. cbn [lookup] in Hl.
    destruct (assoc c es0) as [sub|] eqn:Hc; [|discriminate].
    cbn [alter]. rewrite Hc. cbn [lookup]. rewrite assoc_put_same, Hc.
    apply (IH sub es); [discriminate|exact Hl].
Qed.

Lemma parent_child d nm : parent (child d nm) = d.
Proof. unfold parent, child. apply removelast_last. Qed.

Lemma name_child d nm : name (child d nm) = nm.
Proof. unfold name, child. apply last_last. Qed.

Lemma try_except_returned {S A} (m : SE S A) h s a s' :
  (forall e s0, fst (h e s0) <> Ok a) ->
  try_except m h s = (Ok a, s') -> m s = (Ok a, s').
Proof.
  unfold try_except. intros Hh. destruct (m s) as [[x|e] s1]; [auto|].
  intros H. exfalso. apply (Hh e s1). rewrite H. reflexivity.
Qed.

Lemma after_swallow_raise {S A} (m : SE S unit) (e : exn) (a : A) s :
  fst ((try_except m (fun _ => ret tt) ;;; @raise S A e) s) <> Ok a.
Proof.
  unfold bind, try_except, ret, raise.
  destruct (m s) as [[[]|e0] s1]; cbn; discriminate.
Qed.

Lemma write_bytes_returned p data fs1 fs2 :
  p <> [] ->
  write_bytes p data fs1 = (Ok tt, fs2) ->
  lookup fs2 p = Some (File data).
Proof.
  unfold write_bytes. intros Hp.
  destruct (lookup fs1 (parent p)) as [[d|es]|] eqn:Hpar; try discriminate.
  destruct (lookup fs1 p) as [[d|es']|] eqn:Hl; try discriminate;
    intros [= <-]; rewrite (lookup_alter_write p _ fs1 es Hp Hpar); reflexivity.
Qed.

Lemma mkdtemp_returned fs0 d fs1 :
  mkdtemp E fs0 = (Ok d, fs1) -> d = child (gettempdir E) (mkdtemp_name E fs0).
Proof.
  unfold mkdtemp, bind, read, ret.
  destruct (mkdir _ fs0) as [[[]|e] fs']; [|discriminate].
  intros [= <- _]. reflexivity.
Qed.

(** What a call of [save_uploaded_file] that returns has done. *)
Lemma save_returned uploaded fs0 p fs' :
  save_uploaded_file E uploaded fs0 = (Ok p, fs') ->
  lookup fs' p = Some (File (stream uploaded))
  /\ stream uploaded <> ""%string
  /\ exists sfx,
       p = child (child (gettempdir E) (mkdtemp_name E fs0)) ("upload" ++ sfx)%string
       /\ if endswith_any (secure_filename E (filename uploaded)) COMPRESSED_TAR
          then exists rest,
                 after_first "."%char (secure_filename E (filename uploaded)) = Some rest
                 /\ sfx = ("." ++ rest)%string
          else sfx = suffix_of_name (secure_filename E (filename uploaded)).
Proof.
  unfold save_uploaded_file.
  set (fname := secure_filename E (filename uploaded)).
  unfold bind at 1.
  destruct (endswith_any fname COMPRESSED_TAR);
    [destruct (after_first "."%char fname) as [rest|]; [|discriminate];
     unfold ret at 1; remember ("." ++ rest)%string as sfx eqn:Hsfx
    |unfold ret at 1; remember (suffix_of_name fname) as sfx eqn:Hsfx].
  all: unfold bind at 1.
  all: destruct (mkdtemp E fs0) as [[temp_dir|e] fs1] eqn:Hmk; [|discriminate].
  all: apply mkdtemp_returned in Hmk.
  all: unfold bind at 1.
  all: set (tmp := child temp_dir ("upload" ++ sfx)%string).
  all: match goal with |- context [try_except ?m ?h ?s1] =>
         destruct (try_except m h s1) as [[u|e] fs2] eqn:Ht; [|discriminate];
         apply try_except_returned in Ht; [|intros; apply after_swallow_raise]
       end.
  all: unfold ret; intros [= <- <-].
  all: unfold bind at 1 in Ht.
  all: destruct (write_bytes tmp (stream uploaded) fs1) as [[[]|e] fs3] eqn:Hw;
         [|discriminate].
  all: apply write_bytes_returned in Hw;
         [|unfold tmp, child; intros Habs; destruct temp_dir; discriminate].
  all: unfold bind at 1, read at 1 in Ht.
  all: destruct (exists_ fs3 tmp); [|discriminate].
  all: unfold bind at 1, stat_size, attempt in Ht; rewrite Hw in Ht.
  all: destruct (String.length (stream uploaded) =? 0)%nat eqn:Hlen; [discriminate|].
  all: assert (Hne : stream uploaded <> ""%string)
         by (intros Habs; rewrite Habs in Hlen; discriminate).
  all: assert (Hfs : fs2 = fs3)
         by (destruct (lower sfx =? ".zip")%string;
             [unfold try_except_class, try_except, bind, attempt, ret, raise in Ht;
              destruct (codec_open (zipfile_ZipFile E) fs3 tmp) as [[]|e1];
              [destruct (zipfile_testzip E fs3 tmp) as [bad|e2];
               [injection Ht as _ <-; reflexivity
               |cbv beta iota in Ht;
                destruct (exn_class_eqb (exn_kind e2) BadZipFile);
                cbv beta iota in Ht; discriminate Ht]
              |cbv beta iota in Ht;
               destruct (exn_class_eqb (exn_kind e1) BadZipFile);
               cbv beta iota in Ht; discriminate Ht]
             |injection Ht as _ <-; reflexivity]).
  all: subst fs2; split; [exact Hw|]; split; [exact Hne|].
  all: exists sfx; split; [unfold tmp; rewrite Hmk; reflexivity|].
  - exists rest. split; [reflexivity|exact Hsfx].
  - reflexivity.
Qed.

(** X11.  A call of [save_uploaded_file] that returns has stored the
    bytes of the upload, which are not empty, in a file called
    upload... in the directory [mkdtemp] made; reading the returned
    path gives the upload back. *)
Theorem saved_upload_holds_the_stream uploaded fs0 p fs' :
  save_uploaded_file E uploaded fs0 = (Ok p, fs') ->
  read_bytes p fs' = (Ok (stream uploaded), fs')
  /\ stream uploaded <> ""%string
  /\ parent p = child (gettempdir E) (mkdtemp_name E fs0)
  /\ startswith (name p) "upload" = true.
Proof.
  intros H. destruct (save_returned _ _ _ _ H) as [Hl [Hne [sfx [-> _]]]].
  split; [unfold read_bytes, attempt; rewrite Hl; reflexivity|].
  split; [exact Hne|]. split; [apply parent_child|].
  rewrite name_child. reflexivity.
Qed.

Lemma find_drop c s : forall i,
  find c s = Some i -> drop i s = String c (drop (S i) s).
Proof.
  induction s as [|a s IH]; intros i H; [discriminate|].
  cbn [find] in H. destruct (Ascii.eqb a c) eqn:Ha.
  - apply Ascii.eqb_eq in Ha. subst a. injection H as <-. reflexivity.
  - destruct (find c s) as [j|] eqn:Hj; [|discriminate].
    injection H as <-. cbn [drop]. apply IH. reflexivity.
Qed.

(** Cutting a string at the first [c] keeps a suffix that starts with
    [c]. *)
Lemma endswith_drop_find c s suf : forall i,
  endswith s (String c suf) = true -> find c s = Some i ->
  endswith (drop i s) (String c suf) = true.
Proof.
  induction s as [|a s IH]; intros i He Hf; [discriminate|].
  cbn [find] in Hf. destruct (Ascii.eqb a c) eqn:Ha.
  - injection Hf as <-. exact He.
  - destruct (find c s) as [j|] eqn:Hj; [|discriminate].
    injection Hf as <-. cbn [drop]. apply IH; [|reflexivity].
    cbn [endswith] in He. apply orb_true_iff in He as [He|He]; [|exact He].
    apply String.eqb_eq in He. injection He as -> _.
    rewrite Ascii.eqb_refl in Ha. discriminate.
Qed.

Lemma endswith_prepend a b suf :
  endswith b suf = true -> endswith (a ++ b)%string suf = true.
Proof.
  intros H. induction a as [|c a IH]; [exact H|].
  cbn [append endswith]. rewrite IH. apply orb_true_r.
Qed.

Lemma endswith_lower s suf :
  endswith s suf = true -> endswith (lower s) (lower suf) = true.
Proof.
  induction s as [|c s IH]; cbn [endswith lower]; intros H.
  - rewrite orb_false_r in H. apply String.eqb_eq in H. subst suf.
    reflexivity.
  - apply orb_true_iff in H as [H|H].
    + apply String.eqb_eq in H. subst suf. cbn [lower].
      rewrite String.eqb_refl. reflexivity.
    + rewrite (IH H). apply orb_true_r.
Qed.

Lemma after_first_keeps_suffix fname suf rest :
  endswith fname (String "."%char suf) = true ->
  after_first "."%char fname = Some rest ->
  endswith ("upload" ++ "." ++ rest)%string (String "."%char suf) = true.
Proof.
  unfold after_first. intros He Ha.
  destruct (find "."%char fname) as [i|] eqn:Hi; [|discriminate].
  assert (Hr : drop (S i) fname = rest) by congruence.
  rewrite <- Hr. clear Hr Ha.
  apply (endswith_prepend "upload").
  replace ("." ++ drop (S i) fname)%string with (drop i fname)
    by (rewrite (find_drop _ _ _ Hi); reflexivity).
  apply endswith_drop_find; assumption.
Qed.

(** X12.  An upload whose secured name ends with .tar.gz, .tar.bz2 or
    .tar.xz is saved under a name [is_archive_file] accepts in every
    state, and [extract_archive] hands it to tarfile, unless the
    detected type is one of the two zip types. *)
Theorem compressed_tar_upload_reaches_tarfile uploaded fs0 p fs' :
  endswith_any (secure_filename E (filename uploaded)) COMPRESSED_TAR = true ->
  save_uploaded_file E uploaded fs0 = (Ok p, fs') ->
  forall fs,
    is_archive_file E fs p = true
    /\ archive_route (detect_file_type E fs p) (lower (suffix p)) (name p)
       = if mem (detect_file_type E fs p)
                ["application/zip"; "application/x-zip-compressed"]%string
         then RouteZip else RouteTar.
Proof.
  intros Hc Hsave fs.
  destruct (save_returned _ _ _ _ Hsave) as [_ [_ [sfx [-> Hsfx]]]].
  rewrite Hc in Hsfx. destruct Hsfx as [rest [Hrest ->]].
  assert (Hname : endswith_any ("upload" ++ "." ++ rest)%string COMPRESSED_TAR = true).
  { unfold endswith_any, COMPRESSED_TAR in *. cbn [existsb] in *.
    rewrite orb_false_r in *.
    apply orb_true_iff in Hc as [Hc|Hc]; [|apply orb_true_iff in Hc as [Hc|Hc]];
      rewrite (after_first_keeps_suffix _ _ _ Hc Hrest);
      rewrite ?orb_true_r; reflexivity. }
  assert (Hlower : endswith_any (lower ("upload" ++ "." ++ rest)%string) COMPRESSED_TAR
                   = true).
  { unfold endswith_any, COMPRESSED_TAR in *. cbn [existsb] in *.
    rewrite orb_false_r in *.
    apply orb_true_iff in Hname as [H|H]; [|apply orb_true_iff in H as [H|H]];
      apply endswith_lower in H;
      [change (lower ".tar.gz") with ".tar.gz"%string in H
      |change (lower ".tar.bz2") with ".tar.bz2"%string in H
      |change (lower ".tar.xz") with ".tar.xz"%string in H];
      rewrite H; rewrite ?orb_true_r; reflexivity. }
  split.
  - unfold is_archive_file. rewrite name_child, Hlower.
    destruct (mem _ (map fst ARCHIVE_MIMES)); [reflexivity|].
    destruct (mem _ SUPPORTED_EXTENSIONS); reflexivity.
  - unfold archive_route. rewrite name_child, Hname.
    unfold suffix. rewrite name_child.
    pose proof (suffix_of_compressed_tar _ Hname) as Hs.
    apply mem_In in Hs.
    destruct (mem (detect_file_type E fs _) _); [reflexivity|].
    destruct Hs as [<-|[<-|[<-|[]]]]; cbn [orb String.eqb];
      rewrite ?orb_true_r; reflexivity.
Qed.

End UploadFacts.

(** ** More on requests *)

Section RequestFacts.
Import PyStr PyPath FS PyStrFacts FSFacts.
Context (E : Env).

Lemma compile_run_nonempty tex out wd fs0 tr b fs1 :
  compile_run E tex out wd fs0 tr b fs1 -> tr <> [].
Proof. intros H. destruct H; discriminate. Qed.

(** X13.  A request starts a process only after its upload was saved,
    accepted by [is_archive_file], unpacked without an exception, and an
    entry document was found. *)
Theorem no_process_without_extraction request w r w' :
  compile_latex_endpoint E request w = (r, w') ->
  trace w' <> trace w ->
  exists uploaded workdir fs1 archive_path fs2 fs3 entry,
    assoc_file request = Some uploaded
    /\ mkdtemp E (fs w) = (Ok workdir, fs1)
    /\ save_uploaded_file E uploaded fs1 = (Ok archive_path, fs2)
    /\ is_archive_file E fs2 archive_path = true
    /\ extract_archive E archive_path workdir fs2 = (Ok tt, fs3)
    /\ find_main_tex fs3 workdir = Some entry.
Proof.
  intros Hend Htrace.
  destruct (endpoint_cases E _ _ _ _ Hend)
    as [[Hsame _]|[up [wd [fs1 [ap [fs2 [fs3 [entry [tr [b [fsc H]]]]]]]]]]];
    [congruence|].
  destruct H as [H1 [H2 [H3 [H4 [H5 [H6 _]]]]]].
  exists up, wd, fs1, ap, fs2, fs3, entry. repeat split; assumption.
Qed.

(** X14.  Every JSON answer of the endpoint has status 400, every
    attachment the type application/pdf, and the only exceptions that
    leave the endpoint are the one [mkdtemp] raised for the workspace
    and the one [send_file] raised for the PDF of this request: the
    upload was saved and unpacked, an entry document found,
    [compile_latex] answered True on it, and [send_file] raised on the
    path of its PDF in the file system [compile_latex] left. *)
Theorem endpoint_answers request w :
  match compile_latex_endpoint E request w with
  | (Ok (Json status _), _) => status = 400
  | (Ok (Attachment _ mimetype _ _), _) => mimetype = "application/pdf"%string
  | (Raise e, w') =>
      (exists fs1, mkdtemp E (fs w) = (Raise e, fs1))
      \/ exists uploaded workdir fs1 archive_path fs2 fs3 entry fsc,
           assoc_file request = Some uploaded
           /\ mkdtemp E (fs w) = (Ok workdir, fs1)
           /\ save_uploaded_file E uploaded fs1 = (Ok archive_path, fs2)
           /\ extract_archive E archive_path workdir fs2 = (Ok tt, fs3)
           /\ find_main_tex fs3 workdir = Some entry
           /\ compile_latex E entry (child workdir (stem entry ++ ".pdf")%string)
                            workdir {| fs := fs3; trace := trace w |}
              = (Ok true, {| fs := fsc; trace := trace w' |})
           /\ flask_send_file E fsc (child workdir (stem entry ++ ".pdf")%string)
              = Raise e
  end.
Proof.
  destruct (compile_latex_endpoint E request w) as [r w'] eqn:Hend.
  destruct (endpoint_cases E _ _ _ _ Hend)
    as [[_ [[msg ->]|[e [fs1 [-> Hmk]]]]]
       |[up [wd [fs1 [ap [fs2 [fs3 [entry [tr [b [fsc H]]]]]]]]]]].
  - reflexivity.
  - left. eauto.
  - destruct H as [Hup [Hmk [Hsave [_ [Hx [Hentry [_ [_ [Htrue [Hfalse [Hcl _]]]]]]]]]]].
    destruct b.
    + rewrite (Htrue eq_refl).
      destruct (flask_send_file E fsc _) as [payload|e] eqn:Hsend;
        [reflexivity|].
      right. exists up, wd, fs1, ap, fs2, fs3, entry, fsc. auto 10.
    + destruct (Hfalse eq_refl) as [msg [_ ->]]. reflexivity.
Qed.

(** X15.  An attachment is the PDF of the entry document of this
    request: the upload was saved and unpacked into the workspace, the
    entry document found there, [compile_latex] answered True on it;
    the attachment is named after the stem of that document, lies at
    the root of the workspace, exists in the file system
    [compile_latex] left, and its payload is what [send_file] read
    there, before the [finally] block removed the workspace. *)
Theorem attachment_is_the_pdf_of_the_entry request w path mimetype download_name
    payload w' :
  compile_latex_endpoint E request w
  = (Ok (Attachment path mimetype download_name payload), w') ->
  exists uploaded workdir fs1 archive_path fs2 fs3 entry rc rest fsc,
    assoc_file request = Some uploaded
    /\ mkdtemp E (fs w) = (Ok workdir, fs1)
    /\ save_uploaded_file E uploaded fs1 = (Ok archive_path, fs2)
    /\ extract_archive E archive_path workdir fs2 = (Ok tt, fs3)
    /\ find_main_tex fs3 workdir = Some entry
    /\ compile_latex E entry path workdir {| fs := fs3; trace := trace w |}
       = (Ok true, {| fs := fsc; trace := trace w' |})
    /\ trace w' = trace w ++ first_pass entry workdir rc :: rest
    /\ download_name = (stem entry ++ ".pdf")%string
    /\ path = child workdir download_name
    /\ exists_ fsc path = true
    /\ flask_send_file E fsc path = Ok payload
    /\ cleanup E (Some archive_path) workdir fsc = (Ok tt, fs w').
Proof.
  intros Hend.
  destruct (endpoint_cases E _ _ _ _ Hend)
    as [[_ [[msg H]|[e [fs1 [H _]]]]]
       |[up [wd [fs1 [ap [fs2 [fs3 [entry [tr [b [fsc H]]]]]]]]]]];
    [discriminate H|discriminate H|].
  destruct H as [Hup [Hmk [Hsave [_ [Hx [Hentry [Hrun [Htr [Htrue [Hfalse [Hcl Hclean]]]]]]]]]]].
  destruct b; [|destruct (Hfalse eq_refl) as [msg [_ H]]; discriminate H].
  pose proof (Htrue eq_refl) as Hr.
  destruct (flask_send_file E fsc _) as [payload0|e] eqn:Hsend; [|discriminate Hr].
  injection Hr as -> _ -> ->.
  destruct (compile_run_starts E _ _ _ _ _ _ _ Hrun) as [rc [rest Hrest]].
  subst tr.
  exists up, wd, fs1, ap, fs2, fs3, entry, rc, rest, fsc.
  do 9 (split; [assumption || reflexivity|]).
  split; [eapply compile_run_true; eauto|]. split; assumption.
Qed.

(** X16.  A request starts at most three processes, and each of them is
    latexmk or pythontex. *)
Theorem at_most_three_processes request w r w' :
  compile_latex_endpoint E request w = (r, w') ->
  exists tr,
    trace w' = trace w ++ tr
    /\ length tr <= 3
    /\ Forall (fun i => hd ""%string (inv_argv i) = "latexmk"%string
                        \/ hd ""%string (inv_argv i) = "pythontex"%string) tr.
Proof.
  intros Hend.
  destruct (endpoint_cases E _ _ _ _ Hend)
    as [[Hsame _]|[up [wd [fs1 [ap [fs2 [fs3 [entry [tr [b [fsc H]]]]]]]]]]].
  - exists []. rewrite app_nil_r. split; [exact Hsame|]. split; [cbn; lia|constructor].
  - destruct H as [_ [_ [_ [_ [_ [_ [Hrun [Htr _]]]]]]]].
    exists tr. split; [exact Htr|].
    destruct Hrun; (split; [cbn; lia|]);
      repeat (apply Forall_cons;
              [first [left; reflexivity|right; reflexivity]|]);
      apply Forall_nil.
Qed.

End RequestFacts.

(** ** Further runs on the sample environments *)

Section MoreSampleRuns.
Import PyStr PyPath FS Sample MoreSamples.

(** X2 on upload.gz, which no test accepts. *)
Lemma upload_gz_is_not_an_archive :
  MAGIC_SUPPORTED env_one_pass = false
  /\ is_archive_file env_one_pass (uploaded_as "upload.gz") (child upload_dir "upload.gz")
     = false.
Proof.
  split; [reflexivity|].
  rewrite (archive_check_without_magic env_one_pass (uploaded_as "upload.gz")
             (child upload_dir "upload.gz") eq_refl).
  vm_compute. reflexivity.
Defined.

(** X3 on a document without pythontex. *)
Lemma plain_document_gets_one_pass :
  let w := start (project plain_document) in
  let after := child_process env_one_pass (first_pass_argv main_tex work) work (fs w) in
  fst after = Ok 0%Z
  /\ glob (snd after) work ".pytxcode" = []
  /\ contains (decode_text plain_document) "pythontex" = false
  /\ compile_latex env_one_pass main_tex main_pdf work w
     = (Ok true, {| fs := snd after; trace := [first_pass main_tex work (Ok 0%Z)] |}).
Proof.
  intros w after.
  split; [vm_compute; reflexivity|]. split; [vm_compute; reflexivity|].
  split; [vm_compute; reflexivity|].
  assert (H1 : child_process env_one_pass (first_pass_argv main_tex work) work (fs w)
               = (Ok 0%Z, snd after)) by (vm_compute; reflexivity).
  assert (H2 : glob (snd after) work ".pytxcode" = []) by (vm_compute; reflexivity).
  assert (H3 : forall data, lookup (snd after) main_tex = Some (File data) ->
                            contains (decode_text data) "pythontex" = false).
  { intros data H. vm_compute in H. injection H as <-. vm_compute. reflexivity. }
  rewrite (single_pass_without_pythontex env_one_pass main_tex main_pdf work w
             0%Z (snd after) H1 H2 H3).
  vm_compute. reflexivity.
Defined.

(** X4 on the same run. *)
Lemma true_answer_on_sample :
  let run := compile_latex env_one_pass main_tex main_pdf work
               (start (project plain_document)) in
  fst run = Ok true /\ exists_ (fs (snd run)) main_pdf = true.
Proof.
  intros run. split; [vm_compute; reflexivity|].
  assert (H : run = (Ok true, snd run)) by (vm_compute; reflexivity).
  exact (proj1 (true_answer_means_pdf_exists env_one_pass main_tex main_pdf work
                  (start (project plain_document)) (snd run) H)).
Defined.

(** X6 and X7 on a workspace whose only .tex entry is src/paper.tex. *)
Lemma nested_entry_lies_in_workspace :
  find_main_tex workspace_with_nested_tex work = Some (work ++ ["src"; "paper.tex"])
  /\ exists rel, work ++ ["src"; "paper.tex"] = work ++ rel /\ rel <> []
                 /\ endswith (name (work ++ ["src"; "paper.tex"])) ".tex" = true.
Proof.
  assert (H : find_main_tex workspace_with_nested_tex work
              = Some (work ++ ["src"; "paper.tex"])) by (vm_compute; reflexivity).
  split; [exact H|].
  exact (entry_document_lies_in_workspace workspace_with_nested_tex work _ H).
Defined.

Lemma nested_entry_is_found :
  exists_ workspace_with_nested_tex (work ++ ["src"; "paper.tex"]) = true
  /\ exists entry, find_main_tex workspace_with_nested_tex work = Some entry.
Proof.
  split; [vm_compute; reflexivity|].
  apply (tex_entry_anywhere_is_found workspace_with_nested_tex work ["src"; "paper.tex"]);
    [discriminate|vm_compute; reflexivity|vm_compute; reflexivity].
Defined.

(** X8 on an archive in which [testzip] names b.tex: b.tex is unpacked
    with the rest. *)
Lemma damaged_member_is_unpacked :
  let archive := child upload_dir "upload.zip" in
  let before := uploaded_as "upload.zip" in
  let run := extract_archive env_damaged_member archive work before in
  zipfile_testzip env_damaged_member before archive = Ok (Some "b.tex"%string)
  /\ fst run = Ok tt
  /\ lookup (snd run) (child work "b.tex") = Some (File "damaged").
Proof.
  intros archive before run. split; [reflexivity|].
  assert (H : run = match codec_extractall (zipfile_ZipFile env_damaged_member)
                            archive work before with
                    | (Ok u, fs') => (Ok u, fs')
                    | (Raise e, fs') =>
                        if exn_class_eqb (exn_kind e) BadZipFile
                        then (Raise (Exn ValueError
                                       ("Invalid ZIP file: " ++ exn_str e)%string), fs')
                        else (Raise e, fs')
                    end).
  { apply (testzip_report_is_not_inspected env_damaged_member before archive work
             (Some "b.tex"%string)); vm_compute; reflexivity. }
  rewrite H. vm_compute. split; reflexivity.
Defined.

(** X9 on a file that is no zip archive. *)
Lemma bad_zip_leaves_as_value_error :
  let archive := child upload_dir "upload.zip" in
  let before := uploaded_as "upload.zip" in
  let e := Exn ValueError "Invalid ZIP file: File is not a zip file" in
  extract_archive env_bad_zip archive work before = (Raise e, before)
  /\ exn_kind e <> BadZipFile.
Proof.
  intros archive before e.
  assert (H : extract_archive env_bad_zip archive work before = (Raise e, before))
    by (vm_compute; reflexivity).
  split; [exact H|].
  apply (zip_route_raises_no_BadZipFile env_bad_zip before archive work e before);
    [vm_compute; reflexivity|exact H].
Defined.

(** X10 on a supported name that names nothing. *)
Lemma missing_upload_zip_is_not_found :
  let archive := child upload_dir "upload.zip" in
  is_archive_file env_one_pass empty_disk archive = true
  /\ exists_ empty_disk archive = false
  /\ extract_archive env_one_pass archive work empty_disk
     = (Raise (Exn FileNotFoundError "Archive file not found: /tmp/tmpupload/upload.zip"),
        empty_disk).
Proof.
  intros archive. split; [vm_compute; reflexivity|].
  split; [vm_compute; reflexivity|].
  rewrite (missing_archive_is_not_found env_one_pass empty_disk archive work)
    by (vm_compute; reflexivity).
  vm_compute. reflexivity.
Defined.

(** X11 on a zip upload. *)
Lemma saved_zip_reads_back :
  let upload := {| filename := "project.zip"; stream := "PK archive bytes" |} in
  let run := save_uploaded_file env_one_pass upload workspace_ready in
  fst run = Ok (child upload_dir "upload.zip")
  /\ read_bytes (child upload_dir "upload.zip") (snd run)
     = (Ok "PK archive bytes"%string, snd run).
Proof.
  intros upload run.
  assert (H : run = (Ok (child upload_dir "upload.zip"), snd run))
    by (vm_compute; reflexivity).
  split; [vm_compute; reflexivity|].
  exact (proj1 (saved_upload_holds_the_stream env_one_pass upload workspace_ready
                  _ _ H)).
Defined.

(** X12 on my.project.tar.gz, saved as upload.project.tar.gz. *)
Lemma tar_gz_upload_reaches_tarfile :
  let run := save_uploaded_file env_one_pass tar_gz_upload workspace_ready in
  let saved := child upload_dir "upload.project.tar.gz" in
  fst run = Ok saved
  /\ detect_file_type env_one_pass (snd run) saved = "application/octet-stream"%string
  /\ is_archive_file env_one_pass (snd run) saved = true
  /\ archive_route (detect_file_type env_one_pass (snd run) saved)
       (lower (suffix saved)) (name saved) = RouteTar.
Proof.
  intros run saved.
  assert (H : run = (Ok saved, snd run)) by (vm_compute; reflexivity).
  split; [vm_compute; reflexivity|]. split; [vm_compute; reflexivity|].
  destruct (compressed_tar_upload_reaches_tarfile env_one_pass tar_gz_upload
              workspace_ready saved (snd run) eq_refl H (snd run)) as [Hs Hr].
  split; [exact Hs|]. rewrite Hr. vm_compute. reflexivity.
Defined.

(** X13, X15 and X16 on the request that is answered with the PDF. *)
Lemma process_started_after_extraction :
  let run := compile_latex_endpoint env_one_pass zip_request (start empty_disk) in
  trace (snd run) <> []
  /\ exists uploaded workdir fs1 archive_path fs2 fs3 entry,
       assoc_file zip_request = Some uploaded
       /\ mkdtemp env_one_pass empty_disk = (Ok workdir, fs1)
       /\ save_uploaded_file env_one_pass uploaded fs1 = (Ok archive_path, fs2)
       /\ is_archive_file env_one_pass fs2 archive_path = true
       /\ extract_archive env_one_pass archive_path workdir fs2 = (Ok tt, fs3)
       /\ find_main_tex fs3 workdir = Some entry.
Proof.
  intros run.
  assert (Hne : trace (snd run) <> []) by (vm_compute; discriminate).
  split; [exact Hne|].
  exact (no_process_without_extraction env_one_pass zip_request (start empty_disk)
           (fst run) (snd run) (surjective_pairing run) Hne).
Defined.

Lemma attachment_on_sample :
  let run := compile_latex_endpoint env_one_pass zip_request (start empty_disk) in
  fst run = Ok (Attachment (child work "main.pdf") "application/pdf" "main.pdf" "%PDF-1.5")
  /\ exists uploaded workdir fs1 archive_path fs2 fs3 entry rc rest fsc,
       assoc_file zip_request = Some uploaded
       /\ mkdtemp env_one_pass empty_disk = (Ok workdir, fs1)
       /\ save_uploaded_file env_one_pass uploaded fs1 = (Ok archive_path, fs2)
       /\ extract_archive env_one_pass archive_path workdir fs2 = (Ok tt, fs3)
       /\ find_main_tex fs3 workdir = Some entry
       /\ compile_latex env_one_pass entry (child work "main.pdf") workdir
                        {| fs := fs3; trace := [] |}
          = (Ok true, {| fs := fsc; trace := trace (snd run) |})
       /\ trace (snd run) = [] ++ first_pass entry workdir rc :: rest
       /\ "main.pdf"%string = (stem entry ++ ".pdf")%string
       /\ child work "main.pdf" = child workdir "main.pdf"
       /\ exists_ fsc (child work "main.pdf") = true
       /\ flask_send_file env_one_pass fsc (child work "main.pdf") = Ok "%PDF-1.5"%string
       /\ cleanup env_one_pass (Some archive_path) workdir fsc = (Ok tt, fs (snd run)).
Proof.
  intros run.
  assert (H : run = (Ok (Attachment (child work "main.pdf") "application/pdf"
                                    "main.pdf" "%PDF-1.5"), snd run))
    by (vm_compute; reflexivity).
  split; [vm_compute; reflexivity|].
  exact (attachment_is_the_pdf_of_the_entry env_one_pass zip_request (start empty_disk)
           _ _ _ _ _ H).
Defined.

Lemma one_process_on_sample :
  let run := compile_latex_endpoint env_one_pass zip_request (start empty_disk) in
  exists tr,
    trace (snd run) = [] ++ tr
    /\ length tr <= 3
    /\ Forall (fun i => hd ""%string (inv_argv i) = "latexmk"%string
                        \/ hd ""%string (inv_argv i) = "pythontex"%string) tr.
Proof.
  intros run.
  exact (at_most_three_processes env_one_pass zip_request (start empty_disk)
           (fst run) (snd run) (surjective_pairing run)).
Defined.

End MoreSampleRuns.
